(** * Neo Together: discovery, matching and group formation

    A shallow embedding of the Neo Together front end (React pages
    [Browse.tsx], [Meetups.tsx], [Dashboard.tsx] and the component
    [AvailabilityForm.tsx]) and of the matching / group engine that the
    front end talks to.  Event handlers are pure functions from the
    component state to the new state and the calls they issue; JSX trees are
    reduced to the controls they offer. *)

From Stdlib Require Import ZArith Lia List Bool Ascii String Permutation Sorted.
From Stdlib Require Import DecimalString.
From stdpp Require Import base decidable option list gmap sets strings.
Import ListNotations.
Local Open Scope string_scope.
Local Open Scope list_scope.
Local Open Scope Z_scope.

(* ===================================================================== *)
(** * JavaScript values used by the pages *)
(* ===================================================================== *)

Module Js.

(** A JavaScript [number] restricted to what the pages compute with:
    integers and [NaN] (the weekday of an Invalid Date). *)
Inductive number : Type :=
| Num (z : Z)
| NaN.

(** [a + b] and [a % b] on numbers; [%] keeps the sign of the dividend. *)
Definition add (a b : number) : number :=
  match a, b with
  | Num x, Num y => Num (x + y)
  | _, _ => NaN
  end.

Definition rem (a b : number) : number :=
  match a, b with
  | Num x, Num y => if Z.eqb y 0 then NaN else Num (Z.rem x y)
  | _, _ => NaN
  end.

(** Truthiness of a string: only the empty string is falsy. *)
Definition truthy (s : string) : bool :=
  match s with
  | EmptyString => false
  | String _ _ => true
  end.

(** [a < b] and [a >= b] on strings: lexicographic on code units. *)
Definition lt (a b : string) : bool := String.ltb a b.
Definition ge (a b : string) : bool := negb (lt a b).

(** [a === b] where [a : string | null] and [b : string | undefined]
    ([None] is [null] on the left and [undefined] on the right, which are
    never strictly equal). *)
Definition strict_eq_null_undef (a b : option string) : bool :=
  match a, b with
  | Some x, Some y => String.eqb x y
  | _, _ => false
  end.

End Js.

(** The selection idiom the pages use for day, interest and gender buttons:
    [prev.includes(x) ? prev.filter(y => y !== x) : [...prev, x]]. *)
Module JsArray.

Definition toggle {A : Type} (eqb : A -> A -> bool) (x : A) (prev : list A) : list A :=
  if existsb (eqb x) prev
  then List.filter (fun y => negb (eqb y x)) prev
  else prev ++ [x].

End JsArray.

(* ===================================================================== *)
(** * Browse.tsx: people at a location and the express-interest button *)
(* ===================================================================== *)

Module Browse.

(** An element of the [sent-interests] query result. *)
Record SentInterest : Type := {
  target_id : string;
  availability_id : Z;
}.

Record User : Type := {
  id : string;
  first_name : string;
  birth_year : Z;
}.

Record Availability : Type := {
  slot_id : Z;
  location_name : string;
}.

Record PersonAtLocation : Type := {
  user : User;
  availability : Availability;
  shared_interests : list string;
  times_overlap : bool;
}.

(** [sentInterests.some(i => i.target_id === userId &&
                             i.availability_id === availabilityId)] *)
Definition hasExpressedInterest (sentInterests : list SentInterest)
    (userId : string) (availabilityId : Z) : bool :=
  existsb
    (fun i => String.eqb (target_id i) userId
              && Z.eqb (availability_id i) availabilityId)
    sentInterests.

(** The argument of [expressInterest.mutate]. *)
Record InterestRequest : Type := {
  targetId : string;
  availabilityId : Z;
}.

Definition handleExpressInterest (person : PersonAtLocation) : InterestRequest :=
  {| targetId := id (user person);
     availabilityId := slot_id (availability person) |}.

(** The action button at the bottom of a person card. *)
Inductive ActionButton : Type :=
| InterestExpressed  (* disabled, "Interest expressed" *)
| ExpressInterest (disabled : bool) (onClick : InterestRequest).

Definition actionButton (sentInterests : list SentInterest)
    (isPending : bool) (person : PersonAtLocation) : ActionButton :=
  if hasExpressedInterest sentInterests
       (id (user person)) (slot_id (availability person))
  then InterestExpressed
  else ExpressInterest isPending (handleExpressInterest person).

Definition is_sent_button (b : ActionButton) : bool :=
  match b with
  | InterestExpressed => true
  | ExpressInterest _ _ => false
  end.

(** The JSON body that the [expressInterest] mutation posts:
    [{ target_id: targetId, availability_id: availabilityId }]. *)
Definition requestBody (r : InterestRequest) : SentInterest :=
  {| target_id := targetId r; availability_id := availabilityId r |}.

End Browse.

(* ===================================================================== *)
(** * Matches as the pages fetch them *)
(* ===================================================================== *)

Module Matches.

Record User : Type := {
  id : string;
  first_name : string;
  birth_year : Z;
}.

Record Match : Type := {
  match_id : Z;
  user1_id : string;
  user2_id : string;
  availability_id : Z;
  status : string;
  proposed_datetime : option string;
  proposed_by_id : option string;
  confirmed_at : option string;
  created_at : string;
}.

(** [matches.filter(m => m.status === s)] *)
Definition with_status (s : string) (matches : list Match) : list Match :=
  List.filter (fun m => String.eqb (status m) s) matches.

(** [user?.id] of the auth store: [None] is [undefined]. *)
Definition viewer_id (user : option User) : option string :=
  match user with
  | Some u => Some (id u)
  | None => None
  end.

(** [match.proposed_by_id === user?.id] *)
Definition isMyProposal (user : option User) (m : Match) : bool :=
  Js.strict_eq_null_undef (proposed_by_id m) (viewer_id user).

(** What a match card lets the viewer do. *)
Inductive Control : Type :=
| ConfirmedBadge
| NewMatchBadge
| WaitingForOther
| ConfirmButton
| DifferentTimeButton
| ProposeTimeButton
| ProposeTimeForm.

Global Instance Control_eq_dec : EqDecision Control.
Proof. solve_decision. Defined.

Definition Card : Type := Match * list Control.

(** One of the three statuses the pages know. *)
Definition known_status (m : Match) : bool :=
  String.eqb (status m) "pending" || String.eqb (status m) "time_proposed"
  || String.eqb (status m) "confirmed".

(** The gating of the confirm button on one rendered card [(m, controls)]. *)
Definition gated (user : option User) (c : Card) : Prop :=
  let (m, controls) := c in
  (status m = "pending" ->
     ~ In ConfirmButton controls
     /\ (In ProposeTimeButton controls \/ In ProposeTimeForm controls))
  /\ (status m = "time_proposed" ->
        (In ConfirmButton controls <-> isMyProposal user m = false))
  /\ (In ConfirmButton controls ->
        status m = "time_proposed"
        /\ forall u, user = Some u -> proposed_by_id m <> Some (id u)).

(** The card shows the time picker. *)
Definition showsForm (c : Card) : bool :=
  existsb (fun x => bool_decide (x = ProposeTimeForm)) (snd c).

(** [proposingFor === match.id] *)
Definition picked (pf : option Z) (m : Match) : bool :=
  bool_decide (pf = Some (match_id m)).

(** [proposeTime]'s [onSuccess]: [setProposingFor(null)] (the picker's text
    is reset as well). *)
Definition onProposeSuccess (proposingFor : option Z) : option Z := None.

(** The "Propose a time", "Different time" and "Suggest different time"
    buttons of a card: [setProposingFor(match.id)]. *)
Definition clickPropose (m : Match) (proposingFor : option Z) : option Z :=
  Some (match_id m).

End Matches.

Module Meetups.
Import Matches.

Definition pendingMatches (matches : list Match) : list Match :=
  with_status "pending" matches.
Definition proposedMatches (matches : list Match) : list Match :=
  with_status "time_proposed" matches.
Definition confirmedMatches (matches : list Match) : list Match :=
  with_status "confirmed" matches.

Definition confirmedCard (m : Match) : Card := (m, [ConfirmedBadge]).

Definition proposedCard (user : option User) (proposingFor : option Z)
    (m : Match) : Card :=
  (m,
   (if isMyProposal user m
    then [WaitingForOther]
    else [ConfirmButton; DifferentTimeButton])
   ++
   (if decide (proposingFor = Some (match_id m)) then [ProposeTimeForm] else [])).

Definition pendingCard (proposingFor : option Z) (m : Match) : Card :=
  (m,
   NewMatchBadge ::
   (if decide (proposingFor = Some (match_id m))
    then [ProposeTimeForm]
    else [ProposeTimeButton])).

(** The page body: nothing while loading or without matches, otherwise the
    three sections in the order confirmed, proposed, pending. *)
Definition render (isLoading : bool) (user : option User)
    (proposingFor : option Z) (matches : list Match) : list Card :=
  if isLoading then []
  else match matches with
       | [] => []
       | _ =>
           map confirmedCard (confirmedMatches matches)
           ++ map (proposedCard user proposingFor) (proposedMatches matches)
           ++ map (pendingCard proposingFor) (pendingMatches matches)
       end.

End Meetups.

(* ===================================================================== *)
(** * The JavaScript [Date] of a date-input value *)
(* ===================================================================== *)

Module JsDate.

Definition msPerDay : Z := 86400000.

Definition digit_of (c : ascii) : option Z :=
  let n := Z.of_N (N_of_ascii c) in
  if (48 <=? n) && (n <=? 57) then Some (n - 48) else None.

(** Decimal value of a string of digits. *)
Fixpoint digits_from (acc : Z) (s : string) : option Z :=
  match s with
  | EmptyString => Some acc
  | String c rest =>
      match digit_of c with
      | Some d => digits_from (10 * acc + d) rest
      | None => None
      end
  end.

Definition digits (s : string) : option Z :=
  match s with
  | EmptyString => None
  | _ => digits_from 0 s
  end.

Definition isLeap (y : Z) : bool :=
  ((y mod 4 =? 0) && negb (y mod 100 =? 0)) || (y mod 400 =? 0).

Definition daysInMonth (y m : Z) : Z :=
  if m =? 2 then (if isLeap y then 29 else 28)
  else if (m =? 4) || (m =? 6) || (m =? 9) || (m =? 11) then 30
  else 31.

(** Days between 1970-01-01 and the civil date [y-m-d]. *)
Definition daysFromCivil (y m d : Z) : Z :=
  let y' := if m <=? 2 then y - 1 else y in
  let era := y' / 400 in
  let yoe := y' - era * 400 in
  let mp := if m <=? 2 then m + 9 else m - 3 in
  let doy := (153 * mp + 2) / 5 + d - 1 in
  let doe := yoe * 365 + yoe / 4 - yoe / 100 + doy in
  era * 146097 + doe - 719468.

(** [new Date(s)] for the value of an [<input type="date">], the date-only
    form [YYYY-MM-DD] with a year of four digits, which is read as UTC
    midnight.  The result is the time value in milliseconds.  [None] stands
    for every other text: the engine answers an Invalid Date for most of
    them, and reads some by rules of its own (a year of more than four
    digits, a day number past the end of a month), which are not
    described here. *)
Definition parse (s : string) : option Z :=
  if negb (Nat.eqb (String.length s) 10) then None
  else
    match digits (String.substring 0 4 s),
          String.get 4 s,
          digits (String.substring 5 2 s),
          String.get 7 s,
          digits (String.substring 8 2 s) with
    | Some y, Some "-"%char, Some m, Some "-"%char, Some d =>
        if (1 <=? m) && (m <=? 12) && (1 <=? d) && (d <=? daysInMonth y m)
        then Some (daysFromCivil y m d * msPerDay)
        else None
    | _, _, _, _, _ => None
    end.

(** [date.getDay()]: the weekday (Sunday = 0) of the time value in local
    time, [localTZA] being the zone's offset from UTC in milliseconds. *)
Definition getDay (localTZA : Z) (date : option Z) : Js.number :=
  match date with
  | Some t => Js.Num (((t + localTZA) / msPerDay + 4) mod 7)
  | None => Js.NaN
  end.

(** Weekday names in the numbering of [getDay]. *)
Definition WEEKDAYS : list string :=
  ["Sun"; "Mon"; "Tue"; "Wed"; "Thu"; "Fri"; "Sat"].

End JsDate.

(* ===================================================================== *)
(** * Dashboard.tsx *)
(* ===================================================================== *)

Module Dashboard.
Import Matches.

Definition DAY_NAMES : list string :=
  ["Mon"; "Tue"; "Wed"; "Thu"; "Fri"; "Sat"; "Sun"].

(** Latitude and longitude are carried as opaque texts: nothing is computed
    from them. *)
Record NewSpot : Type := {
  lat : string;
  lng : string;
  address : string;
}.

(** The "new spot" part of the component state. *)
Record State : Type := {
  newSpot : option NewSpot;
  newSpotDate : string;
  newSpotTimeStart : string;
  newSpotTimeEnd : string;
  newSpotRepeat : bool;
  newSpotRepeatDays : list Z;
}.

(** The argument of [createAvailability.mutate]. *)
Record CreateAvailability : Type := {
  location_name : string;
  latitude : string;
  longitude : string;
  time_start : string;
  time_end : string;
  repeat_days : list Js.number;
}.

(** [handleSaveSpot]: [None] when it returns without calling
    [createAvailability.mutate]. *)
Definition handleSaveSpot (localTZA : Z) (s : State) : option CreateAvailability :=
  match newSpot s with
  | None => None
  | Some spot =>
      let repeatDays :=
        if negb (newSpotRepeat s) && Js.truthy (newSpotDate s)
        then
          let date := JsDate.parse (newSpotDate s) in
          let dayOfWeek :=
            Js.rem (Js.add (JsDate.getDay localTZA date) (Js.Num 6)) (Js.Num 7) in
          [dayOfWeek]
        else map Js.Num (newSpotRepeatDays s) in
      Some {| location_name := address spot;
              latitude := lat spot;
              longitude := lng spot;
              time_start := newSpotTimeStart s;
              time_end := newSpotTimeEnd s;
              repeat_days := repeatDays |}
  end.

(** [prev.includes(day) ? prev.filter(d => d !== day) : [...prev, day]] *)
Definition toggleRepeatDay (day : Z) (s : State) : State :=
  {| newSpot := newSpot s;
     newSpotDate := newSpotDate s;
     newSpotTimeStart := newSpotTimeStart s;
     newSpotTimeEnd := newSpotTimeEnd s;
     newSpotRepeat := newSpotRepeat s;
     newSpotRepeatDays :=
       if existsb (Z.eqb day) (newSpotRepeatDays s)
       then List.filter (fun d => negb (Z.eqb d day)) (newSpotRepeatDays s)
       else newSpotRepeatDays s ++ [day] |}.

(** The save button's
    [disabled={createAvailability.isPending || (!newSpotDate && !newSpotRepeat)}]. *)
Definition saveDisabled (isPending : bool) (s : State) : bool :=
  isPending || (negb (Js.truthy (newSpotDate s)) && negb (newSpotRepeat s)).

(** Clicking the save button: a disabled button fires no handler. *)
Definition clickSave (localTZA : Z) (isPending : bool) (s : State)
  : option CreateAvailability :=
  if saveDisabled isPending s then None else handleSaveSpot localTZA s.

(** [sentInterests.some(i => i.target_id === userId &&
                             i.availability_id === availabilityId)] *)
Definition hasExpressedInterest (sentInterests : list Browse.SentInterest)
    (userId : string) (availabilityId : Z) : bool :=
  existsb
    (fun i => String.eqb (Browse.target_id i) userId
              && Z.eqb (Browse.availability_id i) availabilityId)
    sentInterests.

(** ** The connections section *)

Definition confirmedMatches (matches : list Match) : list Match :=
  List.filter (fun m => String.eqb (status m) "confirmed") matches.

Definition pendingMatches (matches : list Match) : list Match :=
  List.filter
    (fun m => String.eqb (status m) "pending"
              || String.eqb (status m) "time_proposed")
    matches.

Definition confirmedCard (m : Match) : Card := (m, [ConfirmedBadge]).

Definition pendingCard (user : option User) (proposingFor : option Z)
    (m : Match) : Card :=
  let isPending := String.eqb (status m) "pending" in
  (m,
   if isPending
   then (if decide (proposingFor = Some (match_id m))
         then [ProposeTimeForm]
         else [ProposeTimeButton])
   else if isMyProposal user m
        then [WaitingForOther]
        else [ConfirmButton; DifferentTimeButton]).

(** The cards that the page's JSX describes.  The component returns [null]
    before them while [user] is missing ([if (!user) return null]), so for
    [user = None] these cards are described and not shown. *)
Definition render (user : option User) (proposingFor : option Z)
    (matches : list Match) : list Card :=
  map confirmedCard (confirmedMatches matches)
  ++ map (pendingCard user proposingFor) (pendingMatches matches).

(** ** Sample states *)
Definition sampleSpot : NewSpot :=
  {| lat := "40.7128"; lng := "-74.006"; address := "Central Park" |}.

Definition oneTimeState : State :=
  {| newSpot := Some sampleSpot;
     newSpotDate := "2025-06-01";
     newSpotTimeStart := "09:00";
     newSpotTimeEnd := "17:00";
     newSpotRepeat := false;
     newSpotRepeatDays := [] |}.

Definition weeklyNoDayState : State :=
  {| newSpot := Some sampleSpot;
     newSpotDate := "";
     newSpotTimeStart := "09:00";
     newSpotTimeEnd := "17:00";
     newSpotRepeat := true;
     newSpotRepeatDays := [] |}.

(** A run of clicks on the weekday buttons of the weekly mode. *)
Definition clickRepeatDays (clicks : list Z) (s : State) : State :=
  fold_left (fun st day => toggleRepeatDay day st) clicks s.

(** [createAvailability]'s [onSuccess]: the form is closed and its date,
    repeat flag and weekdays are reset; the two times are left alone. *)
Definition onCreateSuccess (s : State) : State :=
  {| newSpot := None;
     newSpotDate := "";
     newSpotTimeStart := newSpotTimeStart s;
     newSpotTimeEnd := newSpotTimeEnd s;
     newSpotRepeat := false;
     newSpotRepeatDays := [] |}.

End Dashboard.

(* ===================================================================== *)
(** * AvailabilityForm.tsx *)
(* ===================================================================== *)

Module AvailabilityForm.

Record Location : Type := {
  name : string;
  address : string;
  latitude : string;
  longitude : string;
}.

(** The component state; [radiusMeters = None] is the empty text [''] . *)
Record State : Type := {
  location : option Location;
  timeStart : string;
  timeEnd : string;
  repeatDays : list Z;
  radiusMeters : option Z;
  error : string;
}.

(** The argument of the [onSubmit] callback. *)
Record Submission : Type := {
  location_name : string;
  sub_latitude : string;
  sub_longitude : string;
  radius_meters : option Z;
  time_start : string;
  time_end : string;
  repeat_days : list Z;
}.

Definition DAYS : list (Z * string) :=
  [(0, "Mon"); (1, "Tue"); (2, "Wed"); (3, "Thu"); (4, "Fri"); (5, "Sat"); (6, "Sun")].

Definition setError (msg : string) (s : State) : State :=
  {| location := location s; timeStart := timeStart s; timeEnd := timeEnd s;
     repeatDays := repeatDays s; radiusMeters := radiusMeters s; error := msg |}.

Definition setRepeatDays (days : list Z) (s : State) : State :=
  {| location := location s; timeStart := timeStart s; timeEnd := timeEnd s;
     repeatDays := days; radiusMeters := radiusMeters s; error := error s |}.

Definition toggleDay (day : Z) (s : State) : State :=
  setRepeatDays
    (if existsb (Z.eqb day) (repeatDays s)
     then List.filter (fun d => negb (Z.eqb d day)) (repeatDays s)
     else repeatDays s ++ [day])
    s.

(** [repeatDays.sort((a, b) => a - b)]: ascending, stable, in place. *)
Fixpoint insert_day (d : Z) (l : list Z) : list Z :=
  match l with
  | [] => [d]
  | x :: rest => if (x - d >? 0) then d :: l else x :: insert_day d rest
  end.

Definition sort_days (l : list Z) : list Z := fold_right insert_day [] (rev l).

(** [radiusMeters || null]: the empty text and [0] both become [null]. *)
Definition radius_or_null (r : option Z) : option Z :=
  match r with
  | Some 0 => None
  | other => other
  end.

(** What one run of [handleSubmit] did: the state it leaves and the calls
    of [onSubmit] it made. *)
Record Outcome : Type := {
  state : State;
  submitted : list Submission;
}.

(** [handleSubmit]; [onSubmit] answers [None] when the returned promise
    resolves and [Some msg] when it rejects, [msg] being the message the
    [catch] block shows (the error's message, or 'Failed to save'). *)
Definition handleSubmit (onSubmit : Submission -> option string) (s0 : State)
  : Outcome :=
  let s := setError "" s0 in
  match location s with
  | None =>
      {| state := setError "Please select a location" s; submitted := [] |}
  | Some loc =>
      if Nat.eqb (List.length (repeatDays s)) 0 then
        {| state := setError "Please select at least one day" s; submitted := [] |}
      else if Js.ge (timeStart s) (timeEnd s) then
        {| state := setError "End time must be after start time" s; submitted := [] |}
      else
        let sorted := sort_days (repeatDays s) in
        let s := setRepeatDays sorted s in
        let data :=
          {| location_name := name loc;
             sub_latitude := latitude loc;
             sub_longitude := longitude loc;
             radius_meters := radius_or_null (radiusMeters s);
             time_start := timeStart s;
             time_end := timeEnd s;
             repeat_days := sorted |} in
        match onSubmit data with
        | None => {| state := s; submitted := [data] |}
        | Some msg => {| state := setError msg s; submitted := [data] |}
        end
  end.

(** A clock time as a time input writes it: [HH:MM]. *)
Definition digit (n : nat) : ascii := ascii_of_nat (48 + n).

Definition two_digits (n : nat) : string :=
  String (digit (n / 10)) (String (digit (n mod 10)) EmptyString).

Definition hhmm (h m : nat) : string :=
  (two_digits h ++ ":" ++ two_digits m)%string.

(** A run of clicks on the day buttons. *)
Definition clickDays (clicks : list Z) (s : State) : State :=
  fold_left (fun st day => toggleDay day st) clicks s.

(** The form's [initialData]: its [AvailabilitySlot] interface, [id] and
    [is_active] being optional. *)
Record InitialData : Type := {
  init_id : option Z;
  init_location_name : string;
  init_latitude : string;
  init_longitude : string;
  init_radius_meters : option Z;
  init_time_start : string;
  init_time_end : string;
  init_repeat_days : list Z;
  init_is_active : option bool;
}.

(** [s || d] on texts. *)
Definition text_or (s d : string) : string := if Js.truthy s then s else d.

(** The [useState] initialisers: an edited slot fills the fields, a new one
    starts without location and days, from 09:00 to 17:00. *)
Definition initialState (initialData : option InitialData) : State :=
  match initialData with
  | Some d =>
      {| location := Some {| name := init_location_name d;
                             address := init_location_name d;
                             latitude := init_latitude d;
                             longitude := init_longitude d |};
         timeStart := text_or (init_time_start d) "09:00";
         timeEnd := text_or (init_time_end d) "17:00";
         repeatDays := init_repeat_days d;
         radiusMeters := radius_or_null (init_radius_meters d);
         error := "" |}
  | None =>
      {| location := None;
         timeStart := "09:00";
         timeEnd := "17:00";
         repeatDays := [];
         radiusMeters := None;
         error := "" |}
  end.

End AvailabilityForm.

(* ===================================================================== *)
(** * Availability.tsx: the page around the form *)
(* ===================================================================== *)

Module AvailabilityPage.

Record AvailabilitySlot : Type := {
  id : Z;
  location_name : string;
  latitude : string;
  longitude : string;
  radius_meters : option Z;
  time_start : string;
  time_end : string;
  repeat_days : list Z;
  is_active : bool;
}.

Record State : Type := {
  showForm : bool;
  editingSlot : option AvailabilitySlot;
}.

Definition initial : State := {| showForm := false; editingSlot := None |}.

Definition setShowForm (b : bool) (s : State) : State :=
  {| showForm := b; editingSlot := editingSlot s |}.

Definition setEditingSlot (e : option AvailabilitySlot) (s : State) : State :=
  {| showForm := showForm s; editingSlot := e |}.

Definition editing (s : State) : bool :=
  match editingSlot s with
  | Some _ => true
  | None => false
  end.

(** The body of a PATCH: the active flag alone, or the form's data. *)
Inductive Patch : Type :=
| PatchActive (is_active : bool)
| PatchData (data : AvailabilityForm.Submission).

(** The argument of [updateMutation.mutate]. *)
Record UpdateRequest : Type := {
  req_id : Z;
  req_data : Patch;
}.

Definition toggleSlotActive (slot : AvailabilitySlot) : UpdateRequest :=
  {| req_id := id slot; req_data := PatchActive (negb (is_active slot)) |}.

(** [handleUpdate]: the requests it passes to [updateMutation]. *)
Definition handleUpdate (s : State) (data : AvailabilityForm.Submission)
  : list UpdateRequest :=
  match editingSlot s with
  | Some e => [ {| req_id := id e; req_data := PatchData data |} ]
  | None => []
  end.

(** The "+ Add Availability Slot" button is rendered when [!showForm &&
    !editingSlot]; an Edit button is [disabled={!!editingSlot || showForm}]. *)
Definition addButtonShown (s : State) : bool := negb (showForm s) && negb (editing s).
Definition editDisabled (s : State) : bool := editing s || showForm s.

(** What can happen on the page: the clicks, and the [onSuccess] of the two
    mutations. *)
Inductive Event : Type :=
| ClickAdd
| CancelAdd
| ClickEdit (slot : AvailabilitySlot)
| CancelEdit
| CreateSucceeded
| UpdateSucceeded.

(** A button that is not rendered or is disabled fires no handler. *)
Definition handle (e : Event) (s : State) : State :=
  match e with
  | ClickAdd => if addButtonShown s then setShowForm true s else s
  | CancelAdd => if showForm s then setShowForm false s else s
  | ClickEdit slot => if editDisabled s then s else setEditingSlot (Some slot) s
  | CancelEdit => if editing s then setEditingSlot None s else s
  | CreateSucceeded => setShowForm false s
  | UpdateSucceeded => setEditingSlot None s
  end.

Definition run (events : list Event) (s : State) : State :=
  fold_left (fun st e => handle e st) events s.

(** The add form and the edit form are not open together. *)
Definition oneFormAtMost (s : State) : Prop :=
  showForm s = true -> editingSlot s = None.

(** The edit form receives the slot as its [initialData]. *)
Definition asInitialData (slot : AvailabilitySlot) : AvailabilityForm.InitialData :=
  {| AvailabilityForm.init_id := Some (id slot);
     AvailabilityForm.init_location_name := location_name slot;
     AvailabilityForm.init_latitude := latitude slot;
     AvailabilityForm.init_longitude := longitude slot;
     AvailabilityForm.init_radius_meters := radius_meters slot;
     AvailabilityForm.init_time_start := time_start slot;
     AvailabilityForm.init_time_end := time_end slot;
     AvailabilityForm.init_repeat_days := repeat_days slot;
     AvailabilityForm.init_is_active := Some (is_active slot) |}.

End AvailabilityPage.

(* ===================================================================== *)
(** * The edit form and the slot it edits (Availability.tsx, AvailabilityForm.tsx) *)
(* ===================================================================== *)

Module EditSession.

(** A JS array is an object.  The slot handed to the edit form as
    [initialData] and the form's [repeatDays] state can be one and the same
    array, so the arrays of weekday numbers live in a store and are named
    by references, their positions in the store. *)
Definition Ref : Type := nat.
Definition Store : Type := list (list Z).

Definition deref (h : Store) (r : Ref) : list Z := default [] (h !! r).

(** A new array. *)
Definition alloc (a : list Z) (h : Store) : Ref * Store :=
  (List.length h, h ++ [a]).

(** An update in place of the array at [r]. *)
Definition assign (r : Ref) (a : list Z) (h : Store) : Store := <[r := a]> h.

(** A slot object of the fetched list; [repeat_days] names its array. *)
Record SlotObject : Type := {
  id : Z;
  location_name : string;
  latitude : string;
  longitude : string;
  radius_meters : option Z;
  time_start : string;
  time_end : string;
  repeat_days : Ref;
  is_active : bool;
}.

(** The slot as it reads through the store. *)
Definition readSlot (h : Store) (o : SlotObject) : AvailabilityPage.AvailabilitySlot :=
  {| AvailabilityPage.id := id o;
     AvailabilityPage.location_name := location_name o;
     AvailabilityPage.latitude := latitude o;
     AvailabilityPage.longitude := longitude o;
     AvailabilityPage.radius_meters := radius_meters o;
     AvailabilityPage.time_start := time_start o;
     AvailabilityPage.time_end := time_end o;
     AvailabilityPage.repeat_days := deref h (repeat_days o);
     AvailabilityPage.is_active := is_active o |}.

(** The state of a mounted form; [repeatDays] names its array. *)
Record FormObject : Type := {
  location : option AvailabilityForm.Location;
  timeStart : string;
  timeEnd : string;
  repeatDays : Ref;
  radiusMeters : option Z;
  error : string;
}.

(** The form state as it reads through the store. *)
Definition readForm (h : Store) (f : FormObject) : AvailabilityForm.State :=
  {| AvailabilityForm.location := location f;
     AvailabilityForm.timeStart := timeStart f;
     AvailabilityForm.timeEnd := timeEnd f;
     AvailabilityForm.repeatDays := deref h (repeatDays f);
     AvailabilityForm.radiusMeters := radiusMeters f;
     AvailabilityForm.error := error f |}.

(** The form state [s] with its array at [r]. *)
Definition withArray (r : Ref) (s : AvailabilityForm.State) : FormObject :=
  {| location := AvailabilityForm.location s;
     timeStart := AvailabilityForm.timeStart s;
     timeEnd := AvailabilityForm.timeEnd s;
     repeatDays := r;
     radiusMeters := AvailabilityForm.radiusMeters s;
     error := AvailabilityForm.error s |}.

(** The [useState] initialisers of a form mounted with [initialData = slot]:
    an array is truthy, so [initialData?.repeat_days || []] is the slot's
    own array and not a copy. *)
Definition mount (h : Store) (o : SlotObject) : FormObject :=
  withArray (repeat_days o)
    (AvailabilityForm.initialState
       (Some (AvailabilityPage.asInitialData (readSlot h o)))).

(** The page with its store; the edit form is rendered while [editingSlot]
    is set, so the two come together. *)
Record State : Type := {
  store : Store;
  showForm : bool;
  editing : option (SlotObject * FormObject);
}.

Definition page (s : State) : AvailabilityPage.State :=
  {| AvailabilityPage.showForm := showForm s;
     AvailabilityPage.editingSlot :=
       option_map (fun e => readSlot (store s) (fst e)) (editing s) |}.

(** A click on a slot's Edit button: [setEditingSlot(slot)], and the edit
    form mounts on that slot object. *)
Definition clickEdit (o : SlotObject) (s : State) : State :=
  if AvailabilityPage.editDisabled (page s) then s
  else {| store := store s; showForm := showForm s;
          editing := Some (o, mount (store s) o) |}.

(** A click on a day button of the edit form: [prev.filter(...)] and
    [[...prev, day]] both build a new array and leave [prev] as it is. *)
Definition toggleDay (day : Z) (s : State) : State :=
  match editing s with
  | None => s
  | Some (o, f) =>
      let f' := AvailabilityForm.toggleDay day (readForm (store s) f) in
      let (r, h) := alloc (AvailabilityForm.repeatDays f') (store s) in
      {| store := h; showForm := showForm s;
         editing := Some (o, withArray r f') |}
  end.

(** What submitting the edit form did: the new state and the PATCH requests
    sent. *)
Record Outcome : Type := {
  state : State;
  requests : list AvailabilityPage.UpdateRequest;
}.

(** Submitting the edit form, whose [onSubmit] is [handleUpdate]:
    [updateMutation.mutateAsync] rejects with 'Failed to update' when the
    server answers with an error ([serverOk = false]) and runs its
    [onSuccess], [setEditingSlot(null)], otherwise.  Past the checks,
    [repeatDays.sort()] has sorted the form's array where it is, before
    [onSubmit] is called. *)
Definition submitEdit (serverOk : bool) (s : State) : Outcome :=
  match editing s with
  | None => {| state := s; requests := [] |}
  | Some (o, f) =>
      let onSubmit := fun data : AvailabilityForm.Submission =>
        match AvailabilityPage.handleUpdate (page s) data with
        | [] => None
        | _ => if serverOk then None else Some "Failed to update"
        end in
      let out := AvailabilityForm.handleSubmit onSubmit (readForm (store s) f) in
      let reqs :=
        flat_map (AvailabilityPage.handleUpdate (page s))
                 (AvailabilityForm.submitted out) in
      let h :=
        match AvailabilityForm.submitted out with
        | [] => store s
        | _ => assign (repeatDays f)
                 (AvailabilityForm.repeatDays (AvailabilityForm.state out))
                 (store s)
        end in
      let f' := withArray (repeatDays f) (AvailabilityForm.state out) in
      {| state := {| store := h; showForm := showForm s;
                     editing := match reqs with
                                | [] => Some (o, f')
                                | _ => if serverOk then None else Some (o, f')
                                end |};
         requests := reqs |}
  end.

(** The slot being edited, as the page shows it. *)
Definition editedSlot (s : State) : option AvailabilityPage.AvailabilitySlot :=
  AvailabilityPage.editingSlot (page s).

(** A stored slot on Wednesday and Monday, in that order, and the page
    after a click on its Edit button. *)
Definition sampleSlot : SlotObject :=
  {| id := 7; location_name := "Central Park";
     latitude := "40.78"; longitude := "-73.96"; radius_meters := None;
     time_start := "18:00"; time_end := "20:00";
     repeat_days := 0%nat; is_active := true |}.

Definition sampleStore : Store := [[2; 0]].

Definition sampleEditing : State :=
  clickEdit sampleSlot {| store := sampleStore; showForm := false; editing := None |}.

End EditSession.

(* ===================================================================== *)
(** * Dashboard.tsx: the interest editor *)
(* ===================================================================== *)

Module InterestEditor.

Record Interest : Type := {
  id : Z;
  name : string;
  category : option string;
}.

(** [i.id === interest.id] *)
Definition same_id (a b : Interest) : bool := Z.eqb (id a) (id b).

(** [user.interests.some(i => i.id === interest.id)] *)
Definition isSelected (interests : list Interest) (interest : Interest) : bool :=
  existsb (fun i => Z.eqb (id i) (id interest)) interests.

(** The [newInterests] that a click on an interest button passes to
    [updateUser]. *)
Definition clickInterest (interests : list Interest) (interest : Interest)
  : list Interest :=
  if isSelected interests interest
  then List.filter (fun i => negb (Z.eqb (id i) (id interest))) interests
  else interests ++ [interest].

End InterestEditor.

(* ===================================================================== *)
(** * Dashboard (later revision): the preference steppers *)
(* ===================================================================== *)

Module Preferences.

(** The preference fields of the stored user; [None] is a missing value
    ([null] or [undefined]). *)
Record User : Type := {
  min_age_preference : option Z;
  max_age_preference : option Z;
  gender_preferences : option (list string);
  min_group_size : option Z;
  max_group_size : option Z;
}.

(** The argument of [updatePreferences.mutate]: one field at a time. *)
Inductive Update : Type :=
| MinAge (v : Z)
| MaxAge (v : Z)
| Genders (l : list string)
| MinGroup (v : Z)
| MaxGroup (v : Z).

(** [v || d] on numbers: a missing value and [0] give the default. *)
Definition num_or (v : option Z) (d : Z) : Z :=
  match v with
  | Some 0 => d
  | Some n => n
  | None => d
  end.

(** The displayed values. *)
Definition shownMinAge (u : User) : Z := num_or (min_age_preference u) 18.
Definition shownMaxAge (u : User) : Z := num_or (max_age_preference u) 99.
Definition shownMinGroup (u : User) : Z := num_or (min_group_size u) 2.
Definition shownMaxGroup (u : User) : Z := num_or (max_group_size u) 10.

(** The minus and plus buttons: [None] when the click sends nothing. *)
Definition decMinAge (u : User) : option Update :=
  let current := num_or (min_age_preference u) 18 in
  if current >? 18 then Some (MinAge (current - 1)) else None.

Definition incMinAge (u : User) : option Update :=
  let current := num_or (min_age_preference u) 18 in
  if current <? 99 then Some (MinAge (current + 1)) else None.

Definition decMaxAge (u : User) : option Update :=
  let current := num_or (max_age_preference u) 99 in
  if current >? 18 then Some (MaxAge (current - 1)) else None.

Definition incMaxAge (u : User) : option Update :=
  let current := num_or (max_age_preference u) 99 in
  if current <? 99 then Some (MaxAge (current + 1)) else None.

Definition decMinGroup (u : User) : option Update :=
  let current := num_or (min_group_size u) 2 in
  if current >? 2 then Some (MinGroup (current - 1)) else None.

Definition incMinGroup (u : User) : option Update :=
  let current := num_or (min_group_size u) 2 in
  if current <? 20 then Some (MinGroup (current + 1)) else None.

Definition decMaxGroup (u : User) : option Update :=
  let current := num_or (max_group_size u) 10 in
  if current >? 2 then Some (MaxGroup (current - 1)) else None.

Definition incMaxGroup (u : User) : option Update :=
  let current := num_or (max_group_size u) 10 in
  if current <? 20 then Some (MaxGroup (current + 1)) else None.

(** A value is displayed for a stored field: the stored number, or the
    default when it is missing or 0. *)
Definition displays (stored : option Z) (default shown : Z) : Prop :=
  ((stored = None \/ stored = Some 0) /\ shown = default)
  \/ (exists x, stored = Some x /\ x <> 0 /\ shown = x).

(** A pair of buttons steps a displayed value by one between two bounds:
    the minus button sends the value less one while it is above the lower
    bound, the plus button the value plus one while it is below the upper
    bound, and at a bound the click sends nothing. *)
Definition steps (lo hi : Z) (field : Z -> Update) (shown : Z)
    (minus plus : option Update) : Prop :=
  (forall upd, minus = Some upd <-> lo < shown /\ upd = field (shown - 1))
  /\ (minus = None <-> shown <= lo)
  /\ (forall upd, plus = Some upd <-> shown < hi /\ upd = field (shown + 1))
  /\ (plus = None <-> hi <= shown).

Definition GENDERS : list string := ["male"; "female"; "non-binary"; "other"].

(** [user.gender_preferences?.includes(gender)]; a missing list gives
    [undefined], which is falsy. *)
Definition genderSelected (u : User) (gender : string) : bool :=
  match gender_preferences u with
  | Some l => existsb (String.eqb gender) l
  | None => false
  end.

(** The [newGenders] that a click on a gender button sends. *)
Definition clickGender (u : User) (gender : string) : Update :=
  Genders
    (if genderSelected u gender
     then match gender_preferences u with
          | Some l => List.filter (fun g => negb (String.eqb g gender)) l
          | None => []
          end
     else match gender_preferences u with
          | Some l => l
          | None => []
          end ++ [gender]).

End Preferences.

(* ===================================================================== *)
(** * The engine's data model (spec section 3) *)
(* ===================================================================== *)

Module Model.

Definition UserId : Type := string.
Definition SlotId : Type := Z.

(** Modelled from the spec: the [User] attributes the core reads through
    the account collaborator's [getUser] (section 3 and section 6); the
    account store itself is outside the repository's sources.  A [None]
    age bound is "no filter", an empty gender-preference set is "any". *)
Record User : Type := {
  age : Z;
  gender : string;
  interests : gset string;
  is_available : bool;
  min_age_pref : option Z;
  max_age_pref : option Z;
  gender_prefs : gset string;
  min_group_size : Z;
  max_group_size : Z;
}.

(** Modelled from the spec: [AvailabilitySlot] (section 3).  Clock times are
    minutes after local midnight, weekdays are numbered Monday = 0 to
    Sunday = 6 as in the front end, and the location identity is the
    location key of section 6 (coordinates are not computed with). *)
Record AvailabilitySlot : Type := {
  slot_id : SlotId;
  owner : UserId;
  location : string;
  time_start : Z;
  time_end : Z;
  repeat_days : gset Z;
  is_active : bool;
}.

(** Modelled from the spec: the external collaborators of section 6, the
    account store's [getUser] and the availability store's slots in
    creation order. *)
Record Env : Type := {
  getUser : UserId -> User;
  slots : list AvailabilitySlot;
}.

Definition getSlotById (env : Env) (sid : SlotId) : option AvailabilitySlot :=
  List.find (fun s => Z.eqb (slot_id s) sid) (slots env).

(** Modelled from the spec: section 9's
    [visible(slot) = owner.isAvailable && slot.isActive]. *)
Definition visible (env : Env) (s : AvailabilitySlot) : bool :=
  is_available (getUser env (owner s)) && is_active s.

(** Modelled from the spec: the error kinds of section 7 and of the
    operations of section 4 (raised by the back end, outside the sources). *)
Inductive Error : Type :=
| InvalidTarget
| DuplicateExpression
| NotFound
| AlreadyMember
| DuplicatePendingRequest
| GroupFull
| NotAMember
| AlreadyResolved.

Inductive Result (A : Type) : Type :=
| Ok (a : A)
| Err (e : Error).
Arguments Ok {A} a.
Arguments Err {A} e.

End Model.

(* ===================================================================== *)
(** * Overlap evaluator (spec section 4.1) *)
(* ===================================================================== *)

Module Overlap.
Import Model.

Record Window : Type := {
  days : gset Z;
  w_start : Z;
  w_end : Z;
}.

Record OverlapResult : Type := {
  overlap : bool;
  windows : list Window;
}.

Definition no_overlap : OverlapResult := {| overlap := false; windows := [] |}.

(** Modelled from the spec: [overlaps(slotA, slotB)] of section 4.1, which
    the repository keeps in its back end, outside the sources at hand.
    The shared days are the intersection of the two [repeat_days] sets; a
    slot has one clock interval, so every shared day has the same
    intersection [max start, min end) and the result is one window over
    the shared days; an empty or zero-length intersection is no overlap. *)
Definition overlaps (a b : AvailabilitySlot) : OverlapResult :=
  let shared := repeat_days a ∩ repeat_days b in
  if decide (shared = ∅) then no_overlap
  else
    let s := Z.max (time_start a) (time_start b) in
    let e := Z.min (time_end a) (time_end b) in
    if s <? e
    then {| overlap := true;
            windows := [ {| days := shared; w_start := s; w_end := e |} ] |}
    else no_overlap.

End Overlap.

(* ===================================================================== *)
(** * Group engine (spec section 4.4) *)
(* ===================================================================== *)

Module GroupEngine.
Import Model.

(** Modelled from the spec: [Group], [GroupMember] and [GroupJoinRequest]
    of section 3, which the back end stores (its models are outside the
    sources at hand). *)
Inductive Role : Type := founder | member.
Inductive MemberStatus : Type := confirmed | pending.
Inductive RequestStatus : Type := req_pending | req_accepted | req_declined.
Inductive GroupStatus : Type := tentative | active.

Record GroupMember : Type := {
  user_id : UserId;
  role : Role;
  status : MemberStatus;
  joined_at : Z;
}.

Record Group : Type := {
  group_id : Z;
  slot_context : SlotId;
  members : list GroupMember;
}.

Record GroupJoinRequest : Type := {
  request_id : Z;
  req_group_id : Z;
  requester_id : UserId;
  req_status : RequestStatus;
  created_at : Z;
  responded_at : option Z;
}.

Record State : Type := {
  groups : list Group;
  requests : list GroupJoinRequest;
}.

Definition empty : State := {| groups := []; requests := [] |}.

Definition is_confirmed (m : GroupMember) : bool :=
  match status m with
  | confirmed => true
  | pending => false
  end.

Definition confirmedMembers (g : Group) : list GroupMember :=
  List.filter is_confirmed (members g).

(** Modelled from the spec: group size = count of confirmed members
    (section 3). *)
Definition confirmedMemberCount (g : Group) : Z :=
  Z.of_nat (List.length (confirmedMembers g)).

Definition isConfirmedMember (g : Group) (u : UserId) : bool :=
  existsb (fun m => String.eqb (user_id m) u) (confirmedMembers g).

Definition findGroup (st : State) (gid : Z) : option Group :=
  List.find (fun g => Z.eqb (group_id g) gid) (groups st).

Definition findGroupAt (st : State) (slot : SlotId) : option Group :=
  List.find (fun g => Z.eqb (slot_context g) slot) (groups st).

Definition replaceGroup (g' : Group) (gs : list Group) : list Group :=
  map (fun g => if Z.eqb (group_id g) (group_id g') then g' else g) gs.

(** Modelled from the spec: adding a confirmed member (section 4.4); a
    confirmed membership is added only for a user who has none yet (section
    3: at most one confirmed membership per user per group). *)
Definition addConfirmed (now : Z) (r : Role) (u : UserId) (g : Group) : Group :=
  if isConfirmedMember g u then g
  else {| group_id := group_id g;
          slot_context := slot_context g;
          members := members g
                     ++ [ {| user_id := u; role := r; status := confirmed;
                             joined_at := now |} ] |}.

Section WithEnv.
Context (env : Env).

(** Modelled from the spec: [formOrJoin(slotContext, initialMembers)] of
    section 4.4 (the group engine is back-end code outside the sources at
    hand).  Without a group at the slot it creates one, the first member
    as founder; with one it adds the newcomers as confirmed members
    directly, with no size check. *)
Definition formOrJoin (now : Z) (slot : SlotId) (a b : UserId) (st : State) : State :=
  match findGroupAt st slot with
  | None =>
      let g0 := {| group_id := Z.of_nat (List.length (groups st));
                   slot_context := slot;
                   members := [] |} in
      {| groups := groups st
                   ++ [addConfirmed now member b (addConfirmed now founder a g0)];
         requests := requests st |}
  | Some g =>
      {| groups := replaceGroup
                     (addConfirmed now member b (addConfirmed now member a g))
                     (groups st);
         requests := requests st |}
  end.

Definition hasPendingRequest (st : State) (gid : Z) (u : UserId) : bool :=
  existsb
    (fun r => Z.eqb (req_group_id r) gid
              && String.eqb (requester_id r) u
              && match req_status r with req_pending => true | _ => false end)
    (requests st).

(** Modelled from the spec: the [GroupFull] test of section 4.4, some
    confirmed member [m] has [currentSize >= m.max_group_size]. *)
Definition atCapacity (g : Group) : bool :=
  existsb
    (fun m => confirmedMemberCount g >=? max_group_size (getUser env (user_id m)))
    (confirmedMembers g).

(** Modelled from the spec: [max(confirmed members' min_group_size)] of
    section 4.4. *)
Definition comfortMinimum (g : Group) : Z :=
  fold_right Z.max 0
    (map (fun m => min_group_size (getUser env (user_id m))) (confirmedMembers g)).

(** Modelled from the spec: the glossary's tentative group, one below at
    least one confirmed member's declared minimum comfortable size. *)
Definition groupStatus (g : Group) : GroupStatus :=
  if confirmedMemberCount g <? comfortMinimum g then tentative else active.

Record JoinOutcome : Type := {
  request : GroupJoinRequest;
  is_tentative : bool;
}.

(** Modelled from the spec: [requestJoin(groupId, requesterId)] of
    section 4.4, with the checks in the order the section lists them. *)
Definition requestJoin (now : Z) (gid : Z) (requester : UserId) (st : State)
  : Result (State * JoinOutcome) :=
  match findGroup st gid with
  | None => Err NotFound
  | Some g =>
      if isConfirmedMember g requester then Err AlreadyMember
      else if hasPendingRequest st gid requester then Err DuplicatePendingRequest
      else
        let currentSize := confirmedMemberCount g in
        if atCapacity g then Err GroupFull
        else
          let r := {| request_id := Z.of_nat (List.length (requests st));
                      req_group_id := gid;
                      requester_id := requester;
                      req_status := req_pending;
                      created_at := now;
                      responded_at := None |} in
          Ok ({| groups := groups st; requests := requests st ++ [r] |},
              {| request := r;
                 is_tentative := currentSize + 1 <? comfortMinimum g |})
  end.

Definition findRequest (st : State) (rid : Z) : option GroupJoinRequest :=
  List.find (fun r => Z.eqb (request_id r) rid) (requests st).

Definition resolve (now : Z) (rid : Z) (s : RequestStatus)
    (rs : list GroupJoinRequest) : list GroupJoinRequest :=
  map (fun r => if Z.eqb (request_id r) rid
                then {| request_id := request_id r;
                        req_group_id := req_group_id r;
                        requester_id := requester_id r;
                        req_status := s;
                        created_at := created_at r;
                        responded_at := Some now |}
                else r) rs.

(** Modelled from the spec: [respondToJoinRequest(requestId, responderId,
    accept)] of section 4.4. *)
Definition respondToJoinRequest (now : Z) (rid : Z) (responder : UserId)
    (accept : bool) (st : State) : Result State :=
  match findRequest st rid with
  | None => Err NotFound
  | Some r =>
      match findGroup st (req_group_id r) with
      | None => Err NotFound
      | Some g =>
          if negb (isConfirmedMember g responder) then Err NotAMember
          else
            match req_status r with
            | req_pending =>
                if accept
                then Ok {| groups := replaceGroup
                                       (addConfirmed now member (requester_id r) g)
                                       (groups st);
                           requests := resolve now rid req_accepted (requests st) |}
                else Ok {| groups := groups st;
                           requests := resolve now rid req_declined (requests st) |}
            | _ => Err AlreadyResolved
            end
      end
  end.

(** Modelled from the spec: one operation of section 4.4 applied to a
    state, and the states reachable from the empty one. *)
Inductive step : State -> State -> Prop :=
| step_formOrJoin now slot a b st :
    step st (formOrJoin now slot a b st)
| step_requestJoin now gid u st st' out :
    requestJoin now gid u st = Ok (st', out) ->
    step st st'
| step_respond now rid u accept st st' :
    respondToJoinRequest now rid u accept st = Ok st' ->
    step st st'.

Inductive reachable : State -> Prop :=
| reachable_empty : reachable empty
| reachable_step st st' : reachable st -> step st st' -> reachable st'.

(** Modelled from the spec: the size invariant of section 8 for one group,
    [confirmedMemberCount(G) <= m.max_group_size] for every confirmed
    member [m], as a test. *)
Definition withinCaps (g : Group) : bool :=
  forallb
    (fun m => confirmedMemberCount g <=? max_group_size (getUser env (user_id m)))
    (confirmedMembers g).

Definition sizeInvariant (st : State) : bool := forallb withinCaps (groups st).

End WithEnv.

End GroupEngine.

(* ===================================================================== *)
(** * Interest ledger and matching engine (spec sections 4.2 and 4.3) *)
(* ===================================================================== *)

Module Matching.
Import Model.

(** Modelled from the spec: [InterestExpression] and [Match] of section 3,
    stored by the back end (outside the sources at hand). *)
Record InterestExpression : Type := {
  actor_id : UserId;
  target_id : UserId;
  slot_id : SlotId;
}.

Inductive MatchStatus : Type := pending | time_proposed | confirmed.

Record Match : Type := {
  match_id : Z;
  user_a : UserId;
  user_b : UserId;
  slot_context : SlotId;
  status : MatchStatus;
  proposed_datetime : option Z;
  proposer_id : option UserId;
  confirmed_at : option Z;
}.

Record State : Type := {
  ledger : list InterestExpression;
  matches : list Match;
  groupState : GroupEngine.State;
}.

Definition empty : State :=
  {| ledger := []; matches := []; groupState := GroupEngine.empty |}.

(** Modelled from the spec: what a repeated [expressInterest] does; section
    4.2 names the [DuplicateExpression] failure and allows the idempotent
    no-op as an alternative. *)
Inductive DuplicatePolicy : Type :=
| FailOnDuplicate
| NoOpOnDuplicate.

Definition same_triple (actor target : UserId) (slot : SlotId)
    (e : InterestExpression) : bool :=
  String.eqb (actor_id e) actor && String.eqb (target_id e) target
  && Z.eqb (slot_id e) slot.

Definition recorded (st : State) (actor target : UserId) (slot : SlotId) : bool :=
  existsb (same_triple actor target slot) (ledger st).

(** Number of ledger records for a triple. *)
Definition recordCount (st : State) (actor target : UserId) (slot : SlotId) : nat :=
  List.length (List.filter (same_triple actor target slot) (ledger st)).

Definition same_pair (a b : UserId) (m : Match) : bool :=
  (String.eqb (user_a m) a && String.eqb (user_b m) b)
  || (String.eqb (user_a m) b && String.eqb (user_b m) a).

Definition liveMatch (st : State) (a b : UserId) (slot : SlotId) : bool :=
  existsb (fun m => same_pair a b m && Z.eqb (slot_context m) slot) (matches st).

Section WithEnv.
Context (env : Env).

(** Modelled from the spec: [u] currently holds the slot (section 4.2), it
    is theirs, active and visible. *)
Definition holds (u : UserId) (slot : SlotId) : bool :=
  match getSlotById env slot with
  | Some s => String.eqb (owner s) u && visible env s
  | None => false
  end.

(** Modelled from the spec: the reciprocity rule of section 4.2 for a new
    expression (actor -> target, slot): the target holds [slot] and has
    earlier expressed interest in the actor for a slot the actor holds. *)
Definition reciprocal (st : State) (actor target : UserId) (slot : SlotId) : bool :=
  holds target slot
  && existsb
       (fun e => String.eqb (actor_id e) target
                 && String.eqb (target_id e) actor
                 && holds actor (slot_id e))
       (ledger st).

(** Modelled from the spec: [createOnReciprocity(userA, userB,
    slotContext)] of section 4.3; an existing live match for the pair at
    the slot is skipped silently, otherwise a pending match is created
    and the group engine's [formOrJoin] is invoked. *)
Definition createOnReciprocity (now : Z) (a b : UserId) (slot : SlotId)
    (st : State) : State :=
  if liveMatch st a b slot then st
  else
    {| ledger := ledger st;
       matches := matches st
                  ++ [ {| match_id := Z.of_nat (List.length (matches st));
                          user_a := a; user_b := b;
                          slot_context := slot;
                          status := pending;
                          proposed_datetime := None;
                          proposer_id := None;
                          confirmed_at := None |} ];
       groupState := GroupEngine.formOrJoin now slot a b (groupState st) |}.

(** Modelled from the spec: [expressInterest(actorId, targetId, slotId)]
    of section 4.2 (the ledger is back-end code outside the sources at
    hand).  The answer is the state after the call and whether a mutual
    match resulted. *)
Definition expressInterest (policy : DuplicatePolicy) (now : Z)
    (actor target : UserId) (slot : SlotId) (st : State)
  : Result (State * bool) :=
  if String.eqb actor target then Err InvalidTarget
  else
    match getSlotById env slot with
    | None => Err NotFound
    | Some _ =>
        if recorded st actor target slot then
          match policy with
          | FailOnDuplicate => Err DuplicateExpression
          | NoOpOnDuplicate => Ok (st, reciprocal st actor target slot)
          end
        else
          let st1 := {| ledger := ledger st
                                  ++ [ {| actor_id := actor;
                                          target_id := target;
                                          slot_id := slot |} ];
                        matches := matches st;
                        groupState := groupState st |} in
          if reciprocal st actor target slot
          then Ok (createOnReciprocity now actor target slot st1, true)
          else Ok (st1, false)
    end.

(** Modelled from the spec: [listSentByUser(userId)] of section 4.2, a pure
    read of the ledger. *)
Definition listSentByUser (st : State) (u : UserId) : list (UserId * SlotId) :=
  map (fun e => (target_id e, slot_id e))
      (List.filter (fun e => String.eqb (actor_id e) u) (ledger st)).

(** Modelled from the spec: one operation on the engine state, a successful
    [expressInterest] or a group-engine operation on the group part, and the
    states reachable from the empty one. *)
Inductive step (policy : DuplicatePolicy) : State -> State -> Prop :=
| step_express now actor target slot st st' r :
    expressInterest policy now actor target slot st = Ok (st', r) ->
    step policy st st'
| step_group st gs' :
    GroupEngine.step env (groupState st) gs' ->
    step policy st
         {| ledger := ledger st; matches := matches st; groupState := gs' |}.

Inductive reachable (policy : DuplicatePolicy) : State -> Prop :=
| reachable_empty : reachable policy empty
| reachable_step st st' :
    reachable policy st -> step policy st st' -> reachable policy st'.

End WithEnv.

End Matching.

(* ===================================================================== *)
(** * Ranking / discovery view (spec section 4.5) *)
(* ===================================================================== *)

Module Discovery.
Import Model.

Record PersonView : Type := {
  person : UserId;
  slot : AvailabilitySlot;
  sharedInterests : gset string;
  otherInterests : gset string;
  times_overlap : bool;
  tier : Z;   (* 0 full match, 1 partial match, 2 no match *)
}.

(** Modelled from the spec: the stable sort of section 4.5, as an insertion
    sort by a "not after" test: [x] goes behind every element it is not
    strictly before. *)
Section Sort.
Context {A : Type} (le : A -> A -> bool).

Fixpoint insert_sorted (x : A) (l : list A) : list A :=
  match l with
  | [] => [x]
  | y :: rest => if le y x then y :: insert_sorted x rest else x :: l
  end.

Definition stable_sort (l : list A) : list A :=
  fold_left (fun acc x => insert_sorted x acc) l [].

End Sort.

(** Modelled from the spec: one direction of the preference match of
    section 4.5; [p]'s stated preferences accept [q] when the age is within
    the bounds (a missing bound is unbounded) and the gender preference is
    empty or contains [q]'s gender. *)
Definition accepts (p q : User) : bool :=
  match min_age_pref p with Some lo => lo <=? age q | None => true end
  && match max_age_pref p with Some hi => age q <=? hi | None => true end
  && (bool_decide (gender_prefs p = ∅)
      || bool_decide (gender q ∈ gender_prefs p)).

(** Modelled from the spec: the tier by the two directions of section 4.5,
    both satisfied, exactly one, none. *)
Definition directionTier (viewer p : User) : Z :=
  match accepts viewer p, accepts p viewer with
  | true, true => 0
  | true, false | false, true => 1
  | false, false => 2
  end.

(** Modelled from the spec: section 4.5 calls its last tier "No match /
    preferences unset on either side", while its first tier treats a missing
    bound as unbounded and an empty gender set as any.  Both readings are
    kept.  Under [UnsetAccepts] unset preferences accept everyone and only
    the two directions count; under [UnsetNeutral] a pair of which one side
    states no preference at all is put in the last tier. *)
Inductive UnsetPolicy : Type :=
| UnsetAccepts
| UnsetNeutral.

(** Modelled from the spec: the user states some preference, an age bound
    or a non-empty gender set (section 3). *)
Definition hasPreferences (u : User) : bool :=
  match min_age_pref u, max_age_pref u with
  | None, None => negb (bool_decide (gender_prefs u = ∅))
  | _, _ => true
  end.

(** Modelled from the spec: the three tiers of section 4.5 under either
    reading of its third item. *)
Definition tierOf (policy : UnsetPolicy) (viewer p : User) : Z :=
  match policy with
  | UnsetAccepts => directionTier viewer p
  | UnsetNeutral =>
      if hasPreferences viewer && hasPreferences p
      then directionTier viewer p
      else 2
  end.

(** Modelled from the spec: the sort key of section 4.5, ascending: tier,
    then overlap present first, then more shared interests first. *)
Definition sortKey (v : PersonView) : Z * Z * Z :=
  (tier v,
   if times_overlap v then 0 else 1,
   - Z.of_nat (size (sharedInterests v))).

Definition key_le (k1 k2 : Z * Z * Z) : bool :=
  let '(a1, b1, c1) := k1 in
  let '(a2, b2, c2) := k2 in
  (a1 <? a2) || ((a1 =? a2) && ((b1 <? b2) || ((b1 =? b2) && (c1 <=? c2)))).

Definition notAfter (v w : PersonView) : bool := key_le (sortKey v) (sortKey w).



Section WithEnv.
Context (policy : UnsetPolicy) (env : Env).

Definition sameLocation (a b : AvailabilitySlot) : bool :=
  String.eqb (location a) (location b).

(** Modelled from the spec: the viewer's own slots at the location
    (section 4.5), read through [getActiveSlots] (section 6). *)
Definition viewerSlotsAt (viewerId : UserId) (target : AvailabilitySlot)
  : list AvailabilitySlot :=
  List.filter
    (fun s => String.eqb (owner s) viewerId && is_active s && sameLocation s target)
    (slots env).

(** Modelled from the spec: every other user's visible slot at the
    location, in creation order (section 4.5). *)
Definition othersAt (viewerId : UserId) (target : AvailabilitySlot)
  : list AvailabilitySlot :=
  List.filter
    (fun s => negb (String.eqb (owner s) viewerId) && visible env s
              && sameLocation s target)
    (slots env).

Definition viewOf (viewerId : UserId) (mine : list AvailabilitySlot)
    (s : AvailabilitySlot) : PersonView :=
  let viewer := getUser env viewerId in
  let p := getUser env (owner s) in
  {| person := owner s;
     slot := s;
     sharedInterests := interests viewer ∩ interests p;
     otherInterests := interests p ∖ (interests viewer ∩ interests p);
     times_overlap :=
       existsb (fun m => Overlap.overlap (Overlap.overlaps m s)) mine;
     tier := tierOf policy viewer p |}.

(** Modelled from the spec: the views to be ranked, in slot creation
    order, with shared and other interests and the overlap flag of section
    4.5. *)
Definition candidates (viewerId : UserId) (target : AvailabilitySlot)
  : list PersonView :=
  map (viewOf viewerId (viewerSlotsAt viewerId target))
      (othersAt viewerId target).

(** Modelled from the spec: [peopleAtLocation(viewerId, slotId)] of
    section 4.5 (the discovery router is back-end code outside the
    sources at hand): the views of the other visible slots at the
    location of [slotId], stably sorted by [sortKey]. *)
Definition peopleAtLocation (viewerId : UserId) (slotId : SlotId)
  : Result (list PersonView) :=
  match getSlotById env slotId with
  | None => Err NotFound
  | Some target => Ok (stable_sort notAfter (candidates viewerId target))
  end.

End WithEnv.

End Discovery.

(* ===================================================================== *)
(** * The scenarios of spec section 8 *)
(* ===================================================================== *)

Module Samples.
Import Model.

Definition defaultUser : User :=
  {| age := 25; gender := "female"; interests := ∅; is_available := true;
     min_age_pref := None; max_age_pref := None; gender_prefs := ∅;
     min_group_size := 2; max_group_size := 10 |}.

Definition withGroupSize (lo hi : Z) (u : User) : User :=
  {| age := age u; gender := gender u; interests := interests u;
     is_available := is_available u;
     min_age_pref := min_age_pref u; max_age_pref := max_age_pref u;
     gender_prefs := gender_prefs u;
     min_group_size := lo; max_group_size := hi |}.

(** Scenario A: Alex at Central Park on Monday and Wednesday 18:00-20:00,
    Jordan at Central Park on Monday 19:00-21:00; Sam is a third person
    there. *)
Definition alexSlot : AvailabilitySlot :=
  {| slot_id := 1; owner := "alex"; location := "Central Park";
     time_start := 1080; time_end := 1200; repeat_days := {[0; 2]};
     is_active := true |}.

Definition jordanSlot : AvailabilitySlot :=
  {| slot_id := 2; owner := "jordan"; location := "Central Park";
     time_start := 1140; time_end := 1260; repeat_days := {[0]};
     is_active := true |}.

Definition samSlot : AvailabilitySlot :=
  {| slot_id := 3; owner := "sam"; location := "Central Park";
     time_start := 1080; time_end := 1260; repeat_days := {[0]};
     is_active := true |}.

(** Scenario B: Alex is comfortable with at most two people. *)
Definition scenarioB : Env :=
  {| getUser := fun u => if String.eqb u "alex"
                         then withGroupSize 2 2 defaultUser
                         else defaultUser;
     slots := [alexSlot; jordanSlot; samSlot] |}.

(** Scenario C: Alex accepts five, Jordan wants at least three. *)
Definition scenarioC : Env :=
  {| getUser := fun u => if String.eqb u "alex"
                         then withGroupSize 2 5 defaultUser
                         else if String.eqb u "jordan"
                              then withGroupSize 3 10 defaultUser
                              else defaultUser;
     slots := [alexSlot; jordanSlot; samSlot] |}.

(** The group of Scenario A, then Sam matching Alex at the same slot. *)
Definition foundedGroup : GroupEngine.State :=
  GroupEngine.formOrJoin 10 1 "jordan" "alex" GroupEngine.empty.

Definition lateJoinGroup : GroupEngine.State :=
  GroupEngine.formOrJoin 20 1 "sam" "alex" foundedGroup.

End Samples.

Module LedgerSamples.
Import Model Matching.

(** Scenario A, first half: Alex expresses interest in Jordan at Jordan's
    slot. *)
Definition afterAlex : State :=
  {| ledger := [ {| actor_id := "alex"; target_id := "jordan"; slot_id := 2 |} ];
     matches := [];
     groupState := GroupEngine.empty |}.

End LedgerSamples.

Module ScenarioE.
Import Model.

Definition person (a : Z) (g : string) : User :=
  {| age := a; gender := g; interests := ∅; is_available := true;
     min_age_pref := None; max_age_pref := None; gender_prefs := ∅;
     min_group_size := 2; max_group_size := 10 |}.

(** The viewer prefers ages 25 to 35 and women. *)
Definition viewer : User :=
  {| age := 30; gender := "male"; interests := ∅; is_available := true;
     min_age_pref := Some 25; max_age_pref := Some 35;
     gender_prefs := {["female"]};
     min_group_size := 2; max_group_size := 10 |}.

Definition slotOf (n : Z) (u : UserId) : AvailabilitySlot :=
  {| slot_id := n; owner := u; location := "Riverside Cafe";
     time_start := 1080; time_end := 1200; repeat_days := {[0]};
     is_active := true |}.

(** Three people at the location, their own preferences unset, slots
    created in the order of the scenario. *)
Definition env : Env :=
  {| getUser := fun u =>
       if String.eqb u "viewer" then viewer
       else if String.eqb u "ana" then person 28 "female"
       else if String.eqb u "ben" then person 30 "male"
       else person 40 "female";
     slots := [slotOf 1 "ana"; slotOf 2 "ben"; slotOf 3 "cleo"] |}.


(** A person who states a preference that the viewer meets: nobody under
    18. *)
Definition statedPerson (a : Z) (g : string) : User :=
  {| age := a; gender := g; interests := ∅; is_available := true;
     min_age_pref := Some 18; max_age_pref := None; gender_prefs := ∅;
     min_group_size := 2; max_group_size := 10 |}.

(** The first two people stating a preference that accepts the viewer, the
    third one not accepting anyone over 25, and the slots created in the
    opposite order. *)
Definition envStrict : Env :=
  {| getUser := fun u =>
       if String.eqb u "viewer" then viewer
       else if String.eqb u "ana" then statedPerson 28 "female"
       else if String.eqb u "ben" then statedPerson 30 "male"
       else {| age := 40; gender := "female"; interests := ∅;
               is_available := true;
               min_age_pref := None; max_age_pref := Some 25;
               gender_prefs := ∅;
               min_group_size := 2; max_group_size := 10 |};
     slots := [slotOf 1 "cleo"; slotOf 2 "ben"; slotOf 3 "ana"] |}.

End ScenarioE.

(** A fuller location: the viewer has a slot there, people differ in
    overlap and in shared interests, one person is unavailable, one slot is
    paused and one is elsewhere. *)
Module DiscoverySamples.
Import Model.

Definition user (a : Z) (g : string) (tags : gset string) (hi : option Z) : User :=
  {| age := a; gender := g; interests := tags; is_available := true;
     min_age_pref := Some 18; max_age_pref := hi; gender_prefs := ∅;
     min_group_size := 2; max_group_size := 10 |}.

(** The viewer prefers ages 25 to 35 and women, and likes hiking, chess and
    jazz. *)
Definition viewer : User :=
  {| age := 30; gender := "male"; interests := {["hiking"; "chess"; "jazz"]};
     is_available := true;
     min_age_pref := Some 25; max_age_pref := Some 35;
     gender_prefs := {["female"]};
     min_group_size := 2; max_group_size := 10 |}.

Definition away (u : User) : User :=
  {| age := age u; gender := gender u; interests := interests u;
     is_available := false;
     min_age_pref := min_age_pref u; max_age_pref := max_age_pref u;
     gender_prefs := gender_prefs u;
     min_group_size := min_group_size u; max_group_size := max_group_size u |}.

Definition users (u : UserId) : User :=
  if String.eqb u "viewer" then viewer
  else if String.eqb u "ana" then user 28 "female" {["hiking"; "chess"]} None
  else if String.eqb u "dora" then user 27 "female" {["hiking"; "chess"; "jazz"]} None
  else if String.eqb u "eve" then user 33 "female" {["jazz"; "opera"]} None
  else if String.eqb u "ben" then user 30 "male" {["jazz"]} None
  else if String.eqb u "cleo" then
    user 40 "female" {["hiking"; "chess"; "jazz"]} (Some 25)
  else if String.eqb u "fay" then away (user 29 "female" {["hiking"]} None)
  else user 29 "female" ∅ None.

Definition slotAt (n : Z) (u : UserId) (place : string) (day start finish : Z)
    (active : bool) : AvailabilitySlot :=
  {| slot_id := n; owner := u; location := place;
     time_start := start; time_end := finish; repeat_days := {[day]};
     is_active := active |}.

(** The viewer is at the cafe on Monday 18:00-20:00. *)
Definition env : Env :=
  {| getUser := users;
     slots := [ slotAt 1 "viewer" "Riverside Cafe" 0 1080 1200 true;
                slotAt 2 "cleo" "Riverside Cafe" 0 1140 1260 true;
                slotAt 3 "dora" "Riverside Cafe" 1 600 720 true;
                slotAt 4 "ben" "Riverside Cafe" 0 1080 1140 true;
                slotAt 5 "eve" "Riverside Cafe" 0 1170 1230 true;
                slotAt 6 "ana" "Riverside Cafe" 0 1020 1140 true;
                slotAt 7 "fay" "Riverside Cafe" 0 1080 1200 true;
                slotAt 8 "gus" "Central Park" 0 1080 1200 true;
                slotAt 9 "hal" "Riverside Cafe" 0 1080 1200 false;
                slotAt 10 "viewer" "Riverside Cafe" 1 600 720 false ] |}.

End DiscoverySamples.

(* ===================================================================== *)
(** * Dashboard (later revision): the new-spot form with day and time buttons *)
(* ===================================================================== *)

Module Dashboard2.

Record NewSpot : Type := {
  lat : string;
  lng : string;
  name : string;
  address : string;
}.

Record State : Type := {
  newSpot : option NewSpot;
  newSpotDate : string;
  newSpotTimeStart : string;
  newSpotTimeEnd : string;
  newSpotRepeat : bool;
  newSpotRepeatDays : list Z;
}.

(** The [useState] defaults around a given [newSpot]. *)
Definition initial (spot : option NewSpot) : State :=
  {| newSpot := spot; newSpotDate := ""; newSpotTimeStart := "09:00";
     newSpotTimeEnd := "17:00"; newSpotRepeat := false; newSpotRepeatDays := [] |}.

(** [handleSaveSpot] of this revision: the location name is [newSpot.name]. *)
Definition handleSaveSpot (localTZA : Z) (s : State)
  : option Dashboard.CreateAvailability :=
  match newSpot s with
  | None => None
  | Some spot =>
      let repeatDays :=
        if negb (newSpotRepeat s) && Js.truthy (newSpotDate s)
        then
          let date := JsDate.parse (newSpotDate s) in
          let dayOfWeek :=
            Js.rem (Js.add (JsDate.getDay localTZA date) (Js.Num 6)) (Js.Num 7) in
          [dayOfWeek]
        else map Js.Num (newSpotRepeatDays s) in
      Some {| Dashboard.location_name := name spot;
              Dashboard.latitude := lat spot;
              Dashboard.longitude := lng spot;
              Dashboard.time_start := newSpotTimeStart s;
              Dashboard.time_end := newSpotTimeEnd s;
              Dashboard.repeat_days := repeatDays |}
  end.

Definition saveDisabled (isPending : bool) (s : State) : bool :=
  isPending || (negb (Js.truthy (newSpotDate s)) && negb (newSpotRepeat s)).

Definition setDay (date : string) (repeat : bool) (s : State) : State :=
  {| newSpot := newSpot s; newSpotDate := date;
     newSpotTimeStart := newSpotTimeStart s; newSpotTimeEnd := newSpotTimeEnd s;
     newSpotRepeat := repeat; newSpotRepeatDays := newSpotRepeatDays s |}.

Definition setTimes (start finish : string) (s : State) : State :=
  {| newSpot := newSpot s; newSpotDate := newSpotDate s;
     newSpotTimeStart := start; newSpotTimeEnd := finish;
     newSpotRepeat := newSpotRepeat s; newSpotRepeatDays := newSpotRepeatDays s |}.

Definition toggleRepeatDay (day : Z) (s : State) : State :=
  {| newSpot := newSpot s; newSpotDate := newSpotDate s;
     newSpotTimeStart := newSpotTimeStart s; newSpotTimeEnd := newSpotTimeEnd s;
     newSpotRepeat := newSpotRepeat s;
     newSpotRepeatDays :=
       if existsb (Z.eqb day) (newSpotRepeatDays s)
       then List.filter (fun d => negb (Z.eqb d day)) (newSpotRepeatDays s)
       else newSpotRepeatDays s ++ [day] |}.

(** [createAvailability]'s [onSuccess]. *)
Definition onCreateSuccess (s : State) : State :=
  {| newSpot := None; newSpotDate := "";
     newSpotTimeStart := newSpotTimeStart s; newSpotTimeEnd := newSpotTimeEnd s;
     newSpotRepeat := false; newSpotRepeatDays := [] |}.

(** The four time-of-day buttons. *)
Definition TIME_PRESETS : list (string * string * string) :=
  [("Morning", "08:00", "12:00"); ("Lunch", "11:00", "14:00");
   ("Afternoon", "14:00", "18:00"); ("Evening", "18:00", "22:00")].

(** [s.split(':')] *)
Fixpoint split (s : string) : list string :=
  match s with
  | EmptyString => [EmptyString]
  | String c rest =>
      if Ascii.eqb c ":" then EmptyString :: split rest
      else match split rest with
           | piece :: pieces => String c piece :: pieces
           | [] => [String c EmptyString]
           end
  end.

(** [String(v)] for a number or [undefined] ([None]). *)
Definition showValue (v : option Js.number) : string :=
  match v with
  | Some (Js.Num z) => NilZero.string_of_int (Z.to_int z)
  | Some Js.NaN => "NaN"
  | None => "undefined"
  end.

(** [s.padStart(2, '0')] *)
Definition padStart2 (s : string) : string :=
  match String.length s with
  | O => "00"
  | S O => String "0" s
  | _ => s
  end.

Section Steppers.
(** The runtime's [Number(text)]; its results other than integers and [NaN]
    are not represented. *)
Context (Number : string -> Js.number).

(** [const [h, m] = time.split(':').map(Number)] *)
Definition hourAndMinute (time : string) : option Js.number * option Js.number :=
  let parts := map Number (split time) in
  (nth_error parts 0, nth_error parts 1).

(** The minus button: [newH = h > 0 ? h - 1 : 23]. *)
Definition hourDown (time : string) : string :=
  let (h, m) := hourAndMinute time in
  let newH := match h with
              | Some (Js.Num z) => if z >? 0 then z - 1 else 23
              | _ => 23
              end in
  (padStart2 (showValue (Some (Js.Num newH))) ++ ":" ++ padStart2 (showValue m))%string.

(** The plus button: [newH = h < 23 ? h + 1 : 0]. *)
Definition hourUp (time : string) : string :=
  let (h, m) := hourAndMinute time in
  let newH := match h with
              | Some (Js.Num z) => if z <? 23 then z + 1 else 0
              | _ => 0
              end in
  (padStart2 (showValue (Some (Js.Num newH))) ++ ":" ++ padStart2 (showValue m))%string.

(** What can be clicked in the form, and the mutation's success. *)
Inductive Event : Type :=
| PickDate (date : string)      (* Today, Tomorrow *)
| PickWeekly
| ToggleDay (day : Z)
| PickPreset (start finish : string)
| StartDown | StartUp | EndDown | EndUp
| CreateSucceeded.

Definition handle (e : Event) (s : State) : State :=
  match e with
  | PickDate date => setDay date false s
  | PickWeekly => setDay "" true s
  | ToggleDay day => toggleRepeatDay day s
  | PickPreset start finish => setTimes start finish s
  | StartDown => setTimes (hourDown (newSpotTimeStart s)) (newSpotTimeEnd s) s
  | StartUp => setTimes (hourUp (newSpotTimeStart s)) (newSpotTimeEnd s) s
  | EndDown => setTimes (newSpotTimeStart s) (hourDown (newSpotTimeEnd s)) s
  | EndUp => setTimes (newSpotTimeStart s) (hourUp (newSpotTimeEnd s)) s
  | CreateSucceeded => onCreateSuccess s
  end.

Definition run (events : list Event) (s : State) : State :=
  fold_left (fun st e => handle e st) events s.

End Steppers.

(** A clock time written [HH:MM]. *)
Definition clockTime (t : string) : Prop :=
  exists h m : nat, (h < 24)%nat /\ (m < 60)%nat /\ t = AvailabilityForm.hhmm h m.

(** The event can come from the rendered buttons: a preset is one of
    [TIME_PRESETS]. *)
Definition fromButtons (e : Event) : Prop :=
  match e with
  | PickPreset start finish => exists label, In (label, start, finish) TIME_PRESETS
  | _ => True
  end.

(** A [Number] that reads unsigned decimal numerals, for examples. *)
Definition decimalNumber (s : string) : Js.number :=
  match JsDate.digits s with
  | Some n => Js.Num n
  | None => Js.NaN
  end.

End Dashboard2.

Module PageSamples.

(** A form with a location, no day selected yet. *)
Definition formAtCafe : AvailabilityForm.State :=
  {| AvailabilityForm.location :=
       Some {| AvailabilityForm.name := "Riverside Cafe";
               AvailabilityForm.address := "1 River St";
               AvailabilityForm.latitude := "40.7";
               AvailabilityForm.longitude := "-74.0" |};
     AvailabilityForm.timeStart := "09:00";
     AvailabilityForm.timeEnd := "17:00";
     AvailabilityForm.repeatDays := [];
     AvailabilityForm.radiusMeters := None;
     AvailabilityForm.error := "" |}.

(** A stored slot: Monday and Wednesday evening, zero radius. *)
Definition storedSlot : AvailabilityPage.AvailabilitySlot :=
  {| AvailabilityPage.id := 7;
     AvailabilityPage.location_name := "Central Park";
     AvailabilityPage.latitude := "40.78";
     AvailabilityPage.longitude := "-73.96";
     AvailabilityPage.radius_meters := Some 0;
     AvailabilityPage.time_start := "18:00";
     AvailabilityPage.time_end := "20:00";
     AvailabilityPage.repeat_days := [0; 2];
     AvailabilityPage.is_active := true |}.

Definition mkMatch (n : Z) (st : string) (by_id : option string) : Matches.Match :=
  {| Matches.match_id := n;
     Matches.user1_id := "alex";
     Matches.user2_id := "jordan";
     Matches.availability_id := 1;
     Matches.status := st;
     Matches.proposed_datetime := None;
     Matches.proposed_by_id := by_id;
     Matches.confirmed_at := None;
     Matches.created_at := "2025-05-01T10:00:00" |}.

Definition someMatches : list Matches.Match :=
  [mkMatch 1 "pending" None; mkMatch 2 "time_proposed" (Some "jordan");
   mkMatch 3 "confirmed" (Some "alex")].

Definition alex : Matches.User :=
  {| Matches.id := "alex"; Matches.first_name := "Alex"; Matches.birth_year := 2000 |}.

End PageSamples.

(* ===================================================================== *)
(** * Properties of the pages *)
(* ===================================================================== *)

Module BrowseProps.
Import Browse.

Lemma some_pair_iff (sent : list SentInterest) (u : string) (a : Z) :
  existsb (fun i => String.eqb (target_id i) u && Z.eqb (availability_id i) a) sent
    = true
  <-> exists i, In i sent /\ target_id i = u /\ availability_id i = a.
Proof.
  rewrite existsb_exists. split.
  - intros (i & Hin & Hi). apply andb_true_iff in Hi as [Ht Ha].
    apply String.eqb_eq in Ht. apply Z.eqb_eq in Ha. eauto.
  - intros (i & Hin & Ht & Ha). exists i. split; [assumption|].
    apply andb_true_iff. split; [now apply String.eqb_eq | now apply Z.eqb_eq].
Qed.

(** C6. [hasExpressedInterest(userId, availabilityId)] is true exactly when
    the sent-interests list has an entry with that target and that slot
    (on the Browse page and on the Dashboard alike), and the action button
    of a person card is the disabled "interest expressed" button exactly
    when the card's (person, slot) pair is in the list; otherwise it is the
    express-interest button carrying that pair. *)
Theorem hasExpressedInterest_spec (sent : list SentInterest) :
  (forall u a,
      hasExpressedInterest sent u a = true
      <-> exists i, In i sent /\ target_id i = u /\ availability_id i = a)
  /\ (forall u a,
      Dashboard.hasExpressedInterest sent u a = hasExpressedInterest sent u a)
  /\ (forall isPending person,
      is_sent_button (actionButton sent isPending person) = true
      <-> exists i, In i sent /\ target_id i = id (user person)
                    /\ availability_id i = slot_id (availability person))
  /\ (forall isPending person,
      is_sent_button (actionButton sent isPending person) = false ->
      actionButton sent isPending person
      = ExpressInterest isPending
          {| targetId := id (user person);
             availabilityId := slot_id (availability person) |}).
Proof.
  split; [|split; [|split]].
  - intros u a. apply some_pair_iff.
  - reflexivity.
  - intros isPending person. rewrite <- some_pair_iff.
    unfold actionButton, hasExpressedInterest.
    destruct (existsb _ sent); simpl; split; congruence.
  - intros isPending person. unfold actionButton.
    destruct (hasExpressedInterest sent _ _); simpl; [discriminate | reflexivity].
Qed.

End BrowseProps.

Module MatchesProps.
Import Matches.

Lemma with_status_In (s : string) (matches : list Match) (m : Match) :
  In m (with_status s matches) <-> In m matches /\ status m = s.
Proof.
  unfold with_status. rewrite filter_In, String.eqb_eq. reflexivity.
Qed.

Lemma with_status_disjoint (s t : string) (matches : list Match) (m : Match) :
  s <> t -> In m (with_status s matches) -> ~ In m (with_status t matches).
Proof.
  intros Hne Hs Ht. apply with_status_In in Hs, Ht. destruct Hs, Ht. congruence.
Qed.

(** The three status buckets taken together are the matches of a known
    status, each as often as it was fetched. *)
Lemma buckets_permutation (matches : list Match) :
  Permutation
    (with_status "pending" matches ++ with_status "time_proposed" matches
     ++ with_status "confirmed" matches)
    (List.filter known_status matches).
Proof.
  induction matches as [|m ms IH]; [constructor|].
  unfold with_status, known_status in *. cbn [List.filter].
  destruct (String.eqb_spec (status m) "pending") as [E1|N1].
  - rewrite E1. cbn. now constructor.
  - destruct (String.eqb_spec (status m) "time_proposed") as [E2|N2].
    + rewrite E2. cbn. rewrite <- IH. symmetry. apply Permutation_middle.
    + destruct (String.eqb_spec (status m) "confirmed") as [E3|N3].
      * cbn. rewrite <- IH.
        rewrite app_assoc. rewrite <- Permutation_middle.
        rewrite <- app_assoc. reflexivity.
      * cbn. exact IH.
Qed.

End MatchesProps.

Module MeetupsProps.
Import Matches MatchesProps.

(** C7. On the Meetups page each of the three lists holds exactly the
    fetched matches of its status, the three lists are pairwise disjoint,
    a match of any other status is in none of them, and together they are
    the matches of a known status (each as often as fetched).  The
    Dashboard splits the same way into confirmed and pending, the latter
    holding the statuses pending and time_proposed. *)
Theorem match_status_partition (matches : list Match) :
  (forall m, In m (Meetups.pendingMatches matches)
             <-> In m matches /\ status m = "pending")
  /\ (forall m, In m (Meetups.proposedMatches matches)
                <-> In m matches /\ status m = "time_proposed")
  /\ (forall m, In m (Meetups.confirmedMatches matches)
                <-> In m matches /\ status m = "confirmed")
  /\ (forall m,
         ~ (In m (Meetups.pendingMatches matches)
            /\ In m (Meetups.proposedMatches matches))
         /\ ~ (In m (Meetups.pendingMatches matches)
               /\ In m (Meetups.confirmedMatches matches))
         /\ ~ (In m (Meetups.proposedMatches matches)
               /\ In m (Meetups.confirmedMatches matches)))
  /\ (forall m,
         status m <> "pending" -> status m <> "time_proposed" ->
         status m <> "confirmed" ->
         ~ In m (Meetups.pendingMatches matches)
         /\ ~ In m (Meetups.proposedMatches matches)
         /\ ~ In m (Meetups.confirmedMatches matches))
  /\ Permutation
       (Meetups.pendingMatches matches ++ Meetups.proposedMatches matches
        ++ Meetups.confirmedMatches matches)
       (List.filter known_status matches)
  /\ (forall m, In m (Dashboard.confirmedMatches matches)
                <-> In m matches /\ status m = "confirmed")
  /\ (forall m, In m (Dashboard.pendingMatches matches)
                <-> In m matches
                    /\ (status m = "pending" \/ status m = "time_proposed"))
  /\ (forall m, ~ (In m (Dashboard.confirmedMatches matches)
                   /\ In m (Dashboard.pendingMatches matches))).
Proof.
  unfold Meetups.pendingMatches, Meetups.proposedMatches, Meetups.confirmedMatches.
  repeat match goal with |- _ /\ _ => split end.
  - intros m. apply with_status_In.
  - intros m. apply with_status_In.
  - intros m. apply with_status_In.
  - intros m. repeat split; intros [H1 H2];
      revert H2; eapply with_status_disjoint; try exact H1; discriminate.
  - intros m N1 N2 N3. repeat split; intros H; apply with_status_In in H;
      destruct H; contradiction.
  - apply buckets_permutation.
  - intros m. apply with_status_In.
  - intros m. unfold Dashboard.pendingMatches.
    rewrite filter_In, orb_true_iff, !String.eqb_eq. reflexivity.
  - intros m [Hc Hp]. apply with_status_In in Hc as [_ Hc].
    unfold Dashboard.pendingMatches in Hp.
    rewrite filter_In, orb_true_iff, !String.eqb_eq in Hp.
    destruct Hp as [_ [Hp|Hp]]; congruence.
Qed.

Lemma isMyProposal_false_differs (user : option User) (m : Match) :
  isMyProposal user m = false
  <-> (forall u, user = Some u -> proposed_by_id m <> Some (id u)).
Proof.
  unfold isMyProposal, Js.strict_eq_null_undef, viewer_id.
  destruct (proposed_by_id m) as [p|], user as [u|]; split; intros H;
    try reflexivity; try discriminate.
  - intros u' [= <-] [= ->]. now rewrite String.eqb_refl in H.
  - destruct (String.eqb_spec p (id u)) as [->|]; [|reflexivity].
    now specialize (H u eq_refl).
Qed.

Lemma meetups_card (isLoading : bool) (user : option User)
    (proposingFor : option Z) (matches : list Match) (c : Card) :
  In c (Meetups.render isLoading user proposingFor matches) ->
  (status (fst c) = "confirmed" /\ c = Meetups.confirmedCard (fst c))
  \/ (status (fst c) = "time_proposed"
      /\ c = Meetups.proposedCard user proposingFor (fst c))
  \/ (status (fst c) = "pending" /\ c = Meetups.pendingCard proposingFor (fst c)).
Proof.
  unfold Meetups.render. destruct isLoading; [intros []|].
  destruct matches as [|m0 ms]; [intros []|].
  remember (m0 :: ms) as l. rewrite !in_app_iff, !in_map_iff.
  intros [(m & <- & H)|[(m & <- & H)|(m & <- & H)]];
    apply with_status_In in H as [_ H]; cbn; auto.
Qed.

Lemma dashboard_card (user : option User) (proposingFor : option Z)
    (matches : list Match) (c : Card) :
  In c (Dashboard.render user proposingFor matches) ->
  (status (fst c) = "confirmed" /\ c = Dashboard.confirmedCard (fst c))
  \/ ((status (fst c) = "pending" \/ status (fst c) = "time_proposed")
      /\ c = Dashboard.pendingCard user proposingFor (fst c)).
Proof.
  unfold Dashboard.render. rewrite in_app_iff, !in_map_iff.
  intros [(m & <- & H)|(m & <- & H)].
  - apply with_status_In in H as [_ H]. cbn. auto.
  - unfold Dashboard.pendingMatches in H.
    rewrite filter_In, orb_true_iff, !String.eqb_eq in H. cbn. tauto.
Qed.

(** C5. On the Meetups page and on the Dashboard, a card of a pending
    match offers proposing a time and no confirm button; a card of a
    time_proposed match has the confirm button exactly when
    [proposed_by_id] is not the viewer's id; hence wherever a confirm
    button is rendered a proposal exists and the viewer is not its
    proposer. *)
Theorem confirm_gating (user : option User) (proposingFor : option Z)
    (matches : list Match) :
  (forall isLoading c,
      In c (Meetups.render isLoading user proposingFor matches) -> gated user c)
  /\ (forall c,
      In c (Dashboard.render user proposingFor matches) -> gated user c).
Proof.
  split.
  - intros isLoading [m cs] Hin. apply meetups_card in Hin. cbn [fst] in Hin.
    destruct Hin as [[Hs [= ->]]|[[Hs [= ->]]|[Hs [= ->]]]]; unfold gated;
      rewrite Hs; (split; [|split]); try discriminate.
    + cbn. intros [[=]|[]].
    + intros _.
      destruct (isMyProposal user m), (decide _); cbn; split; intros H;
        try discriminate; try reflexivity; auto;
        repeat (destruct H as [H|H]; try discriminate); contradiction.
    + rewrite <- isMyProposal_false_differs.
      destruct (isMyProposal user m), (decide _); cbn; intros H; auto;
        repeat (destruct H as [H|H]; try discriminate); contradiction.
    + intros _. destruct (decide _); cbn; split; auto;
        intros H; repeat (destruct H as [H|H]; try discriminate); contradiction.
    + destruct (decide _); cbn; intros H;
        repeat (destruct H as [H|H]; try discriminate); contradiction.
  - intros [m cs] Hin. apply dashboard_card in Hin. cbn [fst] in Hin.
    destruct Hin as [[Hs [= ->]]|[[Hs|Hs] [= ->]]]; unfold gated;
      rewrite Hs; cbn; (split; [|split]); try discriminate.
    + intros [[=]|[]].
    + intros _. destruct (decide _); cbn; split; auto;
        intros H; repeat (destruct H as [H|H]; try discriminate); contradiction.
    + destruct (decide _); cbn; intros H;
        repeat (destruct H as [H|H]; try discriminate); contradiction.
    + intros _.
      destruct (isMyProposal user m); cbn; split; intros H;
        try discriminate; try reflexivity; auto;
        repeat (destruct H as [H|H]; try discriminate); contradiction.
    + rewrite <- isMyProposal_false_differs.
      destruct (isMyProposal user m); cbn; intros H; auto;
        repeat (destruct H as [H|H]; try discriminate); contradiction.
Qed.

End MeetupsProps.

Module AvailabilityFormProps.
Import AvailabilityForm.

Lemma insert_day_permutation (d : Z) (l : list Z) :
  Permutation (insert_day d l) (d :: l).
Proof.
  induction l as [|x rest IH]; cbn; [reflexivity|].
  destruct (x - d >? 0); [reflexivity|].
  rewrite IH. apply perm_swap.
Qed.

Lemma sort_days_permutation (l : list Z) : Permutation (sort_days l) l.
Proof.
  unfold sort_days. rewrite (Permutation_rev l) at 2.
  induction (rev l) as [|d r IH]; cbn; [reflexivity|].
  rewrite insert_day_permutation. now constructor.
Qed.

Lemma insert_day_sorted (d : Z) (l : list Z) :
  Sorted Z.le l -> Sorted Z.le (insert_day d l).
Proof.
  induction l as [|x rest IH]; cbn; intros Hs; [repeat constructor|].
  destruct (Z.gtb_spec (x - d) 0) as [Hgt|Hle].
  - constructor; [assumption|]. constructor. lia.
  - inversion Hs as [|? ? Hrest Hhd]; subst. constructor; [auto|].
    destruct rest as [|y rest']; cbn.
    + constructor. lia.
    + destruct (y - d >? 0); constructor; [lia|].
      inversion Hhd; subst. assumption.
Qed.

Lemma sort_days_sorted (l : list Z) : Sorted Z.le (sort_days l).
Proof.
  unfold sort_days. induction (rev l) as [|d r IH]; cbn; [constructor|].
  now apply insert_day_sorted.
Qed.

Lemma digit_compare (a b : nat) :
  (a < 10)%nat -> (b < 10)%nat ->
  Ascii.compare (digit a) (digit b) = Nat.compare a b.
Proof.
  intros Ha Hb.
  do 10 (destruct a as [|a];
         [do 10 (destruct b as [|b]; [reflexivity|]); lia|]).
  lia.
Qed.

(** On [HH:MM] texts the string order is the order of the clock times. *)
Lemma hhmm_lt (h1 m1 h2 m2 : nat) :
  (h1 < 24)%nat -> (m1 < 60)%nat -> (h2 < 24)%nat -> (m2 < 60)%nat ->
  Js.lt (hhmm h1 m1) (hhmm h2 m2) = true
  <-> (h1 * 60 + m1 < h2 * 60 + m2)%nat.
Proof.
  intros Hh1 Hm1 Hh2 Hm2.
  pose proof (Nat.div_mod_eq h1 10) as E1. pose proof (Nat.div_mod_eq h2 10) as E2.
  pose proof (Nat.div_mod_eq m1 10) as E3. pose proof (Nat.div_mod_eq m2 10) as E4.
  pose proof (Nat.mod_upper_bound h1 10 ltac:(lia)) as B1.
  pose proof (Nat.mod_upper_bound h2 10 ltac:(lia)) as B2.
  pose proof (Nat.mod_upper_bound m1 10 ltac:(lia)) as B3.
  pose proof (Nat.mod_upper_bound m2 10 ltac:(lia)) as B4.
  assert (h1 / 10 < 10)%nat as D1 by (apply Nat.Div0.div_lt_upper_bound; lia).
  assert (h2 / 10 < 10)%nat as D2 by (apply Nat.Div0.div_lt_upper_bound; lia).
  assert (m1 / 10 < 10)%nat as D3 by (apply Nat.Div0.div_lt_upper_bound; lia).
  assert (m2 / 10 < 10)%nat as D4 by (apply Nat.Div0.div_lt_upper_bound; lia).
  unfold Js.lt, String.ltb.
  cbv [hhmm two_digits String.append]. cbn [String.compare].
  rewrite !digit_compare by assumption.
  change (Ascii.compare ":" ":") with Eq.
  destruct (Nat.compare_spec (h1 / 10) (h2 / 10));
    [destruct (Nat.compare_spec (h1 mod 10) (h2 mod 10));
     [destruct (Nat.compare_spec (m1 / 10) (m2 / 10));
      [destruct (Nat.compare_spec (m1 mod 10) (m2 mod 10))| |]| |]| |];
    split; intros; try discriminate; try reflexivity; lia.
Qed.

Lemma handleSubmit_cases (onSubmit : Submission -> option string) (s : State) :
  (submitted (handleSubmit onSubmit s) = []
   /\ error (state (handleSubmit onSubmit s)) <> ""
   /\ (location s = None \/ repeatDays s = []
       \/ Js.lt (timeStart s) (timeEnd s) = false))
  \/ (exists loc,
         location s = Some loc /\ repeatDays s <> []
         /\ Js.lt (timeStart s) (timeEnd s) = true
         /\ submitted (handleSubmit onSubmit s)
            = [ {| location_name := name loc;
                   sub_latitude := latitude loc;
                   sub_longitude := longitude loc;
                   radius_meters := radius_or_null (radiusMeters s);
                   time_start := timeStart s;
                   time_end := timeEnd s;
                   repeat_days := sort_days (repeatDays s) |} ]).
Proof.
  unfold handleSubmit. cbn.
  destruct (location s) as [loc|]; [|left; cbn; repeat split; auto; discriminate].
  destruct (repeatDays s) as [|d ds] eqn:Hd; cbn [List.length Nat.eqb];
    [left; cbn; repeat split; auto; discriminate|].
  unfold Js.ge. destruct (Js.lt (timeStart s) (timeEnd s)) eqn:Hlt; cbn [negb];
    [|left; cbn; repeat split; auto; discriminate].
  right. exists loc. repeat split; try discriminate.
  destruct (onSubmit _); reflexivity.
Qed.

(** C3. [handleSubmit] calls [onSubmit] at most once, and only when a
    location is selected, [repeatDays] is not empty and [timeStart] is
    strictly before [timeEnd]; then the submission carries these times and
    the selected days (sorted), so it has [time_start < time_end] and at
    least one repeat day.  When one of the three conditions fails, nothing
    is submitted and the error message is set.  For [HH:MM] values the
    comparison is the one of the clock times. *)
Theorem handleSubmit_validation (onSubmit : Submission -> option string) (s : State) :
  let out := handleSubmit onSubmit s in
  (forall p, In p (submitted out) ->
      submitted out = [p]
      /\ (exists loc, location s = Some loc /\ location_name p = name loc)
      /\ repeatDays s <> []
      /\ Js.lt (timeStart s) (timeEnd s) = true
      /\ time_start p = timeStart s /\ time_end p = timeEnd s
      /\ Js.lt (time_start p) (time_end p) = true
      /\ repeat_days p <> []
      /\ Permutation (repeat_days p) (repeatDays s)
      /\ Sorted Z.le (repeat_days p)
      /\ (forall h1 m1 h2 m2 : nat,
             (h1 < 24)%nat -> (m1 < 60)%nat -> (h2 < 24)%nat -> (m2 < 60)%nat ->
             time_start p = hhmm h1 m1 -> time_end p = hhmm h2 m2 ->
             (h1 * 60 + m1 < h2 * 60 + m2)%nat))
  /\ (location s = None \/ repeatDays s = []
      \/ Js.lt (timeStart s) (timeEnd s) = false ->
      submitted out = [] /\ error (state out) <> "")
  /\ (location s <> None -> repeatDays s <> [] ->
      Js.lt (timeStart s) (timeEnd s) = true ->
      exists p, submitted out = [p]).
Proof.
  cbv zeta.
  destruct (handleSubmit_cases onSubmit s)
    as [(Hnone & Herr & Hwhy)|(loc & Hloc & Hdays & Hlt & Hsub)].
  - split; [|split].
    + intros p Hp. rewrite Hnone in Hp. destruct Hp.
    + auto.
    + intros H1 H2 H3. destruct Hwhy as [?|[?|?]]; congruence.
  - split; [|split].
    + intros p Hp. rewrite Hsub in Hp. destruct Hp as [<-|[]]. cbn.
      repeat split; auto.
      * eauto.
      * intros E. apply Hdays.
        apply Permutation_nil. rewrite <- E. apply sort_days_permutation.
      * apply sort_days_permutation.
      * apply sort_days_sorted.
      * intros h1 m1 h2 m2 ? ? ? ? E1 E2. apply hhmm_lt; try assumption.
        now rewrite <- E1, <- E2.
    + intros [H|[H|H]]; congruence.
    + eauto.
Qed.

End AvailabilityFormProps.

Module DashboardProps.
Import Dashboard.

Lemma parse_truthy (s : string) (t : Z) :
  JsDate.parse s = Some t -> Js.truthy s = true.
Proof. destruct s; [discriminate | reflexivity]. Qed.

Lemma getDay_range (localTZA t : Z) :
  exists d, JsDate.getDay localTZA (Some t) = Js.Num d /\ 0 <= d <= 6.
Proof.
  eexists. split; [reflexivity|].
  pose proof (Z.mod_pos_bound ((t + localTZA) / JsDate.msPerDay + 4) 7). lia.
Qed.

(** Monday-first index of a Sunday-first weekday number. *)
Lemma monday_first (d : Z) :
  0 <= d <= 6 ->
  Z.rem (d + 6) 7 = (d + 6) mod 7
  /\ 0 <= (d + 6) mod 7 <= 6
  /\ nth_error DAY_NAMES (Z.to_nat ((d + 6) mod 7))
     = nth_error JsDate.WEEKDAYS (Z.to_nat d)
  /\ nth_error JsDate.WEEKDAYS (Z.to_nat d) <> None.
Proof.
  intros Hd.
  assert (d = 0 \/ d = 1 \/ d = 2 \/ d = 3 \/ d = 4 \/ d = 5 \/ d = 6) as Hc by lia.
  repeat (destruct Hc as [->|Hc]); try subst d;
    cbn; repeat split; try lia; discriminate.
Qed.

(** C10. For a spot that does not repeat and has a chosen calendar date,
    [handleSaveSpot] submits [repeat_days = [(date.getDay() + 6) % 7]];
    [getDay] being in 0..6, so is this number, and it indexes in
    [DAY_NAMES] the name that the [getDay] number has in JavaScript's
    Sunday-first numbering. *)
Theorem one_time_spot_weekday (localTZA : Z) (s : State) (spot : NewSpot) (t : Z) :
  newSpot s = Some spot ->
  newSpotRepeat s = false ->
  JsDate.parse (newSpotDate s) = Some t ->
  exists p d,
    handleSaveSpot localTZA s = Some p
    /\ JsDate.getDay localTZA (JsDate.parse (newSpotDate s)) = Js.Num d
    /\ 0 <= d <= 6
    /\ repeat_days p = [Js.Num ((d + 6) mod 7)]
    /\ 0 <= (d + 6) mod 7 <= 6
    /\ nth_error DAY_NAMES (Z.to_nat ((d + 6) mod 7))
       = nth_error JsDate.WEEKDAYS (Z.to_nat d)
    /\ nth_error JsDate.WEEKDAYS (Z.to_nat d) <> None.
Proof.
  intros Hspot Hrep Hparse.
  destruct (getDay_range localTZA t) as (d & Hd & Hrange).
  destruct (monday_first d Hrange) as (Hrem & Hidx & Hname & Hsome).
  unfold handleSaveSpot.
  rewrite Hspot, Hrep, (parse_truthy _ _ Hparse), Hparse, Hd. cbn.
  eexists _, d. repeat split; try assumption; try lia.
  cbn. now rewrite Hrem.
Qed.

Lemma one_time_spot_weekday_witness :
  exists p d,
    handleSaveSpot 0 oneTimeState = Some p
    /\ JsDate.getDay 0 (JsDate.parse (newSpotDate oneTimeState)) = Js.Num d
    /\ 0 <= d <= 6
    /\ repeat_days p = [Js.Num ((d + 6) mod 7)]
    /\ 0 <= (d + 6) mod 7 <= 6
    /\ nth_error DAY_NAMES (Z.to_nat ((d + 6) mod 7))
       = nth_error JsDate.WEEKDAYS (Z.to_nat d)
    /\ nth_error JsDate.WEEKDAYS (Z.to_nat d) <> None.
Proof.
  apply (one_time_spot_weekday 0 oneTimeState sampleSpot (20240 * JsDate.msPerDay));
    reflexivity.
Defined.

(** 1 June 2025, a Sunday, is saved as day 6, shown as "Sun". *)
Example one_time_spot_sunday :
  option_map repeat_days (handleSaveSpot 0 oneTimeState) = Some [Js.Num 6]
  /\ nth_error DAY_NAMES 6 = Some "Sun".
Proof. split; reflexivity. Qed.

(** C4. With "repeat weekly" on and no weekday picked the save button is
    enabled, and clicking it calls the create-availability mutation with an
    empty [repeat_days]. *)
Theorem weekly_without_days_saves_empty :
  saveDisabled false weeklyNoDayState = false
  /\ option_map repeat_days (clickSave 0 false weeklyNoDayState) = Some [].
Proof. split; reflexivity. Qed.

(** The enabled save button submits at least one day except in the weekly
    mode without a picked day. *)
Lemma clickSave_repeat_days (localTZA : Z) (isPending : bool) (s : State)
    (p : CreateAvailability) :
  clickSave localTZA isPending s = Some p ->
  (newSpotRepeat s = false /\ exists d, repeat_days p = [d])
  \/ (newSpotRepeat s = true
      /\ repeat_days p = map Js.Num (newSpotRepeatDays s)).
Proof.
  unfold clickSave, saveDisabled, handleSaveSpot.
  destruct isPending; [discriminate|]. cbn [orb].
  destruct (newSpot s); [|destruct (_ && _); discriminate].
  destruct (newSpotRepeat s), (Js.truthy (newSpotDate s)); cbn;
    try discriminate; intros [= <-]; cbn; eauto.
Qed.

End DashboardProps.

(* ===================================================================== *)
(** * Properties of the engine *)
(* ===================================================================== *)

Module OverlapProps.
Import Model Overlap.

(** C9. [overlaps(A, B) = overlaps(B, A)]: the overlap flag and the
    windows are the same in either argument order. *)
Theorem overlaps_symmetric (a b : AvailabilitySlot) :
  overlaps a b = overlaps b a.
Proof.
  unfold overlaps.
  rewrite (comm_L (∩) (repeat_days a) (repeat_days b)).
  rewrite (Z.max_comm (time_start a) (time_start b)).
  rewrite (Z.min_comm (time_end a) (time_end b)).
  reflexivity.
Qed.

(** The flag says that a window exists, and a window is a non-empty set of
    shared days with a non-empty clock interval inside both slots. *)
Lemma overlaps_sound (a b : AvailabilitySlot) (w : Window) :
  In w (windows (overlaps a b)) ->
  overlap (overlaps a b) = true
  /\ days w <> ∅
  /\ (forall d, d ∈ days w <-> d ∈ repeat_days a /\ d ∈ repeat_days b)
  /\ time_start a <= w_start w /\ time_start b <= w_start w
  /\ w_end w <= time_end a /\ w_end w <= time_end b
  /\ w_start w < w_end w.
Proof.
  unfold overlaps. destruct (decide _) as [|Hne]; [intros []|].
  destruct (Z.ltb_spec (Z.max (time_start a) (time_start b))
                       (Z.min (time_end a) (time_end b))); [|intros []].
  intros [<-|[]]. cbn. split; [reflexivity|]. split; [assumption|].
  split; [intros d; apply elem_of_intersection|]. lia.
Qed.

Lemma overlap_flag_windows (a b : AvailabilitySlot) :
  overlap (overlaps a b) = true <-> windows (overlaps a b) <> [].
Proof.
  unfold overlaps. destruct (decide _); [cbn; split; congruence|].
  destruct (_ <? _); cbn; split; congruence.
Qed.

End OverlapProps.

Module GroupEngineProps.
Import Model GroupEngine.

Lemma findGroup_Some (st : State) (gid : Z) (g : Group) :
  findGroup st gid = Some g -> In g (groups st) /\ group_id g = gid.
Proof.
  unfold findGroup. intros H. apply find_some in H as [Hin Hid].
  split; [assumption | now apply Z.eqb_eq].
Qed.

Lemma findGroupAt_Some (st : State) (slot : SlotId) (g : Group) :
  findGroupAt st slot = Some g -> In g (groups st) /\ slot_context g = slot.
Proof.
  unfold findGroupAt. intros H. apply find_some in H as [Hin Hid].
  split; [assumption | now apply Z.eqb_eq].
Qed.

Lemma addConfirmed_id (now : Z) (r : Role) (u : UserId) (g : Group) :
  group_id (addConfirmed now r u g) = group_id g
  /\ slot_context (addConfirmed now r u g) = slot_context g.
Proof. unfold addConfirmed. destruct (isConfirmedMember g u); auto. Qed.

Lemma addConfirmed_new (now : Z) (r : Role) (u : UserId) (g : Group) :
  isConfirmedMember g u = false ->
  confirmedMemberCount (addConfirmed now r u g) = confirmedMemberCount g + 1
  /\ isConfirmedMember (addConfirmed now r u g) u = true.
Proof.
  intros Hno. unfold addConfirmed. rewrite Hno.
  unfold confirmedMemberCount, isConfirmedMember, confirmedMembers. cbn.
  rewrite List.filter_app. cbn. split.
  - rewrite List.length_app. cbn. lia.
  - rewrite existsb_app. cbn. rewrite String.eqb_refl. cbn.
    apply orb_true_r.
Qed.

Lemma addConfirmed_old (now : Z) (r : Role) (u v : UserId) (g : Group) :
  isConfirmedMember g v = true ->
  isConfirmedMember (addConfirmed now r u g) v = true.
Proof.
  intros Hv. unfold addConfirmed. destruct (isConfirmedMember g u); [assumption|].
  unfold isConfirmedMember, confirmedMembers in *. cbn.
  rewrite List.filter_app, existsb_app, Hv. reflexivity.
Qed.

Lemma addConfirmed_same (now : Z) (r : Role) (u : UserId) (g : Group) :
  isConfirmedMember g u = true -> addConfirmed now r u g = g.
Proof. intros H. unfold addConfirmed. now rewrite H. Qed.

Lemma find_replaceGroup (g g' : Group) (gs : list Group) :
  In g gs -> group_id g' = group_id g ->
  List.find (fun x => Z.eqb (group_id x) (group_id g)) (replaceGroup g' gs)
  = Some g'.
Proof.
  intros Hin Hid. induction gs as [|x rest IH]; [destruct Hin|].
  cbn. destruct (Z.eqb_spec (group_id x) (group_id g')) as [E|N].
  - assert ((group_id g' =? group_id g) = true) as -> by now apply Z.eqb_eq.
    reflexivity.
  - assert ((group_id x =? group_id g) = false) as ->
      by (apply Z.eqb_neq; congruence).
    destruct Hin as [->|Hin]; [congruence|]. now apply IH.
Qed.

Section WithEnv.
Context (env : Env).

Lemma atCapacity_iff (g : Group) :
  atCapacity env g = true
  <-> exists m, In m (confirmedMembers g)
                /\ max_group_size (getUser env (user_id m))
                   <= confirmedMemberCount g.
Proof.
  unfold atCapacity. rewrite existsb_exists.
  split; intros (m & Hin & H); exists m; (split; [assumption|]).
  - apply Z.geb_le in H. lia.
  - apply Z.geb_le. lia.
Qed.

Lemma atCapacity_false (g : Group) :
  atCapacity env g = false
  <-> forall m, In m (confirmedMembers g) ->
                confirmedMemberCount g
                < max_group_size (getUser env (user_id m)).
Proof.
  rewrite <- not_true_iff_false, atCapacity_iff. split.
  - intros Hno m Hin.
    destruct (Z.lt_ge_cases (confirmedMemberCount g)
                (max_group_size (getUser env (user_id m)))); [assumption|].
    exfalso. apply Hno. eauto.
  - intros Hall (m & Hin & Hle). specialize (Hall m Hin). lia.
Qed.

Lemma requestJoin_Ok (now gid : Z) (u : UserId) (st st' : State)
    (out : JoinOutcome) :
  requestJoin env now gid u st = Ok (st', out) ->
  exists g,
    findGroup st gid = Some g
    /\ isConfirmedMember g u = false
    /\ hasPendingRequest st gid u = false
    /\ atCapacity env g = false
    /\ groups st' = groups st
    /\ requests st' = requests st ++ [request out]
    /\ req_status (request out) = req_pending
    /\ requester_id (request out) = u
    /\ req_group_id (request out) = gid.
Proof.
  unfold requestJoin. destruct (findGroup st gid) as [g|]; [|discriminate].
  destruct (isConfirmedMember g u) eqn:Hm; [discriminate|].
  destruct (hasPendingRequest st gid u) eqn:Hp; [discriminate|].
  destruct (atCapacity env g) eqn:Hc; [discriminate|].
  intros [= <- <-]. exists g. cbn. repeat split; auto.
Qed.

Lemma requestJoin_full (now gid : Z) (u : UserId) (st : State) (g : Group) :
  findGroup st gid = Some g ->
  atCapacity env g = true ->
  exists e,
    requestJoin env now gid u st = Err e
    /\ (isConfirmedMember g u = false -> hasPendingRequest st gid u = false ->
        e = GroupFull).
Proof.
  intros Hg Hc. unfold requestJoin. rewrite Hg, Hc.
  destruct (isConfirmedMember g u); [eexists; split; [reflexivity|discriminate]|].
  destruct (hasPendingRequest st gid u);
    eexists; split; try reflexivity; intros; congruence.
Qed.

Lemma formOrJoin_existing (now : Z) (slot : SlotId) (a b : UserId)
    (st : State) (g : Group) :
  findGroupAt st slot = Some g ->
  findGroup (formOrJoin now slot a b st) (group_id g)
  = Some (addConfirmed now member b (addConfirmed now member a g)).
Proof.
  intros Hg. unfold formOrJoin, findGroup. rewrite Hg. cbn.
  apply findGroupAt_Some in Hg as [Hin _].
  apply find_replaceGroup; [assumption|].
  rewrite (proj1 (addConfirmed_id _ _ _ _)). apply addConfirmed_id.
Qed.

Lemma formOrJoin_founding (now : Z) (slot : SlotId) (a b : UserId) (st : State) :
  findGroupAt st slot = None ->
  a <> b ->
  exists g,
    groups (formOrJoin now slot a b st) = groups st ++ [g]
    /\ slot_context g = slot
    /\ map user_id (confirmedMembers g) = [a; b]
    /\ map role (members g) = [founder; member]
    /\ confirmedMemberCount g = 2.
Proof.
  intros Hnone Hab. unfold formOrJoin. rewrite Hnone. cbn.
  eexists. split; [reflexivity|].
  unfold addConfirmed at 2. cbn.
  unfold addConfirmed, isConfirmedMember. cbn.
  destruct (String.eqb_spec a b) as [E|_]; [contradiction|]. cbn.
  repeat split; reflexivity.
Qed.

End WithEnv.

End GroupEngineProps.

Module GroupSizeProps.
Import Model GroupEngine GroupEngineProps.

(** C1 (as stated, refuted).  In Scenario B's setting a state is reachable
    in which the group at Alex's slot has three confirmed members although
    Alex's [max_group_size] is two: the third member came in through
    [formOrJoin]. *)
Lemma size_invariant_not_preserved :
  reachable Samples.scenarioB Samples.lateJoinGroup
  /\ sizeInvariant Samples.scenarioB Samples.lateJoinGroup = false
  /\ map confirmedMemberCount (groups Samples.lateJoinGroup) = [3].
Proof.
  split; [|split; vm_compute; reflexivity].
  unfold Samples.lateJoinGroup, Samples.foundedGroup.
  eapply reachable_step; [eapply reachable_step; [apply reachable_empty|]|];
    apply step_formOrJoin.
Qed.

(** C1 (amended).  [requestJoin] fails whenever the confirmed-member count
    is at or above some confirmed member's [max_group_size], with
    [GroupFull] unless the requester is already a member or has a pending
    request; a request it creates leaves the membership as it is and was
    made with the count strictly below every confirmed member's maximum.
    [formOrJoin] on an existing group makes the newcomer a confirmed member
    with no size check, the count growing by one; a group it founds has
    two confirmed members and is within the caps of founders who accept
    two. *)
Theorem group_size_policy (env : Env) :
  (forall now gid u st g,
      findGroup st gid = Some g ->
      (exists m, In m (confirmedMembers g)
                 /\ max_group_size (getUser env (user_id m))
                    <= confirmedMemberCount g) ->
      exists e,
        requestJoin env now gid u st = Err e
        /\ (isConfirmedMember g u = false -> hasPendingRequest st gid u = false ->
            e = GroupFull))
  /\ (forall now gid u st st' out,
      requestJoin env now gid u st = Ok (st', out) ->
      groups st' = groups st
      /\ exists g,
          findGroup st gid = Some g
          /\ forall m, In m (confirmedMembers g) ->
                       confirmedMemberCount g
                       < max_group_size (getUser env (user_id m)))
  /\ (forall now slot a b st g,
      findGroupAt st slot = Some g ->
      isConfirmedMember g a = false ->
      isConfirmedMember g b = true ->
      exists g',
        findGroup (formOrJoin now slot a b st) (group_id g) = Some g'
        /\ isConfirmedMember g' a = true
        /\ confirmedMemberCount g' = confirmedMemberCount g + 1)
  /\ (forall now slot a b st,
      findGroupAt st slot = None ->
      a <> b ->
      2 <= max_group_size (getUser env a) ->
      2 <= max_group_size (getUser env b) ->
      exists g,
        groups (formOrJoin now slot a b st) = groups st ++ [g]
        /\ confirmedMemberCount g = 2
        /\ withinCaps env g = true).
Proof.
  split; [|split; [|split]].
  - intros now gid u st g Hg Hcap.
    apply requestJoin_full; [assumption|]. now apply atCapacity_iff.
  - intros now gid u st st' out H.
    apply requestJoin_Ok in H as (g & Hg & _ & _ & Hc & Hgs & _).
    split; [assumption|]. exists g. split; [assumption|].
    now apply atCapacity_false.
  - intros now slot a b st g Hg Ha Hb.
    eexists. split; [now apply formOrJoin_existing|].
    destruct (addConfirmed_new now member a g Ha) as [Hcount Hin].
    rewrite (addConfirmed_same now member b) by now apply addConfirmed_old.
    split; assumption.
  - intros now slot a b st Hnone Hab Hma Hmb.
    destruct (formOrJoin_founding now slot a b st Hnone Hab)
      as (g & Hgs & _ & Hids & _ & Hcount).
    exists g. split; [assumption|]. split; [assumption|].
    unfold withinCaps. rewrite Hcount.
    destruct (confirmedMembers g) as [|ma [|mb [|? ?]]]; try discriminate.
    injection Hids as Ea Eb. cbn. rewrite Ea, Eb.
    rewrite !andb_true_iff, !Z.leb_le. auto.
Qed.

(** Scenario B: Sam's request to the full group of Alex and Jordan is
    rejected with [GroupFull]. *)
Example scenario_B :
  map confirmedMemberCount (groups Samples.foundedGroup) = [2]
  /\ requestJoin Samples.scenarioB 30 0 "sam" Samples.foundedGroup = Err GroupFull.
Proof. split; vm_compute; reflexivity. Qed.

(** Scenario C: with Alex's maximum at five and Jordan's minimum at three
    Sam's request is created pending and not flagged tentative (the group
    would reach three); Jordan accepts and the group has three members. *)
Example scenario_C :
  exists st1 out st2,
    requestJoin Samples.scenarioC 30 0 "sam" Samples.foundedGroup = Ok (st1, out)
    /\ req_status (request out) = req_pending
    /\ is_tentative out = false
    /\ map (groupStatus Samples.scenarioC) (groups st1) = [tentative]
    /\ respondToJoinRequest 40 0 "jordan" true st1 = Ok st2
    /\ map confirmedMemberCount (groups st2) = [3]
    /\ map (groupStatus Samples.scenarioC) (groups st2) = [active]
    /\ map req_status (requests st2) = [req_accepted].
Proof. do 3 eexists. repeat split; vm_compute; reflexivity. Qed.

(** The same through the ledger: after Alex and Jordan matched at Alex's
    slot, Alex expresses interest in Sam and Sam in Alex at that slot; the
    second mutual match puts Sam into the group, three confirmed members
    against Alex's maximum of two. *)
Example late_match_exceeds_cap :
  exists s1 s2 s3 s4,
    Matching.expressInterest Samples.scenarioB Matching.FailOnDuplicate
      1 "alex" "jordan" 2 Matching.empty = Ok (s1, false)
    /\ Matching.expressInterest Samples.scenarioB Matching.FailOnDuplicate
         2 "jordan" "alex" 1 s1 = Ok (s2, true)
    /\ Matching.expressInterest Samples.scenarioB Matching.FailOnDuplicate
         3 "alex" "sam" 3 s2 = Ok (s3, false)
    /\ Matching.expressInterest Samples.scenarioB Matching.FailOnDuplicate
         4 "sam" "alex" 1 s3 = Ok (s4, true)
    /\ map confirmedMemberCount (groups (Matching.groupState s4)) = [3]
    /\ sizeInvariant Samples.scenarioB (Matching.groupState s4) = false.
Proof. do 4 eexists. repeat split; vm_compute; reflexivity. Qed.

End GroupSizeProps.

Module MatchingProps.
Import Model Matching.

Lemma same_triple_iff (a t : UserId) (s : SlotId) (e : InterestExpression) :
  same_triple a t s e = true
  <-> actor_id e = a /\ target_id e = t /\ slot_id e = s.
Proof.
  unfold same_triple. rewrite !andb_true_iff, !String.eqb_eq, Z.eqb_eq. tauto.
Qed.

Lemma not_recorded_count (st : State) (a t : UserId) (s : SlotId) :
  recorded st a t s = false -> recordCount st a t s = 0%nat.
Proof.
  unfold recorded, recordCount. induction (ledger st) as [|e l IH]; [reflexivity|].
  cbn. destruct (same_triple a t s e); [discriminate|]. exact IH.
Qed.

Lemma recorded_count (st : State) (a t : UserId) (s : SlotId) :
  recorded st a t s = true -> (1 <= recordCount st a t s)%nat.
Proof.
  unfold recorded, recordCount. induction (ledger st) as [|e l IH]; [discriminate|].
  cbn. destruct (same_triple a t s e); cbn; [lia|]. exact IH.
Qed.

Section WithEnv.
Context (env : Env).

Lemma createOnReciprocity_ledger (now : Z) (a b : UserId) (slot : SlotId)
    (st : State) :
  ledger (createOnReciprocity now a b slot st) = ledger st.
Proof. unfold createOnReciprocity. destruct (liveMatch st a b slot); reflexivity. Qed.

Lemma reciprocal_ledger (st st' : State) (actor target : UserId) (slot : SlotId) :
  ledger st' = ledger st ->
  reciprocal env st' actor target slot = reciprocal env st actor target slot.
Proof. unfold reciprocal. now intros ->. Qed.

(** What a successful call did to the ledger. *)
Lemma expressInterest_Ok (policy : DuplicatePolicy) (now : Z)
    (actor target : UserId) (slot : SlotId) (st st1 : State) (r1 : bool) :
  expressInterest env policy now actor target slot st = Ok (st1, r1) ->
  String.eqb actor target = false
  /\ getSlotById env slot <> None
  /\ r1 = reciprocal env st actor target slot
  /\ ((recorded st actor target slot = true
       /\ policy = NoOpOnDuplicate /\ st1 = st)
      \/ (recorded st actor target slot = false
          /\ ledger st1
             = ledger st ++ [ {| actor_id := actor; target_id := target;
                                 slot_id := slot |} ])).
Proof.
  unfold expressInterest.
  destruct (String.eqb actor target); [discriminate|].
  destruct (getSlotById env slot); [|discriminate].
  destruct (recorded st actor target slot) eqn:Hrec.
  - destruct policy; [discriminate|]. intros [= <- <-].
    split; [reflexivity|]. split; [discriminate|]. split; [reflexivity|].
    left. auto.
  - destruct (reciprocal env st actor target slot) eqn:Hr; intros [= <- <-];
      (split; [reflexivity|]); (split; [discriminate|]);
      (split; [reflexivity|]); right; (split; [reflexivity|]).
    + apply createOnReciprocity_ledger.
    + reflexivity.
Qed.

(** A triple is recorded at most once in every reachable state. *)
Lemma ledger_unique (policy : DuplicatePolicy) (st : State) :
  reachable env policy st ->
  forall a t s, (recordCount st a t s <= 1)%nat.
Proof.
  induction 1 as [|st st' Hreach IH Hstep]; [intros; cbn; lia|].
  intros a t s. destruct Hstep as [now actor target slot st st' r Hcall|st gs' _];
    [|apply IH].
  apply expressInterest_Ok in Hcall
    as (_ & _ & _ & [(_ & _ & ->)|(Hnew & Hledger)]); [apply IH|].
  unfold recordCount. rewrite Hledger, List.filter_app, List.length_app. cbn.
  destruct (same_triple a t s _) eqn:Hsame; cbn; [|specialize (IH a t s);
    unfold recordCount in IH; lia].
  apply same_triple_iff in Hsame as (<- & <- & <-). cbn in *.
  apply not_recorded_count in Hnew. unfold recordCount in Hnew. lia.
Qed.

End WithEnv.

End MatchingProps.

Module IdempotenceProps.
Import Model Matching MatchingProps.

(** C2 (as stated, refuted).  With the [DuplicateExpression] failure of
    section 4.2, Alex's first call answers "no mutual match" and the
    repeated call answers with the failure, not with the same outcome. *)
Lemma second_call_fails :
  expressInterest Samples.scenarioB FailOnDuplicate 1 "alex" "jordan" 2 empty
  = Ok (LedgerSamples.afterAlex, false)
  /\ expressInterest Samples.scenarioB FailOnDuplicate 2 "alex" "jordan" 2
       LedgerSamples.afterAlex
     = Err DuplicateExpression.
Proof. split; vm_compute; reflexivity. Qed.

(** C2 (amended).  After a successful [expressInterest] from a reachable
    state the ledger holds exactly one record of the triple, and a second
    call with the same arguments changes nothing: it fails with
    [DuplicateExpression], or, where the duplicate is an idempotent no-op,
    returns the unchanged state (no new record, match or group) and the
    same mutual-match outcome as the first call. *)
Theorem expressInterest_idempotent (env : Env) (policy : DuplicatePolicy)
    (now now' : Z) (actor target : UserId) (slot : SlotId)
    (st st1 : State) (r1 : bool) :
  reachable env policy st ->
  expressInterest env policy now actor target slot st = Ok (st1, r1) ->
  recordCount st1 actor target slot = 1%nat
  /\ expressInterest env policy now' actor target slot st1
     = match policy with
       | FailOnDuplicate => Err DuplicateExpression
       | NoOpOnDuplicate => Ok (st1, r1)
       end.
Proof.
  intros Hreach Hcall.
  pose proof (ledger_unique env policy st Hreach actor target slot) as Hle.
  destruct (expressInterest_Ok env _ _ _ _ _ _ _ _ Hcall)
    as (Hne & Hslot & -> & [(Hrec & -> & ->)|(Hrec & Hledger)]).
  - split.
    + apply recorded_count in Hrec. lia.
    + unfold expressInterest. rewrite Hne, Hrec.
      destruct (getSlotById env slot); [reflexivity|contradiction].
  - assert (recorded st1 actor target slot = true) as Hrec1.
    { unfold recorded. rewrite Hledger, existsb_app. cbn.
      unfold same_triple. cbn. rewrite !String.eqb_refl, Z.eqb_refl.
      apply orb_true_r. }
    split.
    + unfold recordCount. rewrite Hledger, List.filter_app, List.length_app.
      apply not_recorded_count in Hrec. unfold recordCount in Hrec. rewrite Hrec.
      cbn. unfold same_triple. cbn. now rewrite !String.eqb_refl, Z.eqb_refl.
    + unfold expressInterest. rewrite Hne, Hrec1.
      destruct (getSlotById env slot); [|contradiction].
      destruct policy; [reflexivity|]. do 2 f_equal.
      unfold reciprocal. rewrite Hledger, existsb_app. cbn.
      rewrite Hne. cbn. now rewrite orb_false_r.
Qed.

Lemma expressInterest_idempotent_witness :
  recordCount LedgerSamples.afterAlex "alex" "jordan" 2 = 1%nat
  /\ expressInterest Samples.scenarioB NoOpOnDuplicate 2 "alex" "jordan" 2
       LedgerSamples.afterAlex
     = Ok (LedgerSamples.afterAlex, false).
Proof.
  apply (expressInterest_idempotent Samples.scenarioB NoOpOnDuplicate 1 2
           "alex" "jordan" 2 empty LedgerSamples.afterAlex false).
  - apply reachable_empty.
  - vm_compute. reflexivity.
Defined.

(** Scenario A: Alex's expression is recorded without a match; Jordan's
    reciprocal expression creates one pending match and a group of two
    confirmed members at Alex's slot. *)
Example scenario_A :
  exists st2,
    expressInterest Samples.scenarioB FailOnDuplicate 2 "jordan" "alex" 1
      LedgerSamples.afterAlex
    = Ok (st2, true)
    /\ List.length (ledger st2) = 2%nat
    /\ map status (matches st2) = [pending]
    /\ map GroupEngine.slot_context (GroupEngine.groups (groupState st2)) = [1]
    /\ map GroupEngine.confirmedMemberCount (GroupEngine.groups (groupState st2))
       = [2].
Proof. eexists. repeat split; vm_compute; reflexivity. Qed.

End IdempotenceProps.

Module SortProps.
Import Discovery.

Section Sort.
Context {A : Type} (le : A -> A -> bool).
Hypothesis le_total : forall x y, le x y = true \/ le y x = true.
Hypothesis le_trans : forall x y z, le x y = true -> le y z = true -> le x z = true.











End Sort.

End SortProps.

Module DiscoveryProps.
Import Model Discovery SortProps.






























(** The sample location: the two overlapping full matches come first, the
    one with more shared interests ahead; then the full match without an
    overlap, although she shares most; then the partial match; the no-match
    is last although she overlaps and shares three interests.  The
    unavailable person, the paused slot and the slot elsewhere are not
    listed. *)
Example sample_location (policy : UnsetPolicy) :
  exists views,
    peopleAtLocation policy DiscoverySamples.env "viewer" 1 = Ok views
    /\ map person views = ["ana"; "eve"; "dora"; "ben"; "cleo"]
    /\ map tier views = [0; 0; 0; 1; 2]
    /\ map times_overlap views = [true; true; false; true; true]
    /\ map (fun v => size (sharedInterests v)) views = [2; 1; 3; 1; 3]%nat.
Proof. destruct policy; eexists; repeat split; vm_compute; reflexivity. Qed.

(** Scenario E with the three people's own preferences unset.  When unset
    preferences accept everyone the woman of 28 is a full match, and the man
    of 30 and the woman of 40 both match in one direction only and keep
    their creation order; under the neutral reading all three are in the
    last tier and keep their creation order. *)
Example scenario_E :
  (exists views,
      peopleAtLocation UnsetAccepts ScenarioE.env "viewer" 1 = Ok views
      /\ map person views = ["ana"; "ben"; "cleo"]
      /\ map tier views = [0; 1; 1])
  /\ (exists views,
      peopleAtLocation UnsetNeutral ScenarioE.env "viewer" 1 = Ok views
      /\ map person views = ["ana"; "ben"; "cleo"]
      /\ map tier views = [2; 2; 2]).
Proof. split; eexists; repeat split; vm_compute; reflexivity. Qed.


(** Scenario E with the woman of 40 not accepting the viewer either, the
    other two stating preferences that accept him, and the slots created in
    the opposite order: full, partial, no match under either reading. *)
Example scenario_E_strict (policy : UnsetPolicy) :
  exists views,
    peopleAtLocation policy ScenarioE.envStrict "viewer" 1 = Ok views
    /\ map person views = ["ana"; "ben"; "cleo"]
    /\ map tier views = [0; 1; 2].
Proof. destruct policy; eexists; repeat split; vm_compute; reflexivity. Qed.

End DiscoveryProps.

(* ===================================================================== *)
(** * Further properties of the pages *)
(* ===================================================================== *)

Module JsArrayProps.
Import JsArray.

Section Toggle.
Context {A : Type} (eqb : A -> A -> bool).
Hypothesis eqb_eq : forall x y, eqb x y = true <-> x = y.

Lemma eqb_false (x y : A) : eqb x y = false <-> x <> y.
Proof. rewrite <- eqb_eq. destruct (eqb x y); split; congruence. Qed.

Lemma includes_In (x : A) (l : list A) : existsb (eqb x) l = true <-> In x l.
Proof.
  rewrite existsb_exists. split.
  - intros (y & Hin & Hy). apply eqb_eq in Hy. now subst.
  - intros Hin. exists x. split; [assumption | now apply eqb_eq].
Qed.

Lemma toggle_In (x y : A) (l : list A) :
  In y (toggle eqb x l) <-> (y = x /\ ~ In x l) \/ (y <> x /\ In y l).
Proof.
  unfold toggle. destruct (existsb (eqb x) l) eqn:Hx.
  - apply includes_In in Hx. rewrite filter_In, negb_true_iff, eqb_false.
    split; [intros [? ?]; auto | intros [[-> ?]|[? ?]]; [contradiction | auto]].
  - assert (~ In x l) as Hno by (rewrite <- includes_In; congruence).
    rewrite in_app_iff. cbn. split.
    + intros [Hin|[<-|[]]]; [right; split; [congruence | assumption] | auto].
    + intros [[-> _]|[_ Hin]]; auto.
Qed.

Lemma toggle_NoDup (x : A) (l : list A) : List.NoDup l -> List.NoDup (toggle eqb x l).
Proof.
  intros Hnd. unfold toggle. destruct (existsb (eqb x) l) eqn:Hx.
  - now apply List.NoDup_filter.
  - assert (~ In x l) as Hno by (rewrite <- includes_In; congruence).
    apply List.NoDup_app; [assumption | repeat constructor; intros [] |].
    intros y Hy [<-|[]]. contradiction.
Qed.

Lemma toggle_absent (x : A) (l : list A) :
  ~ In x l -> toggle eqb x l = l ++ [x].
Proof.
  intros Hno. unfold toggle.
  destruct (existsb (eqb x) l) eqn:Hx; [|reflexivity].
  apply includes_In in Hx. contradiction.
Qed.

Lemma filter_absent (x : A) (l : list A) :
  ~ In x l -> List.filter (fun y => negb (eqb y x)) l = l.
Proof.
  induction l as [|y r IH]; [reflexivity|]. cbn. intros Hno.
  assert (eqb y x = false) as -> by (apply eqb_false; intros ->; apply Hno; now left).
  cbn. rewrite IH; [reflexivity | intros H; apply Hno; now right].
Qed.

Lemma toggle_twice_absent (x : A) (l : list A) :
  ~ In x l -> toggle eqb x (toggle eqb x l) = l.
Proof.
  intros Hno. rewrite (toggle_absent x l Hno). unfold toggle.
  rewrite existsb_app. cbn.
  assert (eqb x x = true) as -> by now apply eqb_eq.
  rewrite orb_true_r, List.filter_app. cbn.
  assert (eqb x x = true) as -> by now apply eqb_eq.
  cbn. rewrite app_nil_r. now apply filter_absent.
Qed.

End Toggle.

Lemma Zeqb_eq (x y : Z) : Z.eqb x y = true <-> x = y.
Proof. apply Z.eqb_eq. Qed.

(** A run of toggles from a duplicate-free list within a range stays
    duplicate-free and within the range. *)
Lemma toggles_keep (clicks : list Z) (l : list Z) (P : Z -> Prop) :
  Forall P clicks -> List.NoDup l -> Forall P l ->
  List.NoDup (fold_left (fun acc d => toggle Z.eqb d acc) clicks l)
  /\ Forall P (fold_left (fun acc d => toggle Z.eqb d acc) clicks l).
Proof.
  revert l. induction clicks as [|d r IH]; intros l Hc Hnd Hl; [now split|].
  inversion Hc as [|? ? Hd Hr]; subst. cbn. apply IH; [assumption| |].
  - now apply (toggle_NoDup Z.eqb Zeqb_eq).
  - rewrite List.Forall_forall in *. intros y Hy.
    apply (toggle_In Z.eqb Zeqb_eq) in Hy as [[-> _]|[_ Hin]]; auto.
Qed.

(** A duplicate-free list of numbers from 0 to 6 has at most seven entries. *)
Lemma weekdays_length (l : list Z) :
  List.NoDup l -> Forall (fun d => 0 <= d <= 6) l -> (List.length l <= 7)%nat.
Proof.
  intros Hnd Hall.
  change 7%nat with (List.length [0; 1; 2; 3; 4; 5; 6]).
  apply NoDup_incl_length; [assumption|].
  intros d Hd. rewrite List.Forall_forall in Hall. specialize (Hall d Hd). cbn.
  assert (d = 0 \/ d = 1 \/ d = 2 \/ d = 3 \/ d = 4 \/ d = 5 \/ d = 6) by lia.
  intuition.
Qed.

Lemma sorted_NoDup_strict (l : list Z) :
  Sorted Z.le l -> List.NoDup l -> StronglySorted Z.lt l.
Proof.
  intros Hs Hnd. apply Sorted_StronglySorted in Hs; [|intros x y z; lia].
  induction Hs as [|x r Hr IH Hall]; [constructor|].
  inversion Hnd as [|? ? Hx Hnd']; subst. constructor; [now apply IH|].
  rewrite List.Forall_forall in *. intros y Hy.
  specialize (Hall y Hy). assert (x <> y) by (intros ->; contradiction). lia.
Qed.

End JsArrayProps.

Module AvailabilityFormMore.
Import AvailabilityForm AvailabilityFormProps JsArray JsArrayProps.

Lemma toggleDay_days (day : Z) (s : State) :
  repeatDays (toggleDay day s) = toggle Z.eqb day (repeatDays s).
Proof. reflexivity. Qed.

Lemma setRepeatDays_same (s : State) : setRepeatDays (repeatDays s) s = s.
Proof. now destruct s. Qed.

Lemma clickDays_days (clicks : list Z) (s : State) :
  repeatDays (clickDays clicks s)
  = fold_left (fun acc d => toggle Z.eqb d acc) clicks (repeatDays s).
Proof.
  unfold clickDays. revert s. induction clicks as [|d r IH]; intros s; [reflexivity|].
  cbn [fold_left]. now rewrite IH, toggleDay_days.
Qed.

Lemma day_button_range (d : Z) : In d (map fst DAYS) -> 0 <= d <= 6.
Proof. cbn. intuition lia. Qed.

Lemma insert_day_last (x : Z) (l : list Z) :
  Forall (fun y => y <= x) l -> insert_day x l = l ++ [x].
Proof.
  induction 1 as [|y r Hy Hr IH]; [reflexivity|]. cbn.
  destruct (Z.gtb_spec (y - x) 0); [lia|]. now rewrite IH.
Qed.

Lemma sort_days_snoc (l : list Z) (x : Z) :
  sort_days (l ++ [x]) = insert_day x (sort_days l).
Proof. unfold sort_days. now rewrite rev_unit. Qed.

(** Days that arrive in ascending order are left as they are. *)
Lemma sort_days_sorted_id (l : list Z) : StronglySorted Z.le l -> sort_days l = l.
Proof.
  induction l as [|x r IH] using rev_ind; [reflexivity|]. intros Hs.
  rewrite sort_days_snoc.
  assert (StronglySorted Z.le r /\ Forall (fun y => y <= x) r) as [Hr Hall].
  { clear IH. induction r as [|y r' IH']; [split; constructor|].
    cbn in Hs. inversion Hs as [|? ? Hs' Hy]; subst.
    destruct (IH' Hs') as [Hr' Hall']. split.
    - constructor; [assumption|].
      rewrite List.Forall_forall in *. intros z Hz. apply Hy.
      apply in_or_app. now left.
    - constructor; [|assumption].
      rewrite List.Forall_forall in Hy. apply Hy. apply in_or_app. right. now left. }
  rewrite (IH Hr). now apply insert_day_last.
Qed.

(** X1. A click on a day button flips that day and no other: afterwards
    the day is selected exactly when it was not before, every other day is
    selected exactly when it was, a selection without repetitions stays so,
    the other fields of the form are untouched, and clicking twice a day
    that was not selected restores the form. *)
Theorem toggleDay_flips (day : Z) (s : State) :
  (forall d, In d (repeatDays (toggleDay day s))
             <-> (d = day /\ ~ In day (repeatDays s))
                 \/ (d <> day /\ In d (repeatDays s)))
  /\ (List.NoDup (repeatDays s) -> List.NoDup (repeatDays (toggleDay day s)))
  /\ (~ In day (repeatDays s) -> toggleDay day (toggleDay day s) = s)
  /\ location (toggleDay day s) = location s
  /\ timeStart (toggleDay day s) = timeStart s
  /\ timeEnd (toggleDay day s) = timeEnd s
  /\ radiusMeters (toggleDay day s) = radiusMeters s
  /\ error (toggleDay day s) = error s.
Proof.
  split; [|split; [|split]].
  - intros d. rewrite toggleDay_days. apply (toggle_In Z.eqb Zeqb_eq).
  - rewrite toggleDay_days. apply (toggle_NoDup Z.eqb Zeqb_eq).
  - intros Hno.
    assert (repeatDays (toggleDay day (toggleDay day s)) = repeatDays s) as Hd
      by (rewrite !toggleDay_days; now apply (toggle_twice_absent Z.eqb Zeqb_eq)).
    destruct s. cbn in *. unfold toggleDay, setRepeatDays in *. cbn in *.
    now rewrite Hd.
  - repeat split.
Qed.

(** X2. Whatever sequence of day buttons is clicked, starting from no day
    selected, the selection has no repetitions and only the numbers 0 to 6;
    what [handleSubmit] then submits as [repeat_days] is strictly increasing,
    within 0 to 6, and has between one and seven entries. *)
Theorem clicked_days_submitted (onSubmit : Submission -> option string)
    (clicks : list Z) (s0 : State) :
  repeatDays s0 = [] ->
  Forall (fun d => In d (map fst DAYS)) clicks ->
  List.NoDup (repeatDays (clickDays clicks s0))
  /\ Forall (fun d => 0 <= d <= 6) (repeatDays (clickDays clicks s0))
  /\ forall p, In p (submitted (handleSubmit onSubmit (clickDays clicks s0))) ->
       StronglySorted Z.lt (repeat_days p)
       /\ Forall (fun d => 0 <= d <= 6) (repeat_days p)
       /\ (1 <= List.length (repeat_days p) <= 7)%nat.
Proof.
  intros Hempty Hclicks.
  assert (Forall (fun d => 0 <= d <= 6) clicks) as Hrange.
  { rewrite List.Forall_forall in *. intros d Hd. now apply day_button_range, Hclicks. }
  destruct (toggles_keep clicks [] (fun d => 0 <= d <= 6) Hrange
              (List.NoDup_nil Z) (List.Forall_nil _)) as [Hnd Hall].
  rewrite <- Hempty, <- clickDays_days in Hnd, Hall.
  split; [assumption|]. split; [assumption|].
  intros p Hp.
  destruct (handleSubmit_cases onSubmit (clickDays clicks s0))
    as [(Hnone & _)|(loc & _ & Hdays & _ & Hsub)].
  - rewrite Hnone in Hp. destruct Hp.
  - rewrite Hsub in Hp. destruct Hp as [<-|[]]. cbn.
    pose proof (sort_days_permutation (repeatDays (clickDays clicks s0))) as Hperm.
    assert (List.NoDup (sort_days (repeatDays (clickDays clicks s0)))) as Hnd'
      by (eapply Permutation_NoDup; [symmetry; exact Hperm | exact Hnd]).
    assert (Forall (fun d => 0 <= d <= 6) (sort_days (repeatDays (clickDays clicks s0))))
      as Hall' by (eapply Permutation_Forall; [symmetry; exact Hperm | exact Hall]).
    split; [|split; [assumption|split]].
    + apply sorted_NoDup_strict; [apply sort_days_sorted | assumption].
    + rewrite (Permutation_length Hperm).
      destruct (repeatDays (clickDays clicks s0)); [contradiction | cbn; lia].
    + now apply weekdays_length.
Qed.

(** X3. Opening the form on an existing slot and submitting it unchanged
    sends the slot's own data back: same location name and coordinates,
    same times, the days in ascending order (the very same list when they
    arrived ascending), and the radius, a radius of 0 becoming [null]. *)
Theorem edit_round_trip (onSubmit : Submission -> option string) (d : InitialData) :
  init_repeat_days d <> [] ->
  Js.truthy (init_time_start d) = true ->
  Js.truthy (init_time_end d) = true ->
  Js.lt (init_time_start d) (init_time_end d) = true ->
  submitted (handleSubmit onSubmit (initialState (Some d)))
  = [ {| location_name := init_location_name d;
         sub_latitude := init_latitude d;
         sub_longitude := init_longitude d;
         radius_meters := radius_or_null (init_radius_meters d);
         time_start := init_time_start d;
         time_end := init_time_end d;
         repeat_days := sort_days (init_repeat_days d) |} ]
  /\ (StronglySorted Z.le (init_repeat_days d) ->
      sort_days (init_repeat_days d) = init_repeat_days d)
  /\ (init_radius_meters d <> Some 0 ->
      radius_or_null (init_radius_meters d) = init_radius_meters d).
Proof.
  intros Hdays Hs He Hlt.
  split; [|split].
  - destruct (handleSubmit_cases onSubmit (initialState (Some d)))
      as [(_ & _ & [H|[H|H]])|(loc & Hloc & _ & _ & Hsub)].
    + discriminate.
    + cbn in H. contradiction.
    + cbn in H. unfold text_or in H. rewrite Hs, He in H. congruence.
    + rewrite Hsub. cbn in *. injection Hloc as <-. cbn.
      unfold text_or. rewrite Hs, He.
      assert (radius_or_null (radius_or_null (init_radius_meters d))
              = radius_or_null (init_radius_meters d)) as ->
        by (destruct (init_radius_meters d) as [[| |]|]; reflexivity).
      reflexivity.
  - apply sort_days_sorted_id.
  - destruct (init_radius_meters d) as [[| |]|]; cbn; congruence.
Qed.

(** What [handleSubmit] leaves behind, case by case. *)
Lemma handleSubmit_outcome (onSubmit : Submission -> option string) (s : State) :
  (location s = None ->
   error (state (handleSubmit onSubmit s)) = "Please select a location")
  /\ (location s <> None -> repeatDays s = [] ->
      error (state (handleSubmit onSubmit s)) = "Please select at least one day")
  /\ (location s <> None -> repeatDays s <> [] ->
      Js.lt (timeStart s) (timeEnd s) = false ->
      error (state (handleSubmit onSubmit s)) = "End time must be after start time")
  /\ (forall p, submitted (handleSubmit onSubmit s) = [p] ->
      error (state (handleSubmit onSubmit s))
      = match onSubmit p with Some msg => msg | None => "" end)
  /\ location (state (handleSubmit onSubmit s)) = location s
  /\ timeStart (state (handleSubmit onSubmit s)) = timeStart s
  /\ timeEnd (state (handleSubmit onSubmit s)) = timeEnd s
  /\ radiusMeters (state (handleSubmit onSubmit s)) = radiusMeters s
  /\ Permutation (repeatDays (state (handleSubmit onSubmit s))) (repeatDays s).
Proof.
  unfold handleSubmit. cbn.
  destruct (location s) as [loc|] eqn:Hloc.
  2: { cbn. repeat split; try congruence; try reflexivity; intros; discriminate. }
  destruct (repeatDays s) as [|d ds] eqn:Hd; cbn [List.length Nat.eqb].
  { cbn. repeat split; try congruence; try reflexivity; try (now rewrite Hd);
      intros; discriminate. }
  unfold Js.ge. destruct (Js.lt (timeStart s) (timeEnd s)) eqn:Hlt; cbn [negb].
  2: { cbn. repeat split; try congruence; try reflexivity; try (now rewrite Hd);
         intros; discriminate. }
  match goal with |- context [onSubmit ?d0] => remember d0 as data eqn:Hdata end.
  destruct (onSubmit data) as [msg|] eqn:Hon; cbn;
    (split; [congruence|]); (split; [congruence|]); (split; [congruence|]);
    (split; [intros p [= <-]; now rewrite Hon|]);
    repeat split; try assumption; try reflexivity;
    rewrite ?Hd; apply (sort_days_permutation (d :: ds)).
Qed.

(** X4. [handleSubmit] reports the first failing check, in the order
    location, days, times, with its fixed message; when it submits, the
    error left behind is empty if [onSubmit] resolves and the rejection's
    message otherwise, whatever error was shown before.  The location,
    times and radius of the form are never changed, and the selected days
    only reordered. *)
Theorem handleSubmit_messages (onSubmit : Submission -> option string) (s : State) :
  (location s = None ->
   error (state (handleSubmit onSubmit s)) = "Please select a location")
  /\ (location s <> None -> repeatDays s = [] ->
      error (state (handleSubmit onSubmit s)) = "Please select at least one day")
  /\ (location s <> None -> repeatDays s <> [] ->
      Js.lt (timeStart s) (timeEnd s) = false ->
      error (state (handleSubmit onSubmit s)) = "End time must be after start time")
  /\ (forall p, submitted (handleSubmit onSubmit s) = [p] ->
      error (state (handleSubmit onSubmit s))
      = match onSubmit p with Some msg => msg | None => "" end)
  /\ location (state (handleSubmit onSubmit s)) = location s
  /\ timeStart (state (handleSubmit onSubmit s)) = timeStart s
  /\ timeEnd (state (handleSubmit onSubmit s)) = timeEnd s
  /\ radiusMeters (state (handleSubmit onSubmit s)) = radiusMeters s
  /\ Permutation (repeatDays (state (handleSubmit onSubmit s))) (repeatDays s).
Proof. exact (handleSubmit_outcome onSubmit s). Qed.

End AvailabilityFormMore.

Module AvailabilityFormWitnesses.
Import AvailabilityForm AvailabilityFormMore.

Lemma clicked_days_submitted_witness :
  List.NoDup (repeatDays (clickDays [2; 0; 2; 4] PageSamples.formAtCafe))
  /\ Forall (fun d => 0 <= d <= 6)
       (repeatDays (clickDays [2; 0; 2; 4] PageSamples.formAtCafe))
  /\ forall p,
       In p (submitted (handleSubmit (fun _ => None)
                          (clickDays [2; 0; 2; 4] PageSamples.formAtCafe))) ->
       StronglySorted Z.lt (repeat_days p)
       /\ Forall (fun d => 0 <= d <= 6) (repeat_days p)
       /\ (1 <= List.length (repeat_days p) <= 7)%nat.
Proof.
  apply (clicked_days_submitted (fun _ => None) [2; 0; 2; 4] PageSamples.formAtCafe).
  - reflexivity.
  - apply List.Forall_forall. intros d Hd. cbn in Hd |- *. lia.
Defined.

Lemma edit_round_trip_witness :
  let d := AvailabilityPage.asInitialData PageSamples.storedSlot in
  submitted (handleSubmit (fun _ => None) (initialState (Some d)))
  = [ {| location_name := init_location_name d;
         sub_latitude := init_latitude d;
         sub_longitude := init_longitude d;
         radius_meters := radius_or_null (init_radius_meters d);
         time_start := init_time_start d;
         time_end := init_time_end d;
         repeat_days := sort_days (init_repeat_days d) |} ]
  /\ (StronglySorted Z.le (init_repeat_days d) ->
      sort_days (init_repeat_days d) = init_repeat_days d)
  /\ (init_radius_meters d <> Some 0 ->
      radius_or_null (init_radius_meters d) = init_radius_meters d).
Proof.
  apply (edit_round_trip (fun _ => None)
           (AvailabilityPage.asInitialData PageSamples.storedSlot)).
  - discriminate.
  - reflexivity.
  - reflexivity.
  - reflexivity.
Defined.

End AvailabilityFormWitnesses.

Module DashboardMore.
Import Dashboard DashboardProps JsArray JsArrayProps.

(** A parsed date is a whole number of days: UTC midnight. *)
Lemma parse_midnight (s : string) (t : Z) :
  JsDate.parse s = Some t -> exists d, t = d * JsDate.msPerDay.
Proof.
  unfold JsDate.parse.
  repeat match goal with
         | |- context [match ?x with _ => _ end] => destruct x; try discriminate
         end.
  intros [= <-]. eauto.
Qed.

Lemma getDay_offset (localTZA d : Z) :
  (0 <= localTZA < JsDate.msPerDay ->
   JsDate.getDay localTZA (Some (d * JsDate.msPerDay)) = Js.Num ((d + 4) mod 7))
  /\ (- JsDate.msPerDay <= localTZA < 0 ->
      JsDate.getDay localTZA (Some (d * JsDate.msPerDay)) = Js.Num ((d + 3) mod 7)).
Proof.
  unfold JsDate.getDay, JsDate.msPerDay. split; intros H; do 2 f_equal.
  - rewrite Z.div_add_l by lia. rewrite (Z.div_small localTZA 86400000) by lia. lia.
  - rewrite Z.div_add_l by lia.
    assert (localTZA / 86400000 = -1) as ->; [|lia].
    symmetry. apply (Z.div_unique localTZA 86400000 (-1) (localTZA + 86400000)); lia.
Qed.

(** X5. A one-time spot is saved on the weekday of the chosen date only
    where local time is at or ahead of UTC; where it is behind UTC (offset
    within a day) the date, read as UTC midnight, falls on the evening
    before and the spot is saved on the previous weekday. *)
Theorem one_time_spot_time_zone (localTZA : Z) (s : State) (spot : NewSpot) (t : Z) :
  newSpot s = Some spot ->
  newSpotRepeat s = false ->
  JsDate.parse (newSpotDate s) = Some t ->
  exists day,
    JsDate.getDay 0 (Some t) = Js.Num day
    /\ 0 <= day <= 6
    /\ (0 <= localTZA < JsDate.msPerDay ->
        option_map repeat_days (handleSaveSpot localTZA s)
        = Some [Js.Num ((day + 6) mod 7)])
    /\ (- JsDate.msPerDay <= localTZA < 0 ->
        option_map repeat_days (handleSaveSpot localTZA s)
        = Some [Js.Num ((day + 5) mod 7)]).
Proof.
  intros Hspot Hrep Hparse.
  destruct (parse_midnight _ _ Hparse) as [d ->].
  exists ((d + 4) mod 7).
  pose proof (Z.mod_pos_bound (d + 4) 7 ltac:(lia)) as Hk.
  split; [apply (getDay_offset 0 d); unfold JsDate.msPerDay; lia|].
  split; [lia|].
  unfold handleSaveSpot.
  rewrite Hspot, Hrep, (parse_truthy _ _ Hparse), Hparse. cbn [negb andb option_map].
  split; intros Htz.
  - rewrite (proj1 (getDay_offset localTZA d) Htz). cbn.
    destruct (monday_first ((d + 4) mod 7) ltac:(lia)) as [-> _]. reflexivity.
  - rewrite (proj2 (getDay_offset localTZA d) Htz). cbn.
    pose proof (Z.mod_pos_bound (d + 3) 7 ltac:(lia)) as Hk'.
    destruct (monday_first ((d + 3) mod 7) ltac:(lia)) as [-> _].
    do 3 f_equal.
    rewrite !Zplus_mod_idemp_l.
    replace (d + 3 + 6) with (d + 4 + 5) by lia. reflexivity.
Qed.

Lemma one_time_spot_time_zone_witness :
  exists day,
    JsDate.getDay 0 (Some (20240 * JsDate.msPerDay)) = Js.Num day
    /\ 0 <= day <= 6
    /\ (0 <= -18000000 < JsDate.msPerDay ->
        option_map repeat_days (handleSaveSpot (-18000000) oneTimeState)
        = Some [Js.Num ((day + 6) mod 7)])
    /\ (- JsDate.msPerDay <= -18000000 < 0 ->
        option_map repeat_days (handleSaveSpot (-18000000) oneTimeState)
        = Some [Js.Num ((day + 5) mod 7)]).
Proof.
  apply (one_time_spot_time_zone (-18000000) oneTimeState sampleSpot
           (20240 * JsDate.msPerDay)); reflexivity.
Defined.

(** In New York (five hours behind UTC) the Sunday 1 June 2025 is saved as
    day 5, shown as "Sat". *)
Example one_time_spot_new_york :
  option_map repeat_days (handleSaveSpot (-18000000) oneTimeState) = Some [Js.Num 5]
  /\ nth_error DAY_NAMES 5 = Some "Sat".
Proof. split; reflexivity. Qed.

Lemma toggleRepeatDay_days (day : Z) (s : State) :
  newSpotRepeatDays (toggleRepeatDay day s) = toggle Z.eqb day (newSpotRepeatDays s).
Proof. reflexivity. Qed.

Lemma clickRepeatDays_fields (clicks : list Z) (s : State) :
  newSpot (clickRepeatDays clicks s) = newSpot s
  /\ newSpotRepeat (clickRepeatDays clicks s) = newSpotRepeat s
  /\ newSpotDate (clickRepeatDays clicks s) = newSpotDate s
  /\ newSpotRepeatDays (clickRepeatDays clicks s)
     = fold_left (fun acc d => toggle Z.eqb d acc) clicks (newSpotRepeatDays s).
Proof.
  unfold clickRepeatDays. revert s.
  induction clicks as [|d r IH]; intros s; [repeat split|].
  cbn [fold_left]. destruct (IH (toggleRepeatDay d s)) as (-> & -> & -> & ->).
  repeat split.
Qed.

(** X6. In the weekly mode [handleSaveSpot] sends the ticked weekdays and
    ignores the date field.  For any sequence of clicks on the seven weekday
    buttons, starting with none ticked, they are distinct numbers from 0 to
    6, at most seven; a newly ticked day goes to the end of the list, which
    is sent in ticking order. *)
Theorem weekly_days_submitted (localTZA : Z) (clicks : list Z) (s0 : State)
    (spot : NewSpot) :
  newSpot s0 = Some spot ->
  newSpotRepeat s0 = true ->
  newSpotRepeatDays s0 = [] ->
  Forall (fun d => 0 <= d < Z.of_nat (List.length DAY_NAMES)) clicks ->
  exists p,
    handleSaveSpot localTZA (clickRepeatDays clicks s0) = Some p
    /\ repeat_days p = map Js.Num (newSpotRepeatDays (clickRepeatDays clicks s0))
    /\ List.NoDup (newSpotRepeatDays (clickRepeatDays clicks s0))
    /\ Forall (fun d => 0 <= d <= 6) (newSpotRepeatDays (clickRepeatDays clicks s0))
    /\ (List.length (repeat_days p) <= 7)%nat
    /\ (forall d, ~ In d (newSpotRepeatDays (clickRepeatDays clicks s0)) ->
        newSpotRepeatDays (toggleRepeatDay d (clickRepeatDays clicks s0))
        = newSpotRepeatDays (clickRepeatDays clicks s0) ++ [d]).
Proof.
  intros Hspot Hrep Hempty Hclicks.
  destruct (clickRepeatDays_fields clicks s0) as (Hs & Hr & _ & Hdays).
  assert (Forall (fun d => 0 <= d <= 6) clicks) as Hrange.
  { rewrite List.Forall_forall in *. intros d Hd. specialize (Hclicks d Hd).
    cbn in Hclicks. lia. }
  destruct (toggles_keep clicks [] (fun d => 0 <= d <= 6) Hrange
              (List.NoDup_nil Z) (List.Forall_nil _)) as [Hnd Hall].
  rewrite <- Hempty, <- Hdays in Hnd, Hall.
  unfold handleSaveSpot. rewrite Hs, Hspot, Hr, Hrep. cbn [negb andb].
  eexists. split; [reflexivity|]. cbn.
  split; [reflexivity|]. split; [assumption|]. split; [assumption|]. split.
  - rewrite length_map. now apply weekdays_length.
  - intros d Hd. now apply (toggle_absent Z.eqb Zeqb_eq).
Qed.

Lemma weekly_days_submitted_witness :
  exists p,
    handleSaveSpot 0 (clickRepeatDays [2; 0] weeklyNoDayState) = Some p
    /\ repeat_days p
       = map Js.Num (newSpotRepeatDays (clickRepeatDays [2; 0] weeklyNoDayState))
    /\ List.NoDup (newSpotRepeatDays (clickRepeatDays [2; 0] weeklyNoDayState))
    /\ Forall (fun d => 0 <= d <= 6)
         (newSpotRepeatDays (clickRepeatDays [2; 0] weeklyNoDayState))
    /\ (List.length (repeat_days p) <= 7)%nat
    /\ (forall d, ~ In d (newSpotRepeatDays (clickRepeatDays [2; 0] weeklyNoDayState)) ->
        newSpotRepeatDays (toggleRepeatDay d (clickRepeatDays [2; 0] weeklyNoDayState))
        = newSpotRepeatDays (clickRepeatDays [2; 0] weeklyNoDayState) ++ [d]).
Proof.
  apply (weekly_days_submitted 0 [2; 0] weeklyNoDayState sampleSpot);
    try reflexivity.
  apply List.Forall_forall. intros d Hd. cbn in Hd |- *. lia.
Defined.

End DashboardMore.

Module MatchCardsMore.
Import Matches MatchesProps MeetupsProps.

Lemma showsForm_iff (c : Card) : showsForm c = true <-> In ProposeTimeForm (snd c).
Proof.
  unfold showsForm. rewrite existsb_exists. split.
  - intros (x & Hin & Hx). apply bool_decide_eq_true in Hx. now subst.
  - intros Hin. exists ProposeTimeForm. split; [assumption|].
    now apply bool_decide_eq_true.
Qed.

Lemma meetups_form_id (user : option User) (pf : option Z) (m : Match) :
  (showsForm (Meetups.proposedCard user pf m) = true <-> pf = Some (match_id m))
  /\ (showsForm (Meetups.pendingCard pf m) = true <-> pf = Some (match_id m))
  /\ showsForm (Meetups.confirmedCard m) = false.
Proof.
  unfold Meetups.proposedCard, Meetups.pendingCard, Meetups.confirmedCard, showsForm.
  cbn. destruct (isMyProposal user m), (decide (pf = Some (match_id m)));
    cbn; repeat split; intros; try discriminate; try assumption; try reflexivity;
    contradiction.
Qed.

Lemma dashboard_form_id (user : option User) (pf : option Z) (m : Match) :
  (showsForm (Dashboard.pendingCard user pf m) = true ->
   pf = Some (match_id m) /\ status m = "pending")
  /\ (status m = "pending" -> pf = Some (match_id m) ->
      showsForm (Dashboard.pendingCard user pf m) = true)
  /\ showsForm (Dashboard.confirmedCard m) = false.
Proof.
  unfold Dashboard.pendingCard, Dashboard.confirmedCard, showsForm. cbn.
  destruct (String.eqb_spec (status m) "pending") as [E|N];
    destruct (isMyProposal user m), (decide (pf = Some (match_id m)));
    cbn; repeat split; intros; try discriminate; try assumption; try reflexivity;
    contradiction.
Qed.

(** X7. On the Dashboard the card of a time_proposed match never shows the
    time picker, whatever [proposingFor] is: its "Different time" button,
    which only sets [proposingFor] to the match, leaves the card as it was.
    On the Meetups page the same click makes the picker appear on that
    card. *)
Theorem different_time_button (user : option User) (pf : option Z)
    (matches : list Match) :
  (forall c,
      In c (Dashboard.render user pf matches) ->
      status (fst c) = "time_proposed" ->
      showsForm c = false
      /\ c = Dashboard.pendingCard user (clickPropose (fst c) pf) (fst c)
      /\ (isMyProposal user (fst c) = false -> In DifferentTimeButton (snd c)))
  /\ (forall isLoading m c,
      In c (Meetups.render isLoading user (clickPropose m pf) matches) ->
      fst c = m ->
      status m = "time_proposed" ->
      showsForm c = true).
Proof.
  split.
  - intros [m cs] Hin Hs. cbn [fst] in Hs.
    apply dashboard_card in Hin. cbn [fst] in Hin.
    destruct Hin as [[Hc _]|[_ ->]]; [congruence|].
    unfold Dashboard.pendingCard, showsForm, clickPropose. rewrite Hs. cbn.
    destruct (isMyProposal user m); cbn; rewrite ?Hs; cbn; repeat split; auto;
      discriminate.
  - intros isLoading m [m' cs] Hin Hm Hs. cbn [fst] in Hm. subst m'.
    apply meetups_card in Hin. cbn [fst] in Hin.
    destruct Hin as [[Hc _]|[[_ ->]|[Hc _]]]; try congruence.
    apply (meetups_form_id user (clickPropose m pf) m). reflexivity.
Qed.

(** X9. A confirmed match is read-only on both pages: its card carries the
    confirmed badge and no button or picker. *)
Theorem confirmed_card_read_only (user : option User) (pf : option Z)
    (matches : list Match) :
  (forall isLoading c,
      In c (Meetups.render isLoading user pf matches) ->
      status (fst c) = "confirmed" -> snd c = [ConfirmedBadge])
  /\ (forall c,
      In c (Dashboard.render user pf matches) ->
      status (fst c) = "confirmed" -> snd c = [ConfirmedBadge]).
Proof.
  split.
  - intros isLoading c Hin Hs. apply meetups_card in Hin.
    destruct Hin as [[_ ->]|[[Hc _]|[Hc _]]]; [reflexivity | congruence | congruence].
  - intros c Hin Hs. apply dashboard_card in Hin.
    destruct Hin as [[_ ->]|[[Hc|Hc] _]]; [reflexivity | congruence | congruence].
Qed.

Lemma filter_length_le {A : Type} (p q : A -> bool) (l : list A) :
  (forall x, In x l -> p x = true -> q x = true) ->
  (List.length (List.filter p l) <= List.length (List.filter q l))%nat.
Proof.
  induction l as [|x r IH]; intros H; [cbn; lia|]. cbn.
  assert (List.length (List.filter p r) <= List.length (List.filter q r))%nat
    by (apply IH; intros y Hy; apply H; now right).
  destruct (p x) eqn:Hp.
  - rewrite (H x (or_introl eq_refl) Hp). cbn. lia.
  - destruct (q x); cbn; lia.
Qed.

Lemma cards_with_form {f : Match -> Card} (pf : option Z) (l : list Match) :
  (forall m, showsForm (f m) = true -> picked pf m = true) ->
  (List.length (List.filter showsForm (map f l))
   <= List.length (List.filter (picked pf) l))%nat.
Proof.
  intros H. induction l as [|m r IH]; [cbn; lia|]. cbn.
  destruct (showsForm (f m)) eqn:Hf.
  - rewrite (H m Hf). cbn. lia.
  - destruct (picked pf m); cbn; lia.
Qed.

Lemma picked_by_status (pf : option Z) (l : list Match) :
  (List.length (List.filter (picked pf) (with_status "confirmed" l))
   + List.length (List.filter (picked pf) (with_status "time_proposed" l))
   + List.length (List.filter (picked pf) (with_status "pending" l))
   <= List.length (List.filter (picked pf) l))%nat.
Proof.
  unfold with_status. induction l as [|m r IH]; [cbn; lia|].
  cbn [List.filter].
  destruct (String.eqb_spec (status m) "confirmed") as [E1|N1];
    destruct (String.eqb_spec (status m) "time_proposed") as [E2|N2];
    destruct (String.eqb_spec (status m) "pending") as [E3|N3];
    try congruence; cbn [List.filter]; destruct (picked pf m); cbn; lia.
Qed.

Lemma picked_at_most_once (pf : option Z) (l : list Match) :
  List.NoDup (map match_id l) ->
  (List.length (List.filter (picked pf) l) <= 1)%nat.
Proof.
  induction l as [|m r IH]; intros Hnd; [cbn; lia|].
  cbn in Hnd. inversion Hnd as [|? ? Hm Hr]; subst. cbn.
  destruct (picked pf m) eqn:Hp; [|now apply IH].
  apply bool_decide_eq_true in Hp.
  assert (List.filter (picked pf) r = []) as ->; [|cbn; lia].
  clear IH Hnd Hr. induction r as [|x r' IH']; [reflexivity|]. cbn.
  destruct (picked pf x) eqn:Hx.
  - apply bool_decide_eq_true in Hx. exfalso. apply Hm. cbn. left. congruence.
  - apply IH'. intros Hin. apply Hm. now right.
Qed.

(** X8. When the fetched matches have distinct ids, at most one card on the
    Meetups page, and at most one on the Dashboard, shows the time picker;
    after a proposal succeeded ([proposingFor] reset) no card shows it. *)
Theorem one_time_picker (isLoading : bool) (user : option User) (pf : option Z)
    (matches : list Match) :
  List.NoDup (map match_id matches) ->
  (List.length (List.filter showsForm (Meetups.render isLoading user pf matches))
   <= 1)%nat
  /\ (List.length (List.filter showsForm (Dashboard.render user pf matches))
      <= 1)%nat
  /\ List.filter showsForm
       (Meetups.render isLoading user (onProposeSuccess pf) matches) = []
  /\ List.filter showsForm
       (Dashboard.render user (onProposeSuccess pf) matches) = [].
Proof.
  intros Hnd.
  assert (forall pf',
             (List.length (List.filter showsForm
                             (Meetups.render isLoading user pf' matches))
              <= List.length (List.filter (picked pf') matches))%nat) as HM.
  { intros pf'. unfold Meetups.render. destruct isLoading; [cbn; lia|].
    destruct matches as [|m0 ms] eqn:El; [cbn; lia|]. rewrite <- El.
    rewrite !List.filter_app, !List.length_app.
    pose proof (picked_by_status pf' matches) as Hsum.
    pose proof (@cards_with_form Meetups.confirmedCard pf'
                  (Meetups.confirmedMatches matches)) as H1.
    pose proof (@cards_with_form (Meetups.proposedCard user pf') pf'
                  (Meetups.proposedMatches matches)) as H2.
    pose proof (@cards_with_form (Meetups.pendingCard pf') pf'
                  (Meetups.pendingMatches matches)) as H3.
    unfold Meetups.confirmedMatches, Meetups.proposedMatches,
      Meetups.pendingMatches in *.
    assert (forall m, showsForm (Meetups.confirmedCard m) = true -> picked pf' m = true)
      as A1 by (intros m; rewrite (proj2 (proj2 (meetups_form_id user pf' m)));
                discriminate).
    assert (forall m, showsForm (Meetups.proposedCard user pf' m) = true ->
                      picked pf' m = true) as A2
      by (intros m Hm; unfold picked; apply bool_decide_eq_true;
          exact (proj1 (proj1 (meetups_form_id user pf' m)) Hm)).
    assert (forall m, showsForm (Meetups.pendingCard pf' m) = true ->
                      picked pf' m = true) as A3
      by (intros m Hm; unfold picked; apply bool_decide_eq_true;
          exact (proj1 (proj1 (proj2 (meetups_form_id user pf' m))) Hm)).
    specialize (H1 A1). specialize (H2 A2). specialize (H3 A3). lia. }
  assert (forall pf',
             (List.length (List.filter showsForm (Dashboard.render user pf' matches))
              <= List.length (List.filter (picked pf') matches))%nat) as HD.
  { intros pf'. unfold Dashboard.render.
    rewrite !List.filter_app, !List.length_app.
    pose proof (@cards_with_form Dashboard.confirmedCard pf'
                  (Dashboard.confirmedMatches matches)) as H1.
    pose proof (@cards_with_form (Dashboard.pendingCard user pf') pf'
                  (Dashboard.pendingMatches matches)) as H2.
    assert (forall m, showsForm (Dashboard.confirmedCard m) = true -> picked pf' m = true)
      as A1 by (intros m; rewrite (proj2 (proj2 (dashboard_form_id user pf' m)));
                discriminate).
    assert (forall m, showsForm (Dashboard.pendingCard user pf' m) = true ->
                      picked pf' m = true) as A2
      by (intros m Hm; unfold picked; apply bool_decide_eq_true;
          exact (proj1 (proj1 (dashboard_form_id user pf' m) Hm))).
    specialize (H1 A1). specialize (H2 A2).
    assert (List.length (List.filter (picked pf') (Dashboard.confirmedMatches matches))
            + List.length (List.filter (picked pf') (Dashboard.pendingMatches matches))
            <= List.length (List.filter (picked pf') matches))%nat; [|lia].
    clear. unfold Dashboard.confirmedMatches, Dashboard.pendingMatches.
    induction matches as [|m r IH]; [cbn; lia|]. cbn [List.filter].
    destruct (String.eqb_spec (status m) "confirmed") as [E1|N1];
      destruct (String.eqb_spec (status m) "pending") as [E3|N3];
      destruct (String.eqb_spec (status m) "time_proposed") as [E2|N2];
      try congruence; cbn [List.filter orb]; destruct (picked pf' m); cbn; lia. }
  pose proof (picked_at_most_once pf matches Hnd) as Hone.
  assert (List.filter (picked None) matches = []) as Hnone.
  { clear. induction matches as [|m r IH]; [reflexivity|]. cbn. exact IH. }
  split; [specialize (HM pf); lia|]. split; [specialize (HD pf); lia|].
  unfold onProposeSuccess. split.
  - specialize (HM None). rewrite Hnone in HM.
    destruct (List.filter showsForm _); [reflexivity | cbn in HM; lia].
  - specialize (HD None). rewrite Hnone in HD.
    destruct (List.filter showsForm _); [reflexivity | cbn in HD; lia].
Qed.

Lemma one_time_picker_witness :
  (List.length (List.filter showsForm
                  (Meetups.render false (Some PageSamples.alex) (Some 2%Z)
                     PageSamples.someMatches)) <= 1)%nat
  /\ (List.length (List.filter showsForm
                     (Dashboard.render (Some PageSamples.alex) (Some 2%Z)
                        PageSamples.someMatches)) <= 1)%nat
  /\ List.filter showsForm
       (Meetups.render false (Some PageSamples.alex) (onProposeSuccess (Some 2%Z))
          PageSamples.someMatches) = []
  /\ List.filter showsForm
       (Dashboard.render (Some PageSamples.alex) (onProposeSuccess (Some 2%Z))
          PageSamples.someMatches) = [].
Proof.
  apply (one_time_picker false (Some PageSamples.alex) (Some 2%Z)
           PageSamples.someMatches).
  cbn. repeat constructor; cbn; lia.
Defined.

End MatchCardsMore.

Module BrowseMore.
Import Browse BrowseProps.

(** X15. Once the sent list contains the body that a card's button posted,
    that card shows the disabled "interest expressed" button, as does every
    card with the same user id and slot id; a card that differs in either
    keeps the button it had. *)
Theorem express_interest_round_trip (sent : list SentInterest) (isPending : bool)
    (person : PersonAtLocation) :
  let body := requestBody (handleExpressInterest person) in
  (forall sent', In body sent' ->
      actionButton sent' isPending person = InterestExpressed)
  /\ (forall other,
      id (user other) = id (user person) ->
      slot_id (availability other) = slot_id (availability person) ->
      actionButton (body :: sent) isPending other = InterestExpressed)
  /\ (forall other,
      id (user other) <> id (user person)
      \/ slot_id (availability other) <> slot_id (availability person) ->
      actionButton (body :: sent) isPending other = actionButton sent isPending other).
Proof.
  cbv zeta. split; [|split].
  - intros sent' Hin. unfold actionButton, hasExpressedInterest.
    assert (existsb
              (fun i => String.eqb (target_id i) (id (user person))
                        && Z.eqb (availability_id i) (slot_id (availability person)))
              sent' = true) as ->; [|reflexivity].
    apply some_pair_iff. eexists. split; [exact Hin|]. split; reflexivity.
  - intros other Hu Hs. unfold actionButton, hasExpressedInterest. cbn.
    rewrite Hu, Hs, String.eqb_refl, Z.eqb_refl. reflexivity.
  - intros other Hne. unfold actionButton, hasExpressedInterest. cbn.
    assert (String.eqb (id (user person)) (id (user other))
            && Z.eqb (slot_id (availability person)) (slot_id (availability other))
            = false) as ->; [|reflexivity].
    apply andb_false_iff. destruct Hne as [H|H]; [left|right].
    + apply String.eqb_neq. congruence.
    + apply Z.eqb_neq. congruence.
Qed.

End BrowseMore.

Module AvailabilityPageProps.
Import AvailabilityPage.

Lemma handle_keeps (e : Event) (s : State) :
  oneFormAtMost s -> oneFormAtMost (handle e s).
Proof.
  unfold oneFormAtMost, handle, addButtonShown, editDisabled, editing,
    setShowForm, setEditingSlot.
  destruct s as [sf [es|]], e; cbn; intros H; try destruct sf; cbn;
    intros; try discriminate; auto.
Qed.

Lemma run_keeps (events : list Event) (s : State) :
  oneFormAtMost s -> oneFormAtMost (run events s).
Proof.
  unfold run. revert s. induction events as [|e r IH]; intros s H; [assumption|].
  cbn. apply IH. now apply handle_keeps.
Qed.

(** X10. Whatever is clicked and whichever mutations succeed, the
    Availability page never has the add form and the edit form open
    together; the Add button is there exactly when neither is open, and
    while a form is open a click on Edit changes nothing. *)
Theorem one_form_at_a_time (events : list Event) :
  let s := run events initial in
  (showForm s = true -> editingSlot s = None)
  /\ (addButtonShown s = true <-> showForm s = false /\ editingSlot s = None)
  /\ (forall slot, addButtonShown s = false -> handle (ClickEdit slot) s = s).
Proof.
  cbv zeta. split; [|split].
  - apply run_keeps. unfold oneFormAtMost. discriminate.
  - unfold addButtonShown, editing.
    destruct (showForm (run events initial)), (editingSlot (run events initial));
      cbn; split; try discriminate; try (intros [? ?]; discriminate); auto.
  - intros slot. unfold addButtonShown, handle, editDisabled, editing.
    destruct (showForm (run events initial)), (editingSlot (run events initial));
      cbn; try discriminate; reflexivity.
Qed.

End AvailabilityPageProps.

Module InterestEditorProps.
Import InterestEditor.

Lemma isSelected_iff (interests : list Interest) (interest : Interest) :
  isSelected interests interest = true
  <-> exists i, In i interests /\ id i = id interest.
Proof.
  unfold isSelected. rewrite existsb_exists.
  split; intros (i & Hin & Hi); exists i; (split; [assumption|]);
    [now apply Z.eqb_eq | now apply Z.eqb_eq].
Qed.

Lemma removed_not_selected (interests : list Interest) (interest other : Interest) :
  isSelected
    (List.filter (fun i => negb (Z.eqb (id i) (id interest))) interests) other
  = negb (Z.eqb (id other) (id interest)) && isSelected interests other.
Proof.
  unfold isSelected. induction interests as [|x r IH]; cbn.
  - now rewrite andb_false_r.
  - destruct (Z.eqb_spec (id x) (id interest)) as [E|N]; cbn.
    + rewrite IH. destruct (Z.eqb_spec (id x) (id other)) as [E'|N']; cbn.
      * assert (Z.eqb (id other) (id interest) = true) as ->
          by (apply Z.eqb_eq; congruence).
        reflexivity.
      * reflexivity.
    + rewrite IH. destruct (Z.eqb_spec (id x) (id other)) as [E'|N']; cbn.
      * assert (Z.eqb (id other) (id interest) = false) as ->
          by (apply Z.eqb_neq; congruence).
        reflexivity.
      * reflexivity.
Qed.

Lemma map_id_filter (interests : list Interest) (k : Z) :
  map id (List.filter (fun i => negb (Z.eqb (id i) k)) interests)
  = List.filter (fun z => negb (Z.eqb z k)) (map id interests).
Proof.
  induction interests as [|x r IH]; [reflexivity|]. cbn.
  destruct (Z.eqb (id x) k); cbn; now rewrite IH.
Qed.

(** X13. A click on an interest button toggles that interest by its id:
    it becomes selected exactly when it was not, every interest with another
    id keeps its state, nothing but the clicked interest is ever added, and
    interests with distinct ids stay distinct. *)
Theorem clickInterest_toggles (interests : list Interest) (interest : Interest) :
  isSelected (clickInterest interests interest) interest
  = negb (isSelected interests interest)
  /\ (forall other, id other <> id interest ->
        isSelected (clickInterest interests interest) other
        = isSelected interests other)
  /\ (forall i, In i (clickInterest interests interest) ->
        In i interests \/ i = interest)
  /\ (List.NoDup (map id interests) ->
      List.NoDup (map id (clickInterest interests interest))).
Proof.
  unfold clickInterest. destruct (isSelected interests interest) eqn:Hsel.
  - split; [|split; [|split]].
    + rewrite removed_not_selected, Z.eqb_refl. reflexivity.
    + intros other Hne. rewrite removed_not_selected.
      now rewrite (proj2 (Z.eqb_neq _ _) Hne).
    + intros i Hi. apply filter_In in Hi as [Hi _]. now left.
    + intros Hnd. rewrite map_id_filter. now apply List.NoDup_filter.
  - split; [|split; [|split]].
    + unfold isSelected in *. rewrite existsb_app, Hsel. cbn.
      now rewrite Z.eqb_refl.
    + intros other Hne. unfold isSelected. rewrite existsb_app. cbn.
      rewrite (proj2 (Z.eqb_neq (id interest) (id other))) by congruence.
      now rewrite !orb_false_r.
    + intros i Hi. apply in_app_iff in Hi as [Hi|[<-|[]]]; auto.
    + intros Hnd. rewrite map_app. cbn.
      apply List.NoDup_app; [assumption | repeat constructor; intros [] |].
      intros z Hz [<-|[]].
      apply in_map_iff in Hz as (i & Hi & Hin).
      assert (isSelected interests interest = true) by (apply isSelected_iff; eauto).
      congruence.
Qed.

End InterestEditorProps.

Module PreferencesProps.
Import Preferences JsArray JsArrayProps.

Lemma Seqb_eq (x y : string) : String.eqb x y = true <-> x = y.
Proof. apply String.eqb_eq. Qed.

Lemma num_or_displays (stored : option Z) (d : Z) :
  displays stored d (num_or stored d).
Proof.
  unfold displays, num_or. destruct stored as [[|x|x]|].
  - left. auto.
  - right. exists (Z.pos x). repeat split. discriminate.
  - right. exists (Z.neg x). repeat split. discriminate.
  - left. auto.
Qed.

Lemma displays_unique (stored : option Z) (d x y : Z) :
  displays stored d x -> displays stored d y -> x = y.
Proof.
  unfold displays.
  intros [[[->| ->] ->]|(a & -> & Ha & ->)] [[[E|E] ->]|(b & E & Hb & ->)];
    try discriminate; try reflexivity; try congruence.
Qed.

Lemma steps_intro (lo hi : Z) (field : Z -> Update) (shown : Z) :
  steps lo hi field shown
    (if shown >? lo then Some (field (shown - 1)) else None)
    (if shown <? hi then Some (field (shown + 1)) else None).
Proof.
  unfold steps.
  destruct (Z.gtb_spec shown lo), (Z.ltb_spec shown hi);
    repeat match goal with |- _ /\ _ => split end;
    try (intros upd; split; [intros [= <-]; split; [lia|reflexivity]
                            | intros [_ ->]; reflexivity]);
    try (intros upd; split; [discriminate | intros [? _]; lia]);
    try (split; [discriminate | lia]);
    try (split; [lia | reflexivity]);
    try (split; [reflexivity | lia]).
  all: split; intros; try reflexivity; lia.
Qed.

(** X12. Each of the eight stepper buttons works on the displayed value,
    the stored one or its default (18 and 99 for the ages, 2 and 10 for the
    group sizes) when it is missing or 0.  A minus button sends that value
    less one while it is above the lower bound (18 for ages, 2 for group
    sizes), a plus button that value plus one while it is below the upper
    bound (99, 20); at the bound the click sends nothing.  So a displayed
    value within the bounds never leads to a sent value outside them, and a
    step up followed by a step down on the stored result returns to the
    displayed value.  The two ends of a range are stepped independently:
    nothing keeps the minimum at or below the maximum. *)
Theorem stepper_bounds (u : User) :
  (displays (min_age_preference u) 18 (shownMinAge u)
   /\ displays (max_age_preference u) 99 (shownMaxAge u)
   /\ displays (min_group_size u) 2 (shownMinGroup u)
   /\ displays (max_group_size u) 10 (shownMaxGroup u))
  /\ (steps 18 99 MinAge (shownMinAge u) (decMinAge u) (incMinAge u)
      /\ steps 18 99 MaxAge (shownMaxAge u) (decMaxAge u) (incMaxAge u)
      /\ steps 2 20 MinGroup (shownMinGroup u) (decMinGroup u) (incMinGroup u)
      /\ steps 2 20 MaxGroup (shownMaxGroup u) (decMaxGroup u) (incMaxGroup u))
  /\ (forall v, In (Some (MinAge v)) [decMinAge u; incMinAge u] ->
        18 <= shownMinAge u <= 99 -> 18 <= v <= 99)
  /\ (forall v, In (Some (MaxAge v)) [decMaxAge u; incMaxAge u] ->
        18 <= shownMaxAge u <= 99 -> 18 <= v <= 99)
  /\ (forall v, In (Some (MinGroup v)) [decMinGroup u; incMinGroup u] ->
        2 <= shownMinGroup u <= 20 -> 2 <= v <= 20)
  /\ (forall v, In (Some (MaxGroup v)) [decMaxGroup u; incMaxGroup u] ->
        2 <= shownMaxGroup u <= 20 -> 2 <= v <= 20)
  /\ (forall u' v,
        (18 <= shownMinAge u -> incMinAge u = Some (MinAge v) ->
         min_age_preference u' = Some v ->
         decMinAge u' = Some (MinAge (shownMinAge u)))
        /\ (18 <= shownMaxAge u -> incMaxAge u = Some (MaxAge v) ->
            max_age_preference u' = Some v ->
            decMaxAge u' = Some (MaxAge (shownMaxAge u)))
        /\ (2 <= shownMinGroup u -> incMinGroup u = Some (MinGroup v) ->
            min_group_size u' = Some v ->
            decMinGroup u' = Some (MinGroup (shownMinGroup u)))
        /\ (2 <= shownMaxGroup u -> incMaxGroup u = Some (MaxGroup v) ->
            max_group_size u' = Some v ->
            decMaxGroup u' = Some (MaxGroup (shownMaxGroup u))))
  /\ (shownMinGroup u = shownMaxGroup u -> shownMinGroup u < 20 ->
      incMinGroup u = Some (MinGroup (shownMaxGroup u + 1)))
  /\ (shownMinAge u = shownMaxAge u -> 18 < shownMaxAge u ->
      decMaxAge u = Some (MaxAge (shownMinAge u - 1))).
Proof.
  split; [split; [|split; [|split]]; apply num_or_displays|].
  split.
  { split; [exact (steps_intro 18 99 MinAge _)|].
    split; [exact (steps_intro 18 99 MaxAge _)|].
    split; [exact (steps_intro 2 20 MinGroup _)|].
    exact (steps_intro 2 20 MaxGroup _). }
  unfold decMinAge, incMinAge, decMaxAge, incMaxAge, decMinGroup, incMinGroup,
    decMaxGroup, incMaxGroup, shownMinAge, shownMaxAge, shownMinGroup, shownMaxGroup.
  set (a := num_or (min_age_preference u) 18).
  set (b := num_or (max_age_preference u) 99).
  set (c := num_or (min_group_size u) 2).
  set (d := num_or (max_group_size u) 10).
  repeat match goal with |- _ /\ _ => split end.
  all: try (intros v Hin Hr; cbn in Hin;
            destruct Hin as [Hin|[Hin|[]]];
            repeat match type of Hin with
                   | (if ?x >? ?y then _ else _) = _ =>
                       destruct (Z.gtb_spec x y); try discriminate
                   | (if ?x <? ?y then _ else _) = _ =>
                       destruct (Z.ltb_spec x y); try discriminate
                   end;
            injection Hin as <-; lia).
  - intros u' v. repeat match goal with |- _ /\ _ => split end;
      intros Hlo Hinc Hstored; rewrite Hstored;
      match type of Hinc with
      | (if ?x <? ?y then _ else _) = _ =>
          destruct (Z.ltb_spec x y); [injection Hinc as <-|discriminate]
      end;
      match goal with
      | |- context [num_or (Some ?w) ?dflt] =>
          replace (num_or (Some w) dflt) with w
            by (unfold num_or; destruct w eqn:?; [lia|reflexivity|reflexivity])
      end;
      match goal with
      | |- (if ?x >? ?y then _ else _) = _ =>
          destruct (Z.gtb_spec x y); [do 2 f_equal; lia | lia]
      end.
  - intros E H. destruct (Z.ltb_spec c 20); [now rewrite E | lia].
  - intros E H. destruct (Z.gtb_spec b 18); [now rewrite E | lia].
Qed.

(** A missing value and a stored 0 are shown, and stepped, as the default. *)
Lemma stepper_defaults (u : User) :
  (min_group_size u = None \/ min_group_size u = Some 0 -> shownMinGroup u = 2)
  /\ (max_group_size u = None \/ max_group_size u = Some 0 -> shownMaxGroup u = 10)
  /\ (min_age_preference u = None \/ min_age_preference u = Some 0 -> shownMinAge u = 18)
  /\ (max_age_preference u = None \/ max_age_preference u = Some 0 -> shownMaxAge u = 99).
Proof.
  unfold shownMinGroup, shownMaxGroup, shownMinAge, shownMaxAge.
  repeat split; intros [->| ->]; reflexivity.
Qed.

(** X14. A click on a gender button always sends a list: the stored
    preferences (none, when they are missing) with the clicked gender added
    at the end if it was not selected and removed if it was; the other
    genders are kept as they were.  Deselecting the only selected gender
    sends the empty list, which stands for "any". *)
Theorem clickGender_toggles (u : User) (gender : string) :
  exists l,
    clickGender u gender = Genders l
    /\ (forall g, In g l
                  <-> (g = gender /\ genderSelected u gender = false)
                      \/ (g <> gender
                          /\ exists prefs, gender_preferences u = Some prefs
                                           /\ In g prefs))
    /\ (gender_preferences u = None -> l = [gender])
    /\ (gender_preferences u = Some [gender] -> l = []).
Proof.
  unfold clickGender, genderSelected. eexists. split; [reflexivity|].
  destruct (gender_preferences u) as [prefs|].
  - pose proof (toggle_In String.eqb Seqb_eq gender) as HT. unfold toggle in HT.
    pose proof (includes_In String.eqb Seqb_eq gender prefs) as HI.
    split; [|split; [discriminate|]].
    + intros g. rewrite (HT g prefs).
      destruct (existsb (String.eqb gender) prefs) eqn:Hsel.
      * split; intros [[-> Hno]|[Hne Hin]].
        -- exfalso. apply Hno. now apply HI.
        -- right. eauto.
        -- discriminate.
        -- destruct Hin as (p & [= <-] & Hin). now right.
      * split; intros [[-> Hno]|[Hne Hin]].
        -- now left.
        -- right. eauto.
        -- left. split; [reflexivity|]. rewrite <- HI. congruence.
        -- destruct Hin as (p & [= <-] & Hin). now right.
    + intros [= ->]. cbn.
      assert (String.eqb gender gender = true) as -> by now apply String.eqb_eq.
      reflexivity.
  - cbn. split; [|split; [reflexivity | discriminate]].
    intros g. split.
    + intros [<-|[]]. now left.
    + intros [[-> _]|[_ (p & H & _)]]; [now left | discriminate].
Qed.

End PreferencesProps.

Module Dashboard2Props.
Import AvailabilityForm Dashboard2.

Lemma digit_not_colon (a : nat) : (a < 10)%nat -> Ascii.eqb (digit a) ":" = false.
Proof. intros H. do 10 (destruct a as [|a]; [reflexivity|]). lia. Qed.

Lemma split_hhmm (h m : nat) :
  (h < 100)%nat -> (m < 100)%nat ->
  split (hhmm h m) = [two_digits h; two_digits m].
Proof.
  intros Hh Hm. cbv [hhmm two_digits String.append]. cbn [split].
  assert (forall n : nat, (n < 100)%nat -> (n / 10 < 10)%nat) as D
    by (intros n Hn; apply Nat.Div0.div_lt_upper_bound; lia).
  assert (forall n : nat, (n mod 10 < 10)%nat) as M
    by (intros n; apply Nat.mod_upper_bound; lia).
  rewrite !digit_not_colon by auto. cbn. reflexivity.
Qed.

Lemma show_two_digits (k : nat) :
  (k < 100)%nat ->
  padStart2 (showValue (Some (Js.Num (Z.of_nat k)))) = two_digits k.
Proof.
  intros Hk.
  assert (forallb
            (fun n => String.eqb
                        (padStart2 (showValue (Some (Js.Num (Z.of_nat n)))))
                        (two_digits n))
            (seq 0 100) = true) as Hall by (vm_compute; reflexivity).
  rewrite forallb_forall in Hall.
  apply String.eqb_eq, Hall, in_seq. lia.
Qed.

Lemma decimalNumber_two_digits (k : nat) :
  (k < 100)%nat -> decimalNumber (two_digits k) = Js.Num (Z.of_nat k).
Proof.
  intros Hk.
  assert (forallb
            (fun n => match decimalNumber (two_digits n) with
                      | Js.Num z => Z.eqb z (Z.of_nat n)
                      | Js.NaN => false
                      end)
            (seq 0 100) = true) as Hall by (vm_compute; reflexivity).
  rewrite forallb_forall in Hall.
  specialize (Hall k ltac:(apply in_seq; lia)).
  destruct (decimalNumber (two_digits k)); [|discriminate].
  apply Z.eqb_eq in Hall. now subst.
Qed.

Section Steppers.
Context (Number : string -> Js.number).
Hypothesis Number_two_digits :
  forall k : nat, (k < 100)%nat -> Number (two_digits k) = Js.Num (Z.of_nat k).

Lemma hourAndMinute_hhmm (h m : nat) :
  (h < 24)%nat -> (m < 60)%nat ->
  hourAndMinute Number (hhmm h m)
  = (Some (Js.Num (Z.of_nat h)), Some (Js.Num (Z.of_nat m))).
Proof.
  intros Hh Hm. unfold hourAndMinute.
  rewrite split_hhmm by lia. cbn.
  now rewrite !Number_two_digits by lia.
Qed.

Lemma hourUp_hhmm (h m : nat) :
  (h < 24)%nat -> (m < 60)%nat ->
  hourUp Number (hhmm h m) = hhmm ((h + 1) mod 24) m.
Proof.
  intros Hh Hm. unfold hourUp. rewrite hourAndMinute_hhmm by assumption.
  destruct (Z.ltb_spec (Z.of_nat h) 23) as [Hlt|Hge].
  - replace (Z.of_nat h + 1) with (Z.of_nat (h + 1)) by lia.
    rewrite !show_two_digits by lia.
    rewrite Nat.mod_small by lia. reflexivity.
  - assert (h = 23)%nat as -> by lia.
    change 0 with (Z.of_nat 0). rewrite !show_two_digits by lia. reflexivity.
Qed.

Lemma hourDown_hhmm (h m : nat) :
  (h < 24)%nat -> (m < 60)%nat ->
  hourDown Number (hhmm h m) = hhmm ((h + 23) mod 24) m.
Proof.
  intros Hh Hm. unfold hourDown. rewrite hourAndMinute_hhmm by assumption.
  destruct (Z.gtb_spec (Z.of_nat h) 0) as [Hgt|Hle].
  - replace (Z.of_nat h - 1) with (Z.of_nat (h - 1)) by lia.
    rewrite !show_two_digits by lia.
    replace ((h + 23) mod 24)%nat with (h - 1)%nat; [reflexivity|].
    replace (h + 23)%nat with ((h - 1) + 1 * 24)%nat by lia.
    rewrite Nat.Div0.mod_add. now rewrite Nat.mod_small by lia.
  - assert (h = 0)%nat as -> by lia.
    change 23 with (Z.of_nat 23). rewrite !show_two_digits by lia. reflexivity.
Qed.

Lemma clockTime_up (t : string) : clockTime t -> clockTime (hourUp Number t).
Proof.
  intros (h & m & Hh & Hm & ->). rewrite hourUp_hhmm by assumption.
  exists ((h + 1) mod 24)%nat, m. split; [|split; [assumption|reflexivity]].
  apply Nat.mod_upper_bound. lia.
Qed.

Lemma clockTime_down (t : string) : clockTime t -> clockTime (hourDown Number t).
Proof.
  intros (h & m & Hh & Hm & ->). rewrite hourDown_hhmm by assumption.
  exists ((h + 23) mod 24)%nat, m. split; [|split; [assumption|reflexivity]].
  apply Nat.mod_upper_bound. lia.
Qed.

Lemma preset_clockTimes (label start finish : string) :
  In (label, start, finish) TIME_PRESETS -> clockTime start /\ clockTime finish.
Proof.
  cbn. intros [[= <- <- <-]|[[= <- <- <-]|[[= <- <- <-]|[[= <- <- <-]|[]]]]].
  - split; [exists 8%nat, 0%nat | exists 12%nat, 0%nat]; repeat split; lia.
  - split; [exists 11%nat, 0%nat | exists 14%nat, 0%nat]; repeat split; lia.
  - split; [exists 14%nat, 0%nat | exists 18%nat, 0%nat]; repeat split; lia.
  - split; [exists 18%nat, 0%nat | exists 22%nat, 0%nat]; repeat split; lia.
Qed.

Lemma handle_clockTimes (e : Event) (s : State) :
  fromButtons e ->
  clockTime (newSpotTimeStart s) /\ clockTime (newSpotTimeEnd s) ->
  clockTime (newSpotTimeStart (handle Number e s))
  /\ clockTime (newSpotTimeEnd (handle Number e s)).
Proof.
  intros He [Hs Hf]. destruct e; cbn; try (split; assumption).
  - destruct He as [label Hin]. now apply (preset_clockTimes label).
  - split; [now apply clockTime_down | assumption].
  - split; [now apply clockTime_up | assumption].
  - split; [assumption | now apply clockTime_down].
  - split; [assumption | now apply clockTime_up].
Qed.

(** X17. On a clock time [HH:MM] the plus button advances the hour by one
    and the minus button moves it back by one, both wrapping around
    midnight (23 to 00 and 00 to 23) and keeping the minutes; each undoes
    the other.  Hence, starting from clock times, the two times of the form
    stay clock times whatever buttons are used. *)
Theorem hour_steppers (h m : nat) (events : list Event) (s0 : State) :
  (h < 24)%nat -> (m < 60)%nat ->
  Forall fromButtons events ->
  clockTime (newSpotTimeStart s0) -> clockTime (newSpotTimeEnd s0) ->
  hourUp Number (hhmm h m) = hhmm ((h + 1) mod 24) m
  /\ hourDown Number (hhmm h m) = hhmm ((h + 23) mod 24) m
  /\ hourDown Number (hourUp Number (hhmm h m)) = hhmm h m
  /\ hourUp Number (hourDown Number (hhmm h m)) = hhmm h m
  /\ clockTime (newSpotTimeStart (run Number events s0))
  /\ clockTime (newSpotTimeEnd (run Number events s0)).
Proof.
  intros Hh Hm Hev Hs Hf.
  assert (forall k, (k mod 24 < 24)%nat) as Hb
    by (intros k; apply Nat.mod_upper_bound; lia).
  split; [now apply hourUp_hhmm|]. split; [now apply hourDown_hhmm|].
  split; [|split].
  - rewrite hourUp_hhmm, hourDown_hhmm by auto. f_equal.
    rewrite Nat.Div0.add_mod_idemp_l.
    replace (h + 1 + 23)%nat with (h + 1 * 24)%nat by lia.
    rewrite Nat.Div0.mod_add. now apply Nat.mod_small.
  - rewrite hourDown_hhmm, hourUp_hhmm by auto. f_equal.
    rewrite Nat.Div0.add_mod_idemp_l.
    replace (h + 23 + 1)%nat with (h + 1 * 24)%nat by lia.
    rewrite Nat.Div0.mod_add. now apply Nat.mod_small.
  - unfold run. revert s0 Hs Hf.
    induction Hev as [|e r He Hr IH]; intros s0 Hs Hf; [now split|].
    cbn. destruct (handle_clockTimes e s0 He (conj Hs Hf)) as [Hs' Hf'].
    now apply IH.
Qed.

End Steppers.

Lemma run_day_modes (Number : string -> Js.number) (events : list Event) (s : State) :
  (newSpotRepeat s = true -> newSpotDate s = "") ->
  newSpotRepeat (run Number events s) = true ->
  newSpotDate (run Number events s) = "".
Proof.
  unfold run. revert s. induction events as [|e r IH]; intros s H; [assumption|].
  cbn. apply IH. destruct e; cbn; auto; discriminate.
Qed.

(** X18. The day buttons keep the two modes apart: after any sequence of
    clicks, whenever "Weekly" is on the date is empty.  So with a date picked
    the save sends exactly one weekday, even when weekdays were ticked
    earlier in the weekly mode, and in the weekly mode it sends the ticked
    weekdays; the save button is enabled exactly when one of the two modes
    is chosen and no save is pending. *)
Theorem day_modes_exclusive (Number : string -> Js.number) (events : list Event)
    (s0 : State) :
  newSpotRepeat s0 = false ->
  let s := run Number events s0 in
  (newSpotRepeat s = true -> newSpotDate s = "")
  /\ (forall localTZA spot,
        newSpot s = Some spot -> Js.truthy (newSpotDate s) = true ->
        exists d, option_map Dashboard.repeat_days (handleSaveSpot localTZA s)
                  = Some [d])
  /\ (forall localTZA spot,
        newSpot s = Some spot -> newSpotRepeat s = true ->
        option_map Dashboard.repeat_days (handleSaveSpot localTZA s)
        = Some (map Js.Num (newSpotRepeatDays s)))
  /\ (forall isPending,
        saveDisabled isPending s = false
        <-> isPending = false
            /\ (Js.truthy (newSpotDate s) = true \/ newSpotRepeat s = true)).
Proof.
  intros H0. cbv zeta.
  assert (newSpotRepeat (run Number events s0) = true ->
          newSpotDate (run Number events s0) = "") as Hinv
    by (apply run_day_modes; congruence).
  set (s := run Number events s0) in *.
  split; [assumption|]. split; [|split].
  - intros tz spot Hspot Hdate. unfold handleSaveSpot. rewrite Hspot, Hdate.
    destruct (newSpotRepeat s) eqn:Hr.
    + rewrite (Hinv eq_refl) in Hdate. discriminate.
    + cbn. eauto.
  - intros tz spot Hspot Hr. unfold handleSaveSpot. rewrite Hspot, Hr. reflexivity.
  - intros isPending. unfold saveDisabled.
    destruct isPending, (Js.truthy (newSpotDate s)), (newSpotRepeat s); cbn;
      split; try discriminate; try tauto; intros [? [?|?]]; discriminate.
Qed.

Lemma day_modes_exclusive_witness :
  let s := run decimalNumber [PickWeekly; ToggleDay 0; ToggleDay 2; PickDate "2025-06-01"]
             (initial (Some {| lat := "40.7"; lng := "-74.0";
                               name := "Cafe"; address := "1 River St" |})) in
  (newSpotRepeat s = true -> newSpotDate s = "")
  /\ (forall localTZA spot,
        newSpot s = Some spot -> Js.truthy (newSpotDate s) = true ->
        exists d, option_map Dashboard.repeat_days (handleSaveSpot localTZA s)
                  = Some [d])
  /\ (forall localTZA spot,
        newSpot s = Some spot -> newSpotRepeat s = true ->
        option_map Dashboard.repeat_days (handleSaveSpot localTZA s)
        = Some (map Js.Num (newSpotRepeatDays s)))
  /\ (forall isPending,
        saveDisabled isPending s = false
        <-> isPending = false
            /\ (Js.truthy (newSpotDate s) = true \/ newSpotRepeat s = true)).
Proof.
  apply (day_modes_exclusive decimalNumber
           [PickWeekly; ToggleDay 0; ToggleDay 2; PickDate "2025-06-01"]).
  reflexivity.
Defined.

Lemma hour_steppers_witness :
  hourUp decimalNumber (hhmm 23 30) = hhmm ((23 + 1) mod 24) 30
  /\ hourDown decimalNumber (hhmm 23 30) = hhmm ((23 + 23) mod 24) 30
  /\ hourDown decimalNumber (hourUp decimalNumber (hhmm 23 30)) = hhmm 23 30
  /\ hourUp decimalNumber (hourDown decimalNumber (hhmm 23 30)) = hhmm 23 30
  /\ clockTime (newSpotTimeStart
                  (run decimalNumber [PickPreset "18:00" "22:00"; EndUp; EndUp; StartDown]
                     (initial None)))
  /\ clockTime (newSpotTimeEnd
                  (run decimalNumber [PickPreset "18:00" "22:00"; EndUp; EndUp; StartDown]
                     (initial None))).
Proof.
  apply (hour_steppers decimalNumber decimalNumber_two_digits 23 30
           [PickPreset "18:00" "22:00"; EndUp; EndUp; StartDown] (initial None)).
  - lia.
  - lia.
  - repeat constructor. exists "Evening". cbn. auto.
  - exists 9%nat, 0%nat. repeat split; lia.
  - exists 17%nat, 0%nat. repeat split; lia.
Defined.

(** The evening preset with the end stepped up twice ends at midnight,
    "00:00", which is before its start as a text and as a clock time. *)
Example end_wraps_past_midnight :
  let s := run decimalNumber [PickPreset "18:00" "22:00"; EndUp; EndUp] (initial None) in
  newSpotTimeStart s = "18:00" /\ newSpotTimeEnd s = "00:00"
  /\ Js.lt (newSpotTimeStart s) (newSpotTimeEnd s) = false.
Proof. repeat split. Qed.

End Dashboard2Props.

Module DashboardSaveProps.
Import Dashboard.

(** X16. What an enabled save button sends: the times are the two time
    fields as they stand (no order check is made), the place is the picked
    spot, and the list of days is empty exactly in the weekly mode with no
    weekday ticked; in the one-time mode it has exactly one day. *)
Theorem save_sends (localTZA : Z) (isPending : bool) (s : State)
    (p : CreateAvailability) :
  clickSave localTZA isPending s = Some p ->
  isPending = false
  /\ (exists spot, newSpot s = Some spot
        /\ location_name p = address spot
        /\ latitude p = lat spot /\ longitude p = lng spot)
  /\ time_start p = newSpotTimeStart s
  /\ time_end p = newSpotTimeEnd s
  /\ (repeat_days p = [] <-> newSpotRepeat s = true /\ newSpotRepeatDays s = [])
  /\ (newSpotRepeat s = false -> length (repeat_days p) = 1%nat).
Proof.
  unfold clickSave, saveDisabled, handleSaveSpot.
  destruct isPending; [discriminate|]. cbn [orb].
  destruct (newSpot s) as [spot|]; [|destruct (_ && _); discriminate].
  destruct (newSpotRepeat s) eqn:Hr, (Js.truthy (newSpotDate s)) eqn:Hd; cbn;
    try discriminate; intros [= <-]; cbn;
    (split; [reflexivity|]); (split; [now exists spot|]);
    (split; [reflexivity|]); (split; [reflexivity|]); split;
    try discriminate; try reflexivity.
  - split; [intros H; split; [reflexivity|]|intros [_ ->]; reflexivity].
    destruct (newSpotRepeatDays s); [reflexivity|discriminate].
  - split; [intros H; split; [reflexivity|]|intros [_ ->]; reflexivity].
    destruct (newSpotRepeatDays s); [reflexivity|discriminate].
  - split; [discriminate|intros [? _]; discriminate].
Qed.

Lemma save_sends_witness :
  exists p,
    clickSave 0 false weeklyNoDayState = Some p
    /\ time_start p = newSpotTimeStart weeklyNoDayState
    /\ (repeat_days p = []
        <-> newSpotRepeat weeklyNoDayState = true
            /\ newSpotRepeatDays weeklyNoDayState = []).
Proof.
  eexists. split; [reflexivity|].
  pose proof (save_sends 0 false weeklyNoDayState _ eq_refl) as H.
  split; [exact (proj1 (proj2 (proj2 H)))|].
  exact (proj1 (proj2 (proj2 (proj2 (proj2 H))))).
Defined.

End DashboardSaveProps.

Module EditSessionProps.
Import EditSession.

Lemma deref_assign_eq (h : Store) (r : Ref) (a : list Z) :
  (r < List.length h)%nat -> deref (assign r a h) r = a.
Proof.
  intros Hr. unfold deref, assign, Store, Ref in *.
  now rewrite list_lookup_insert_eq.
Qed.

Lemma deref_assign_ne (h : Store) (r r' : Ref) (a : list Z) :
  r' <> r -> deref (assign r a h) r' = deref h r'.
Proof.
  intros Hr. unfold deref, assign, Store, Ref in *.
  now rewrite list_lookup_insert_ne by congruence.
Qed.

Lemma deref_alloc_old (h : Store) (a : list Z) (r : Ref) :
  (r < List.length h)%nat -> deref (h ++ [a]) r = deref h r.
Proof.
  intros Hr. unfold deref, Store, Ref in *. now rewrite lookup_app_l.
Qed.

Lemma deref_alloc_new (h : Store) (a : list Z) :
  deref (h ++ [a]) (List.length h) = a.
Proof.
  unfold deref, Store, Ref in *. rewrite lookup_app_r by lia.
  now rewrite Nat.sub_diag.
Qed.

Lemma readForm_withArray (h : Store) (r : Ref) (s : AvailabilityForm.State) :
  deref h r = AvailabilityForm.repeatDays s -> readForm h (withArray r s) = s.
Proof.
  intros Hr. unfold readForm, withArray. cbn. rewrite Hr. now destruct s.
Qed.

(** The two ways [handleSubmit] ends: a failed check, with the days as they
    were, or one submission, with the days sorted in the form and in what is
    sent. *)
Lemma handleSubmit_branches (onSubmit : AvailabilityForm.Submission -> option string)
    (s : AvailabilityForm.State) :
  let out := AvailabilityForm.handleSubmit onSubmit s in
  (AvailabilityForm.submitted out = []
   /\ AvailabilityForm.repeatDays (AvailabilityForm.state out)
      = AvailabilityForm.repeatDays s
   /\ AvailabilityForm.error (AvailabilityForm.state out) <> "")
  \/ (exists data,
         AvailabilityForm.submitted out = [data]
         /\ AvailabilityForm.repeat_days data
            = AvailabilityForm.sort_days (AvailabilityForm.repeatDays s)
         /\ AvailabilityForm.repeatDays s <> []
         /\ Js.lt (AvailabilityForm.time_start data)
                  (AvailabilityForm.time_end data) = true
         /\ AvailabilityForm.repeatDays (AvailabilityForm.state out)
            = AvailabilityForm.sort_days (AvailabilityForm.repeatDays s)
         /\ AvailabilityForm.error (AvailabilityForm.state out)
            = match onSubmit data with Some msg => msg | None => "" end).
Proof.
  cbv zeta. unfold AvailabilityForm.handleSubmit. cbn.
  destruct (AvailabilityForm.location s) as [loc|];
    [|left; cbn; repeat split; discriminate].
  destruct (AvailabilityForm.repeatDays s) as [|d ds] eqn:Hd;
    cbn [List.length Nat.eqb]; [left; cbn; repeat split; auto; discriminate|].
  unfold Js.ge.
  destruct (Js.lt (AvailabilityForm.timeStart s) (AvailabilityForm.timeEnd s)) eqn:Hlt;
    cbn [negb]; [|left; cbn; repeat split; auto; discriminate].
  right. eexists.
  match goal with |- context [onSubmit ?d0] => destruct (onSubmit d0) eqn:Hon end;
    cbn; rewrite ?Hon; repeat split; try discriminate; assumption.
Qed.

(** The page of the session moves as the page of [AvailabilityPage] does. *)
Lemma session_page (o : SlotObject) (s : State) :
  page (clickEdit o s)
  = AvailabilityPage.handle
      (AvailabilityPage.ClickEdit (readSlot (store s) o)) (page s).
Proof.
  unfold clickEdit, AvailabilityPage.handle.
  destruct (AvailabilityPage.editDisabled (page s)); reflexivity.
Qed.

(** X11. Submitting the edit form sends at most one PATCH; it goes to the
    slot being edited and carries the form's days in ascending order, at
    least one, and a start before the end.  If the server accepts it the
    edit form closes; if the server refuses it the form stays open with
    'Failed to update'; if a check fails nothing is sent and the store is
    as it was.  Whenever a PATCH is sent, accepted or refused, the form's
    array has been sorted where it is and no other array is touched: a form
    that still holds the slot's own array (as right after Edit is clicked)
    leaves the edited slot with its days in ascending order, while after a
    click on a day button the form holds a new array and the slot's days
    stay as they were. *)
Theorem edit_form_requests (serverOk : bool) (s : State) (o : SlotObject)
    (f : FormObject) :
  editing s = Some (o, f) ->
  (repeatDays f < List.length (store s))%nat ->
  let out := submitEdit serverOk s in
  let days := deref (store s) (repeatDays f) in
  (forall r, In r (requests out) ->
      requests out = [r]
      /\ exists data,
           r = {| AvailabilityPage.req_id := id o;
                  AvailabilityPage.req_data := AvailabilityPage.PatchData data |}
           /\ AvailabilityForm.repeat_days data = AvailabilityForm.sort_days days
           /\ days <> []
           /\ Js.lt (AvailabilityForm.time_start data)
                    (AvailabilityForm.time_end data) = true)
  /\ (requests out = [] ->
      store (state out) = store s
      /\ showForm (state out) = showForm s
      /\ exists f', editing (state out) = Some (o, f')
                    /\ repeatDays f' = repeatDays f /\ error f' <> "")
  /\ (requests out <> [] -> serverOk = true ->
      editing (state out) = None /\ showForm (state out) = showForm s)
  /\ (requests out <> [] -> serverOk = false ->
      showForm (state out) = showForm s
      /\ exists f', editing (state out) = Some (o, f')
                    /\ repeatDays f' = repeatDays f
                    /\ error f' = "Failed to update")
  /\ (requests out <> [] ->
      deref (store (state out)) (repeatDays f) = AvailabilityForm.sort_days days
      /\ (forall r, r <> repeatDays f ->
            deref (store (state out)) r = deref (store s) r)
      /\ (repeat_days o = repeatDays f ->
          AvailabilityPage.repeat_days (readSlot (store (state out)) o)
          = AvailabilityForm.sort_days
              (AvailabilityPage.repeat_days (readSlot (store s) o)))
      /\ (repeat_days o <> repeatDays f ->
          readSlot (store (state out)) o = readSlot (store s) o))
  /\ (forall o' s0,
        AvailabilityPage.editDisabled (page s0) = false ->
        editing (clickEdit o' s0) = Some (o', mount (store s0) o')
        /\ repeatDays (mount (store s0) o') = repeat_days o'
        /\ store (clickEdit o' s0) = store s0)
  /\ (forall day,
        (repeat_days o < List.length (store s))%nat ->
        exists f',
          editing (toggleDay day s) = Some (o, f')
          /\ repeatDays f' <> repeat_days o
          /\ (repeatDays f' < List.length (store (toggleDay day s)))%nat
          /\ readSlot (store (toggleDay day s)) o = readSlot (store s) o
          /\ readForm (store (toggleDay day s)) f'
             = AvailabilityForm.toggleDay day (readForm (store s) f)).
Proof.
  intros Hed Hvalid. cbv zeta.
  split; [|split; [|split; [|split; [|split; [|split]]]]].
  6: { intros o' s0 Hen. unfold clickEdit. rewrite Hen. cbn. auto. }
  6: { intros day Ho. unfold toggleDay. rewrite Hed. cbn.
       eexists. split; [reflexivity|]. cbn.
       split; [lia|]. split; [rewrite List.length_app; cbn; lia|].
       split.
       - unfold readSlot. now rewrite deref_alloc_old.
       - apply readForm_withArray. apply deref_alloc_new. }
  all: unfold submitEdit; rewrite Hed;
    set (onSubmit := fun data : AvailabilityForm.Submission =>
                       match AvailabilityPage.handleUpdate (page s) data with
                       | [] => None
                       | _ => if serverOk then None else Some "Failed to update"
                       end);
    destruct (handleSubmit_branches onSubmit (readForm (store s) f))
      as [(Hnone & Hsame & Herr)
         |(data & Hsub & Hdata & Hne & Hlt & Hsorted & Herr)];
    cbn [AvailabilityForm.repeatDays readForm] in *;
    [rewrite Hnone | rewrite Hsub];
    cbn [flat_map app state requests store showForm editing];
    unfold AvailabilityPage.handleUpdate, page; rewrite ?Hed;
    cbn [option_map AvailabilityPage.editingSlot fst readSlot AvailabilityPage.id
         app state requests store showForm editing].
  - intros r [].
  - intros r [<-|[]]. split; [reflexivity|]. exists data. auto.
  - intros _. split; [reflexivity|]. split; [reflexivity|].
    eexists. split; [reflexivity|]. cbn. split; [reflexivity|assumption].
  - discriminate.
  - intros H. now contradiction H.
  - intros _ ->. cbn. auto.
  - intros H. now contradiction H.
  - intros _ ->. cbn. split; [reflexivity|].
    eexists. split; [reflexivity|]. cbn. split; [reflexivity|].
    rewrite Herr. subst onSubmit. cbn.
    unfold AvailabilityPage.handleUpdate, page. rewrite Hed. reflexivity.
  - intros H. now contradiction H.
  - intros _. rewrite Hsorted.
    split; [now apply deref_assign_eq|].
    split; [intros r Hr; now apply deref_assign_ne|].
    split.
    + intros E. unfold readSlot. cbn [AvailabilityPage.repeat_days].
      rewrite E. now rewrite deref_assign_eq.
    + intros Hr. unfold readSlot. now rewrite deref_assign_ne.
Qed.

Lemma edit_form_requests_witness :
  let out := submitEdit false sampleEditing in
  requests out <> []
  /\ AvailabilityPage.repeat_days (readSlot (store sampleEditing) sampleSlot) = [2; 0]
  /\ AvailabilityPage.repeat_days (readSlot (store (state out)) sampleSlot)
     = AvailabilityForm.sort_days [2; 0].
Proof.
  cbv zeta.
  pose proof (edit_form_requests false sampleEditing sampleSlot
                (mount sampleStore sampleSlot) eq_refl
                ltac:(cbn; lia)) as H.
  cbv zeta in H.
  destruct H as (_ & _ & _ & _ & Hstore & _).
  assert (requests (submitEdit false sampleEditing) <> []) as Hsent
    by (vm_compute; discriminate).
  split; [exact Hsent|]. split; [reflexivity|].
  exact (proj1 (proj2 (proj2 (Hstore Hsent))) eq_refl).
Defined.

(** A slot stored with days [2, 0] is opened and submitted as it is, and the
    server refuses: the PATCH carried [0, 2], the form shows 'Failed to
    update', and the slot still being edited now reads [0, 2].  With a day
    ticked and unticked first the form holds its own array, and the slot
    keeps [2, 0]. *)
Example refused_patch_sorts_slot_days :
  let out := submitEdit false sampleEditing in
  let out' := submitEdit false (toggleDay 4 (toggleDay 4 sampleEditing)) in
  option_map AvailabilityPage.repeat_days (editedSlot sampleEditing) = Some [2; 0]
  /\ option_map AvailabilityPage.repeat_days (editedSlot (state out)) = Some [0; 2]
  /\ option_map (fun e => error (snd e)) (editing (state out))
     = Some "Failed to update"
  /\ option_map AvailabilityPage.repeat_days (editedSlot (state out')) = Some [2; 0]
  /\ map AvailabilityPage.req_data (requests out)
     = map AvailabilityPage.req_data (requests out').
Proof. repeat split. Qed.

End EditSessionProps.
